(** * NGO records backend: authentication and authorization

    A shallow embedding of the Express middleware of
    [backend/middleware/auth.js], of the users router
    ([backend/routes/users.js]), of the list routes of the volunteers and
    board routers, and of the mount points of [server.js], followed by the
    properties of the authentication and authorization design that hold of
    them, and by evaluations of the code where it departs from that design.

    Conventions of the embedding.
    - The relational store is an explicit value of type [DB] that every
      handler receives and returns.  Queries are total functions on it.
      The store errors a request can provoke by its own arguments (a path
      parameter that is no integer, a foreign-key violation on delete, a
      table or column that does not exist) are modelled and end in the
      [catch] of the handler; failures of the connection are left out.
    - Time is one millisecond clock, passed to each request as [now]; it
      stands both for [new Date()] in the handlers and for [NOW()] in SQL.
    - Calls into libraries ([jsonwebtoken], [bcrypt], [express-validator],
      [Number], the integer cast of the store) are the fields of the class
      [Runtime], so that every property holds whatever they compute;
      [uuidv4()] is an argument of the login handler.
    - A request body field that is absent is the empty string.
    - [undefined], [null] and the empty string are all falsy in JavaScript;
      an optional string is [option string] and [truthy] tells them apart
      the way [!x] does. *)

From Stdlib Require Import ZArith Lia Ascii String List.
From stdpp Require Import base decidable option list strings pretty gmap sorting.

Local Open Scope string_scope.
Local Open Scope Z_scope.

(** ** JavaScript string primitives used by the source *)

Module JS.

(** [!!s] for a string that may be [undefined]. *)
Definition truthy (o : option string) : bool :=
  match o with
  | Some s => negb (String.eqb s "")
  | None => false
  end.

(** [s.startsWith(p)]. *)
Definition startsWith (p s : string) : bool := String.prefix p s.

(** [s.slice(n)] for [0 <= n]. *)
Fixpoint slice (n : nat) (s : string) : string :=
  match n, s with
  | O, _ => s
  | S n', String _ s' => slice n' s'
  | S _, EmptyString => EmptyString
  end.

(** [s.split(c)] for a one-character separator: always at least one
    piece. *)
Fixpoint split_go (c : ascii) (cur : string) (s : string) : list string :=
  match s with
  | EmptyString => [String.rev cur]
  | String a s' =>
      if Ascii.eqb a c then String.rev cur :: split_go c EmptyString s'
      else split_go c (String a cur) s'
  end.

Definition split (c : ascii) (s : string) : list string :=
  split_go c EmptyString s.

(** The ASCII letters [a] to [z]. *)
Definition is_lower (a : ascii) : bool :=
  let n := nat_of_ascii a in (Nat.leb 97 n && Nat.leb n 122)%bool.

Fixpoint has_lower (s : string) : bool :=
  match s with
  | EmptyString => false
  | String a s' => (is_lower a || has_lower s')%bool
  end.

Definition upper_ascii (a : ascii) : ascii :=
  if is_lower a then ascii_of_nat (nat_of_ascii a - 32) else a.

(** [s.toUpperCase()] on ASCII text (HTTP method tokens are ASCII). *)
Fixpoint toUpperCase (s : string) : string :=
  match s with
  | EmptyString => EmptyString
  | String a s' => String (upper_ascii a) (toUpperCase s')
  end.

(** [String(n)] for an integer. *)
Definition String_of_Z (n : Z) : string := pretty n.

(** [Math.ceil(a / b)] for integers [a] and [0 < b]. *)
Definition ceil_div (a b : Z) : Z := - ((- a) / b).

End JS.

(** ** Data model *)

(** The payload [createAccessToken] signs and [verifyToken] attaches to the
    request as [req.user].  A missing [role] is the empty string. *)
Record Principal := {
  p_user_id : Z;
  p_email : string;
  p_role : string;
}.

(** A row of [users]. *)
Record User := {
  user_id : Z;
  username : string;
  email : string;
  password_hash : string;
  user_role : string;
  approval_status : string;
  failed_attempts : option Z;
  locked_until : option Z;
  created_at : Z;
  updated_at : option Z;
}.

(** A row of [refresh_tokens]. *)
Record RefreshRow := {
  rt_user_id : Z;
  rt_refresh_token : string;
  rt_issued_at : Z;
  rt_expires_at : Z;
  rt_device : option string;
}.

(** A column value as the driver hands it to JavaScript. *)
Inductive SqlValue :=
| VNull
| VInt (n : Z)
| VText (s : string).

#[global] Instance SqlValue_eq_dec : EqDecision SqlValue.
Proof. solve_decision. Defined.

(** [String(v)] for a column value. *)
Definition String_of_col (v : SqlValue) : string :=
  match v with
  | VNull => "null"
  | VInt n => JS.String_of_Z n
  | VText s => s
  end.

(** A row of a record table: column name to value. *)
Abbreviation Row := (gmap string SqlValue).

(** Modelled from the spec: the schema under the sources declares neither
    [revoked_tokens] nor [refresh_tokens] nor the approval and lockout
    columns of [users].  [revoked_tokens] is the "persisted set" of raw
    access tokens of the data model (the insert of logout is
    [ON CONFLICT DO NOTHING] on the token), and [referenced] is the set of
    account ids that rows of other tables still point to, which is what
    makes the store refuse a delete with SQLSTATE 23503. *)
Record DB := {
  users : list User;
  refresh_tokens : list RefreshRow;
  revoked_tokens : gset string;
  tables : gmap string (list Row);
  referenced : gset Z;
}.

(** The part of an Express request the auth subsystem reads. *)
Record Request := {
  method : string;
  baseUrl : string;
  param_id : option string;
  authorization : option string;
  cookie_access_token : option string;
  cookie_refresh_token : option string;
  user_agent : option string;
  body_email : string;
  body_password : string;
  body_reason : option string;
  user : option Principal;
}.

Definition with_body_email (req : Request) (e : string) : Request :=
  {| method := method req; baseUrl := baseUrl req; param_id := param_id req;
     authorization := authorization req;
     cookie_access_token := cookie_access_token req;
     cookie_refresh_token := cookie_refresh_token req;
     user_agent := user_agent req; body_email := e;
     body_password := body_password req; body_reason := body_reason req;
     user := user req |}.

Definition with_user (req : Request) (p : Principal) : Request :=
  {| method := method req; baseUrl := baseUrl req; param_id := param_id req;
     authorization := authorization req;
     cookie_access_token := cookie_access_token req;
     cookie_refresh_token := cookie_refresh_token req;
     user_agent := user_agent req; body_email := body_email req;
     body_password := body_password req; body_reason := body_reason req;
     user := Some p |}.

(** The columns the users router returns to clients. *)
Record UserView := {
  v_user_id : Z;
  v_username : string;
  v_email : string;
  v_user_role : option string;
  v_approval_status : string;
  v_created_at : option Z;
}.

(** [user_id, username, email, user_role, approval_status, created_at]. *)
Definition view_full (u : User) : UserView :=
  {| v_user_id := user_id u; v_username := username u; v_email := email u;
     v_user_role := Some (user_role u);
     v_approval_status := approval_status u;
     v_created_at := Some (created_at u) |}.

(** [RETURNING user_id, username, email, approval_status]. *)
Definition view_approval (u : User) : UserView :=
  {| v_user_id := user_id u; v_username := username u; v_email := email u;
     v_user_role := None;
     v_approval_status := approval_status u;
     v_created_at := None |}.

Inductive Body :=
| JError (error : string)
| JMessage (message : string)
| JMessageUser (message : string) (u : UserView)
| JUsers (rows : list UserView)
| JUserRow (u : UserView)
| JRows (rows : list Row)
| JData (rows : list Row)
| JFail (fields : list string)
| Text (s : string)
| JRow (row : Row).

Record CookieOptions := {
  httpOnly : bool;
  secure : bool;
  sameSite : string;
  maxAge : option Z;
  expires : option Z;
}.

Inductive CookieOp :=
| SetCookie (name value : string) (opts : CookieOptions)
| ClearCookie (name : string) (opts : CookieOptions).

Record Response := {
  status : Z;
  body : Body;
  cookies : list CookieOp;
}.

Definition respond (code : Z) (b : Body) : Response :=
  {| status := code; body := b; cookies := [] |}.

(** What a middleware does: call [next()] (possibly after attaching
    [req.user]) or end the request with a response. *)
Inductive MwResult :=
| Next (req : Request)
| Done (res : Response).

Definition Middleware := Z -> DB -> Request -> MwResult.
Definition Handler := Z -> Request -> DB -> Response * DB.

(** [router.METHOD(path, m1, ..., mk, handler)]: the middlewares run in
    order, the handler only if each of them called [next()]. *)
Fixpoint run (chain : list Middleware) (h : Handler)
    (now : Z) (req : Request) (db : DB) : Response * DB :=
  match chain with
  | [] => h now req db
  | m :: rest =>
      match m now db req with
      | Next req' => run rest h now req' db
      | Done res => (res, db)
      end
  end.

(** Arguments a JavaScript caller may pass. *)
Inductive JsValue :=
| JStr (s : string)
| JStrArray (items : list string)
| JUndefined.

(** ** Library calls *)

Class Runtime := {
  (** [jwt.sign(payload, JWT_SECRET, { expiresIn: JWT_EXPIRES_IN })]. *)
  jwt_sign : Principal -> Z -> string;
  (** [jwt.verify(token, JWT_SECRET)]; [None] when it throws. *)
  jwt_verify : string -> Z -> option Principal;
  (** [bcrypt.compare(password, hash)]. *)
  bcrypt_compare : string -> string -> bool;
  (** [normalizeEmail()] and [isEmail()] of express-validator. *)
  normalizeEmail : string -> string;
  isEmail : string -> bool;
  (** [Number(s)] of a path parameter; [None] is [NaN] (or no integer). *)
  js_Number : string -> option Z;
  (** The store's cast of a text parameter to the integer key of [users];
      [None] when the store raises instead. *)
  pg_int : string -> option Z;
  REFRESH_DAYS : Z;
  isProd : bool;
}.

(** ** [backend/middleware/auth.js] *)

Module Auth.

(** What [obj[key]] finds on an object literal: an own property, a
    property inherited from [Object.prototype] (truthy, but it is not one
    of the literal's entries), or [undefined]. *)
Inductive Lookup (A : Type) :=
| Own (a : A)
| Inherited
| Undefined.
Arguments Own {A} a.
Arguments Inherited {A}.
Arguments Undefined {A}.

Definition object_prototype_keys : list string :=
  [ "constructor"; "__proto__"; "hasOwnProperty"; "isPrototypeOf";
    "propertyIsEnumerable"; "toLocaleString"; "toString"; "valueOf";
    "__defineGetter__"; "__defineSetter__"; "__lookupGetter__";
    "__lookupSetter__" ].

Definition inherited_key (k : string) : bool :=
  existsb (String.eqb k) object_prototype_keys.

(** One row of the role × verb table. *)
Record VerbRules := {
  GET : bool;
  POST : bool;
  PUT : bool;
  PATCH : bool;
  DELETE : bool;
}.

(** [const rules = { member: {...}, staff: {...}, ... }] and [rules[role]]. *)
Definition rules (role : string) : Lookup VerbRules :=
  if String.eqb role "member" then
    Own {| GET := true; POST := false; PUT := false; PATCH := false; DELETE := false |}
  else if String.eqb role "staff" then
    Own {| GET := true; POST := true; PUT := true; PATCH := true; DELETE := false |}
  else if String.eqb role "admin" then
    Own {| GET := true; POST := true; PUT := true; PATCH := true; DELETE := true |}
  else if String.eqb role "finance" then
    Own {| GET := true; POST := true; PUT := false; PATCH := false; DELETE := false |}
  else if String.eqb role "super_admin" then
    Own {| GET := true; POST := true; PUT := true; PATCH := true; DELETE := true |}
  else if inherited_key role then Inherited
  else Undefined.

(** [roleRules[method]] for an upper-cased [method]: every other key,
    inherited ones included, has a lower-case letter, so the lookup is
    [undefined] (falsy) outside the five verbs. *)
Definition allowed_verb (r : VerbRules) (m : string) : bool :=
  if String.eqb m "GET" then GET r
  else if String.eqb m "POST" then POST r
  else if String.eqb m "PUT" then PUT r
  else if String.eqb m "PATCH" then PATCH r
  else if String.eqb m "DELETE" then DELETE r
  else false.

Section WithRuntime.
Context `{Runtime}.

(** The token [verifyToken] settles on: the bearer value of the
    [Authorization] header, else the [access_token] cookie. *)
Definition extract_token (req : Request) : option string :=
  let authHeader :=
    if JS.truthy (authorization req) then default "" (authorization req) else "" in
  let token :=
    if JS.startsWith "Bearer " authHeader then Some (JS.slice 7 authHeader) else None in
  if (negb (JS.truthy token) && JS.truthy (cookie_access_token req))%bool
  then cookie_access_token req
  else token.

Definition verifyToken : Middleware := fun now db req =>
  let token := extract_token req in
  if negb (JS.truthy token) then
    Done (respond 401 (JError "Missing token"))
  else
    let t := default "" token in
    if bool_decide (t ∈ revoked_tokens db) then
      Done (respond 401 (JError "Token revoked. Please log in again."))
    else
      match jwt_verify t now with
      | Some decoded =>
          Next (with_user req
                  {| p_user_id := p_user_id decoded;
                     p_email := p_email decoded;
                     p_role := p_role decoded |})
      | None => Done (respond 401 (JError "Invalid or expired token"))
      end.

(** [requireRole(...allowedRoles)]. *)
Definition requireRole (allowedRoles : list string) : Middleware :=
  fun now db req =>
    match user req with
    | None => Done (respond 401 (JError "Unauthorized"))
    | Some u =>
        if (existsb (String.eqb (p_role u)) allowedRoles
            || String.eqb (p_role u) "super_admin")%bool
        then Next req
        else Done (respond 403 (JError "Forbidden: insufficient permissions"))
    end.

(** [req.user?.role]. *)
Definition role_of (req : Request) : option string :=
  p_role <$> user req.

(** [rbacAccess()]: the function declares no parameter, so whatever a
    caller passes is dropped. *)
Definition rbacAccess (_ : list JsValue) : Middleware :=
  fun now db req =>
    let role := role_of req in
    let method := JS.toUpperCase (method req) in
    if negb (JS.truthy role) then
      Done (respond 401 (JError "Unauthorized: no role"))
    else
      let role := default "" role in
      match rules role with
      | Undefined =>
          Done (respond 403 (JError ("Role '" +:+ role +:+ "' not recognized")))
      | Inherited =>
          Done (respond 403
                  (JError ("Role '" +:+ role +:+ "' not allowed to " +:+ method)))
      | Own roleRules =>
          if negb (allowed_verb roleRules method) then
            Done (respond 403
                    (JError ("Role '" +:+ role +:+ "' not allowed to " +:+ method)))
          else Next req
      end.

(** One entry of the ownership map. *)
Record OwnerCfg := {
  table : string;
  idcol : string;
  ownercol : string;
}.

(** [const map = { students_frf_owner: {...}, ... }] and [map[entity]]. *)
Definition owner_map (entity : string) : Lookup OwnerCfg :=
  if String.eqb entity "students_frf_owner" then
    Own {| table := "students"; idcol := "id"; ownercol := "student_frf_owner" |}
  else if String.eqb entity "volunteers_frf_owner" then
    Own {| table := "volunteers"; idcol := "id"; ownercol := "volunteer_frf_owner" |}
  else if String.eqb entity "donors_frf_owner" then
    Own {| table := "donors"; idcol := "id"; ownercol := "donor_frf_owner" |}
  else if String.eqb entity "board_frf_owner" then
    Own {| table := "board_members"; idcol := "id"; ownercol := "board_frf_owner" |}
  else if String.eqb entity "projects_frf_owner" then
    Own {| table := "projects"; idcol := "id"; ownercol := "project_frf_owner" |}
  else if String.eqb entity "finance_frf_owner" then
    Own {| table := "finance_reports"; idcol := "id";
           ownercol := "finance_report_frf_owner" |}
  else if inherited_key entity then Inherited
  else Undefined.

(** [SELECT ownercol FROM table WHERE idcol = $1 LIMIT 1]: [None] when
    the store raises (no such table, no such column), else the owner
    values of at most one row. *)
Definition select_owner (cfg : OwnerCfg) (recordId : string) (db : DB)
    : option (list SqlValue) :=
  match tables db !! table cfg with
  | None => None
  | Some rows =>
      match filter (fun r : Row => r !! idcol cfg = Some (VText recordId)) rows with
      | [] => Some []
      | r :: _ =>
          match r !! ownercol cfg with
          | Some v => Some [v]
          | None => None
          end
      end
  end.

(** [parts[parts.length - 1]] of [req.baseUrl.split('/')]. *)
Definition entity_of (req : Request) : string :=
  List.last (JS.split "/" (baseUrl req)) "".

Definition requireOwnerOrAdmin : Middleware := fun now db req =>
  match user req with
  | None => Done (respond 401 (JError "Unauthorized"))
  | Some u =>
      let role := p_role u in
      if (String.eqb role "admin" || String.eqb role "staff"
          || String.eqb role "super_admin")%bool
      then Next req
      else
        let entity := entity_of req in
        match owner_map entity with
        | Undefined =>
            Done (respond 400 (JError "requireOwnerOrAdmin: unknown entity"))
        | cfg =>
            if negb (JS.truthy (param_id req)) then
              Done (respond 400 (JError "Missing resource id"))
            else
              let recordId := default "" (param_id req) in
              match cfg with
              | Own cfg =>
                  match select_owner cfg recordId db with
                  | None => Done (respond 500 (JError "Server error"))
                  | Some [] => Done (respond 404 (JError "Record not found"))
                  | Some (recordOwner :: _) =>
                      if (String.eqb (String_of_col recordOwner) (p_email u)
                          || String.eqb (String_of_col recordOwner)
                               (JS.String_of_Z (p_user_id u)))%bool
                      then Next req
                      else Done (respond 403 (JError "Forbidden: not owner"))
                  end
              | _ => Done (respond 500 (JError "Server error"))
              end
        end
  end.

(** [requireReadAccess]. *)
Definition requireReadAccess : Middleware := fun now db req =>
  if negb (JS.truthy (role_of req)) then
    Done (respond 401 (JError "Unauthorized"))
  else Next req.

End WithRuntime.

End Auth.

(** ** [backend/routes/users.js] *)

Module Users.

(** [UPDATE users SET ... WHERE user_id = uid]. *)
Definition update_users (uid : Z) (f : User -> User) (us : list User) : list User :=
  (fun u => if decide (user_id u = uid) then f u else u) <$> us.

Definition set_lockout (attempts : option Z) (locked : option Z) (u : User) : User :=
  {| user_id := user_id u; username := username u; email := email u;
     password_hash := password_hash u; user_role := user_role u;
     approval_status := approval_status u;
     failed_attempts := attempts; locked_until := locked;
     created_at := created_at u; updated_at := updated_at u |}.

Definition set_failed_attempts (attempts : Z) (u : User) : User :=
  set_lockout (Some attempts) (locked_until u) u.

Definition set_approval (st : string) (now : Z) (u : User) : User :=
  {| user_id := user_id u; username := username u; email := email u;
     password_hash := password_hash u; user_role := user_role u;
     approval_status := st;
     failed_attempts := failed_attempts u; locked_until := locked_until u;
     created_at := created_at u; updated_at := Some now |}.

Definition with_users (db : DB) (us : list User) : DB :=
  {| users := us; refresh_tokens := refresh_tokens db;
     revoked_tokens := revoked_tokens db; tables := tables db;
     referenced := referenced db |}.

Definition with_refresh_tokens (db : DB) (rs : list RefreshRow) : DB :=
  {| users := users db; refresh_tokens := rs;
     revoked_tokens := revoked_tokens db; tables := tables db;
     referenced := referenced db |}.

Definition with_revoked_tokens (db : DB) (ts : gset string) : DB :=
  {| users := users db; refresh_tokens := refresh_tokens db;
     revoked_tokens := ts; tables := tables db;
     referenced := referenced db |}.

(** [SELECT * FROM users WHERE email = $1]. *)
Definition users_by_email (e : string) (db : DB) : list User :=
  filter (fun u => email u = e) (users db).

(** [SELECT ... FROM users WHERE user_id = $1]. *)
Definition users_by_id (uid : Z) (db : DB) : list User :=
  filter (fun u => user_id u = uid) (users db).

(** [ORDER BY created_at ASC]. *)
Definition older (a b : User) : Prop := created_at a ≤ created_at b.

#[global] Instance older_dec a b : Decision (older a b).
Proof. unfold older. apply _. Defined.

(** The lockout constants of the login handler. *)
Definition LOCK_THRESHOLD : Z := 5.
Definition LOCK_MS : Z := 15 * 60 * 1000.

(** [user.locked_until && new Date(user.locked_until) > new Date()]. *)
Definition locked_at (now : Z) (u : User) : bool :=
  match locked_until u with
  | Some t => now <? t
  | None => false
  end.

(** [Math.ceil((new Date(user.locked_until) - new Date()) / 60000)]. *)
Definition lock_minutes (now : Z) (u : User) : Z :=
  JS.ceil_div (default 0 (locked_until u) - now) 60000.

Definition locked_message (mins : Z) : string :=
  "Account locked. Try again in " +:+ JS.String_of_Z mins +:+ " minutes.".

Section WithRuntime.
Context `{Runtime}.

Definition createAccessToken (now : Z) (u : User) : string :=
  jwt_sign {| p_user_id := user_id u; p_email := email u; p_role := user_role u |} now.

(** [createRefreshToken()], given the value [uuidv4()] returns. *)
Definition createRefreshToken (uuid : string) (now : Z) : string * Z :=
  (uuid, now + REFRESH_DAYS * 24 * 60 * 60 * 1000).

Definition cookieOptions (max_age : option Z) : CookieOptions :=
  {| httpOnly := true; secure := isProd;
     sameSite := if isProd then "Strict" else "Lax";
     maxAge := match max_age with
               | Some m => if m =? 0 then None else Some m
               | None => None
               end;
     expires := None |}.

Definition with_expires (o : CookieOptions) (e : Z) : CookieOptions :=
  {| httpOnly := httpOnly o; secure := secure o; sameSite := sameSite o;
     maxAge := maxAge o; expires := Some e |}.

(** [loginValidation]: normalise and check the email, require a
    password, answer 400 otherwise. *)
Definition loginValidation : Middleware := fun now db req =>
  let req' := with_body_email req (normalizeEmail (body_email req)) in
  let errors :=
    ((if isEmail (body_email req') then [] else ["email"]) ++
     (if String.eqb (body_password req') "" then ["password"] else []))%list in
  match errors with
  | [] => Next req'
  | _ => Done (respond 400 (JFail errors))
  end.

(** A login request that gets past [loginValidation]. *)
Definition well_formed (req : Request) : Prop :=
  isEmail (normalizeEmail (body_email req)) = true ∧ body_password req ≠ "".

(** The handler of [POST /login]. *)
Definition login (uuid : string) : Handler := fun now req db =>
  match users_by_email (body_email req) db with
  | [] => (respond 401 (JError "Invalid credentials"), db)
  | user :: _ =>
      if negb (String.eqb (approval_status user) "APPROVED") then
        let msg :=
          if String.eqb (approval_status user) "REJECTED"
          then "Account has been rejected by admin"
          else "Account pending admin approval" in
        (respond 403 (JError msg), db)
      else if locked_at now user then
        let mins := lock_minutes now user in
        (respond 403 (JError (locked_message mins)), db)
      else if negb (bcrypt_compare (body_password req) (password_hash user)) then
        let attempts := default 0 (failed_attempts user) + 1 in
        let db' :=
          if LOCK_THRESHOLD <=? attempts then
            with_users db
              (update_users (user_id user)
                 (set_lockout (Some attempts) (Some (now + LOCK_MS))) (users db))
          else
            with_users db
              (update_users (user_id user) (set_failed_attempts attempts) (users db)) in
        (respond 401 (JError "Invalid credentials"), db')
      else
        let db1 :=
          with_users db
            (update_users (user_id user) (set_lockout (Some 0) None) (users db)) in
        let accessToken := createAccessToken now user in
        let refresh := createRefreshToken uuid now in
        let db2 :=
          with_refresh_tokens db1
            (refresh_tokens db1 ++
               [{| rt_user_id := user_id user; rt_refresh_token := fst refresh;
                   rt_issued_at := now; rt_expires_at := snd refresh;
                   rt_device := if JS.truthy (user_agent req)
                                then user_agent req else None |}])%list in
        ({| status := 200; body := JMessage "Login successful";
            cookies :=
              [ SetCookie "access_token" accessToken
                  (cookieOptions (Some (15 * 60 * 1000)));
                SetCookie "refresh_token" (fst refresh)
                  (with_expires (cookieOptions None) (snd refresh)) ] |},
         db2)
  end.

(** [router.post('/login', loginValidation, ...)]. *)
Definition post_login (uuid : string) : Handler :=
  run [loginValidation] (login uuid).

(** One call of [POST /login]: when it arrives, what it carries, and what
    [uuidv4()] would return for it. *)
Record Attempt := {
  at_time : Z;
  at_request : Request;
  at_uuid : string;
}.

(** A well-formed call that names the email of account [u]. *)
Definition login_call_for (u : User) (a : Attempt) : Prop :=
  well_formed (at_request a)
  ∧ normalizeEmail (body_email (at_request a)) = email u.

(** A failed login is one answered 401. *)
Definition failed (res : Response) : Prop := status res = 401.

(** A run of calls of [POST /login] served one after the other: each call
    is answered before the next one arrives.  Calls that overlap are played
    by [play] below. *)
Fixpoint replay (calls : list Attempt) (db : DB) : list Response * DB :=
  match calls with
  | [] => ([], db)
  | a :: rest =>
      let '(res, db1) := post_login (at_uuid a) (at_time a) (at_request a) db in
      let '(more, db2) := replay rest db1 in
      (res :: more, db2)
  end.

(** *** Logins that overlap

    The handler of [POST /login] hands control back at every [await], so
    another request may be served between its [SELECT] and its [UPDATE].
    [Turn] is where the handler stands once its rows have come back: it has
    answered, or it waits for [bcrypt.compare] holding [rows[0]]. *)
Inductive Turn :=
| Answered (res : Response)
| Comparing (user : User).

(** From the [SELECT] to [await bcrypt.compare]. *)
Definition login_first (now : Z) (req : Request) (db : DB) : Turn :=
  match users_by_email (body_email req) db with
  | [] => Answered (respond 401 (JError "Invalid credentials"))
  | user :: _ =>
      if negb (String.eqb (approval_status user) "APPROVED") then
        let msg :=
          if String.eqb (approval_status user) "REJECTED"
          then "Account has been rejected by admin"
          else "Account pending admin approval" in
        Answered (respond 403 (JError msg))
      else if locked_at now user then
        let mins := lock_minutes now user in
        Answered (respond 403 (JError (locked_message mins)))
      else Comparing user
  end.

(** From the answer of [bcrypt.compare] on: [user] is the row read in the
    first turn, the store is the one found now.  A failed login writes
    once; the two writes of a successful one (the reset in [users], the new
    row in [refresh_tokens]) are taken together. *)
Definition login_second (uuid : string) (user : User) : Handler := fun now req db =>
  if negb (bcrypt_compare (body_password req) (password_hash user)) then
    let attempts := default 0 (failed_attempts user) + 1 in
    let db' :=
      if LOCK_THRESHOLD <=? attempts then
        with_users db
          (update_users (user_id user)
             (set_lockout (Some attempts) (Some (now + LOCK_MS))) (users db))
      else
        with_users db
          (update_users (user_id user) (set_failed_attempts attempts) (users db)) in
    (respond 401 (JError "Invalid credentials"), db')
  else
    let db1 :=
      with_users db
        (update_users (user_id user) (set_lockout (Some 0) None) (users db)) in
    let accessToken := createAccessToken now user in
    let refresh := createRefreshToken uuid now in
    let db2 :=
      with_refresh_tokens db1
        (refresh_tokens db1 ++
           [{| rt_user_id := user_id user; rt_refresh_token := fst refresh;
               rt_issued_at := now; rt_expires_at := snd refresh;
               rt_device := if JS.truthy (user_agent req)
                            then user_agent req else None |}])%list in
    ({| status := 200; body := JMessage "Login successful";
        cookies :=
          [ SetCookie "access_token" accessToken
              (cookieOptions (Some (15 * 60 * 1000)));
            SetCookie "refresh_token" (fst refresh)
              (with_expires (cookieOptions None) (snd refresh)) ] |},
     db2).

(** A login suspended at [bcrypt.compare]. *)
Record Waiting := {
  w_uuid : string;
  w_request : Request;
  w_user : User;
}.

(** The store, the logins in flight and the answers given so far. *)
Record Server := {
  store : DB;
  waiting : list Waiting;
  answers : list Response;
}.

Definition boot (db : DB) : Server :=
  {| store := db; waiting := []; answers := [] |}.

(** What the event loop does next: a login arrives and runs up to its
    first answer or to [bcrypt.compare], or the [k]-th login in flight
    resumes at time [now]. *)
Inductive Event :=
| Arrives (a : Attempt)
| Resumes (k : nat) (now : Z).

Definition step (s : Server) (e : Event) : Server :=
  match e with
  | Arrives a =>
      match loginValidation (at_time a) (store s) (at_request a) with
      | Done res =>
          {| store := store s; waiting := waiting s;
             answers := (answers s ++ [res])%list |}
      | Next req =>
          match login_first (at_time a) req (store s) with
          | Answered res =>
              {| store := store s; waiting := waiting s;
                 answers := (answers s ++ [res])%list |}
          | Comparing user =>
              {| store := store s;
                 waiting := (waiting s ++ [{| w_uuid := at_uuid a; w_request := req;
                                              w_user := user |}])%list;
                 answers := answers s |}
          end
      end
  | Resumes k now =>
      match waiting s !! k with
      | None => s
      | Some w =>
          let '(res, db') := login_second (w_uuid w) (w_user w) now (w_request w)
                               (store s) in
          {| store := db'; waiting := delete k (waiting s);
             answers := (answers s ++ [res])%list |}
      end
  end.

Definition play (es : list Event) (s : Server) : Server := fold_left step es s.

(** [SELECT * FROM refresh_tokens WHERE refresh_token=$1 AND expires_at > NOW()]. *)
Definition live_sessions (token : string) (now : Z) (db : DB) : list RefreshRow :=
  filter (fun r => rt_refresh_token r = token ∧ now < rt_expires_at r)
         (refresh_tokens db).

(** [router.post('/refresh', ...)]. *)
Definition post_refresh : Handler := fun now req db =>
  let token := cookie_refresh_token req in
  if negb (JS.truthy token) then
    (respond 400 (JError "Missing refresh token"), db)
  else
    match live_sessions (default "" token) now db with
    | [] => (respond 401 (JError "Invalid refresh token"), db)
    | row :: _ =>
        match users_by_id (rt_user_id row) db with
        | [] => (respond 401 (JError "User not found"), db)
        | user :: _ =>
            let accessToken := createAccessToken now user in
            ({| status := 200; body := JMessage "Access token refreshed";
                cookies :=
                  [ SetCookie "access_token" accessToken
                      (cookieOptions (Some (15 * 60 * 1000))) ] |},
             db)
        end
    end.

(** [INSERT INTO revoked_tokens (token) VALUES ($1) ON CONFLICT DO NOTHING]. *)
Definition revoke (token : string) (db : DB) : DB :=
  with_revoked_tokens db ({[ token ]} ∪ revoked_tokens db).

(** [DELETE FROM refresh_tokens WHERE refresh_token = $1]. *)
Definition delete_session (token : string) (db : DB) : DB :=
  with_refresh_tokens db
    (filter (fun r => rt_refresh_token r ≠ token) (refresh_tokens db)).

(** [req.cookies?.access_token || req.headers.authorization?.split(' ')[1]]. *)
Definition logout_access_token (req : Request) : option string :=
  if JS.truthy (cookie_access_token req) then cookie_access_token req
  else a ← authorization req; JS.split " " a !! 1%nat.

(** [router.post('/logout', ...)]. *)
Definition post_logout : Handler := fun now req db =>
  let refreshToken := cookie_refresh_token req in
  let accessToken := logout_access_token req in
  let db1 :=
    if JS.truthy refreshToken then delete_session (default "" refreshToken) db
    else db in
  let db2 :=
    if JS.truthy accessToken then revoke (default "" accessToken) db1 else db1 in
  ({| status := 200; body := JMessage "Logged out successfully";
      cookies := [ ClearCookie "access_token" (cookieOptions None);
                   ClearCookie "refresh_token" (cookieOptions None) ] |},
   db2).

(** The handler of [GET /pending]: the PENDING accounts, oldest first. *)
Definition pending : Handler := fun now req db =>
  let rows :=
    merge_sort older
      (filter (fun u => approval_status u = "PENDING") (users db)) in
  (respond 200 (JUsers (view_full <$> rows)), db).

(** How the store reads a path parameter compared with [user_id]:
    [None] when it raises, [Some None] for [NULL] (no row matches). *)
Definition key_of_param (p : option string) : option (option Z) :=
  match p with
  | None => Some None
  | Some s => Some <$> pg_int s
  end.

Definition rows_of_key (k : option Z) (db : DB) : list User :=
  match k with
  | Some n => users_by_id n db
  | None => []
  end.

(** [UPDATE users SET approval_status=st, updated_at=NOW()
     WHERE user_id=$1 RETURNING ...].  The notification mail that
    follows is sent inside its own [try], outside the store. *)
Definition transition (st msg : string) : Handler := fun now req db =>
  match key_of_param (param_id req) with
  | None => (respond 500 (JError "Server error"), db)
  | Some k =>
      match rows_of_key k db with
      | [] => (respond 404 (JError "User not found"), db)
      | u :: _ =>
          (respond 200 (JMessageUser msg (view_approval (set_approval st now u))),
           with_users db (update_users (user_id u) (set_approval st now) (users db)))
      end
  end.

(** The handlers of [POST /:id/approve] and [POST /:id/reject]. *)
Definition approve : Handler := transition "APPROVED" "User approved".
Definition reject : Handler := transition "REJECTED" "User rejected".

(** The handler of [DELETE /:id]. *)
Definition delete_user : Handler := fun now req db =>
  match user req with
  | None => (respond 500 (JError "Server error"), db)
  | Some requester =>
      let targetId := param_id req in
      if bool_decide (targetId ≫= js_Number = Some (p_user_id requester)) then
        (respond 403 (JError "You cannot delete your own account"), db)
      else
        match key_of_param targetId with
        | None => (respond 500 (JError "Server error"), db)
        | Some k =>
            match rows_of_key k db with
            | [] => (respond 404 (JError "User not found"), db)
            | target :: _ =>
                if String.eqb (user_role target) "super_admin" then
                  (respond 403 (JError "Super Admin cannot be deleted"), db)
                else if (String.eqb (p_role requester) "admin"
                         && negb (String.eqb (user_role target) "member"))%bool then
                  (respond 403 (JError "Admins can only delete members"), db)
                else if bool_decide (user_id target ∈ referenced db) then
                  (respond 400
                     (JError "Cannot delete user: dependent records exist"), db)
                else
                  (respond 200 (JMessage "User deleted successfully"),
                   with_users db
                     (filter (fun u => user_id u ≠ user_id target) (users db)))
            end
        end
  end.

(** The argument the admin routes hand to [rbacAccess]. *)
Definition admin_only : list JsValue := [JStrArray ["admin"; "super_admin"]].

(** [router.get('/pending', verifyToken, rbacAccess(['admin', 'super_admin']), ...)]. *)
Definition get_pending : Handler :=
  run [Auth.verifyToken; Auth.rbacAccess admin_only] pending.

(** [router.post('/:id/approve', verifyToken, rbacAccess(['admin', 'super_admin']), ...)]. *)
Definition post_approve : Handler :=
  run [Auth.verifyToken; Auth.rbacAccess admin_only] approve.

(** [router.post('/:id/reject', verifyToken, rbacAccess(['admin', 'super_admin']), ...)]. *)
Definition post_reject : Handler :=
  run [Auth.verifyToken; Auth.rbacAccess admin_only] reject.

(** [router.delete('/:id', verifyToken, rbacAccess(['admin', 'super_admin']), ...)]. *)
Definition delete_id : Handler :=
  run [Auth.verifyToken; Auth.rbacAccess admin_only] delete_user.

(** The routes above, to speak of the store after a history of requests.
    ([POST /] and [PATCH /:id] write to [users] only and are left out.) *)
Inductive Endpoint :=
| PostLogin (uuid : string)
| PostRefresh
| PostLogout
| GetPending
| PostApprove
| PostReject
| DeleteId.

Definition serve (e : Endpoint) : Handler :=
  match e with
  | PostLogin uuid => post_login uuid
  | PostRefresh => post_refresh
  | PostLogout => post_logout
  | GetPending => get_pending
  | PostApprove => post_approve
  | PostReject => post_reject
  | DeleteId => delete_id
  end.



End WithRuntime.

End Users.

(** ** Record routers: [backend/routes/volunteers.js], [backend/routes/board.js] *)

(** [SELECT c1, ..., ck FROM ...]: the listed columns of a row. *)
Definition project_cols (cols : list string) (r : Row) : Row :=
  filter (fun kv => kv.1 ∈ cols) r.

Module Volunteers.

(** The handler of [GET /]: every row of [volunteers].  The order of the
    rows in the answer ([ORDER BY volunteer_frf_name]) is left as the
    table has them. *)
Definition list_all : Handler := fun now req db =>
  match tables db !! "volunteers" with
  | Some rows => (respond 200 (JRows rows), db)
  | None => (respond 500 (Text "Error fetching volunteers"), db)
  end.

(** [router.get('/', async (req, res) => ...)]: no middleware. *)
Definition get_all : Handler := run [] list_all.

End Volunteers.

Module Board.

(** The handler of [GET /]: five columns of every row of
    [board_members], under [data] (the static [uiConfig] that goes with
    them is not part of the body here). *)
Definition list_all : Handler := fun now req db =>
  match tables db !! "board_members" with
  | Some rows =>
      (respond 200
         (JData (project_cols
                   ["id"; "board_frf_name"; "email"; "board_frf_owner"; "modified_date"]
                   <$> rows)), db)
  | None => (respond 500 (Text "Error fetching board members"), db)
  end.

(** [router.get('/', async (req, res) => ...)]: no middleware. *)
Definition get_all : Handler := run [] list_all.

(** [LEFT JOIN users x ON b.<col> = x.user_id]: the account a row points
    to, if any. *)
Definition joined (col : string) (r : Row) (db : DB) : option User :=
  match r !! col with
  | Some (VInt n) => head (Users.users_by_id n db)
  | _ => None
  end.

Definition text_or_null (o : option string) : SqlValue :=
  match o with
  | Some t => VText t
  | None => VNull
  end.

(** [b.*] with the four columns of the two joins. *)
Definition with_user_details (r : Row) (db : DB) : Row :=
  let cu := joined "created_by_user_id" r db in
  let mu := joined "modified_by_user_id" r db in
  <[ "created_by_username" := text_or_null (username <$> cu) ]>
    (<[ "created_by_email" := text_or_null (email <$> cu) ]>
       (<[ "modified_by_username" := text_or_null (username <$> mu) ]>
          (<[ "modified_by_email" := text_or_null (email <$> mu) ]> r))).

(** [WHERE b.id = $1]; a parameter that is not set is sent as [NULL],
    which no row equals. *)
Definition with_id (id : option string) (rows : list Row) : list Row :=
  match id with
  | Some i => filter (fun r : Row => r !! "id" = Some (VText i)) rows
  | None => []
  end.

(** The handler of [GET /:id]. *)
Definition one : Handler := fun now req db =>
  match tables db !! "board_members" with
  | None => (respond 500 (Text "Error fetching board member details"), db)
  | Some rows =>
      match with_id (param_id req) rows with
      | [] => (respond 404 (JMessage "Board Member not found"), db)
      | member :: _ => (respond 200 (JRow (with_user_details member db)), db)
      end
  end.

(** [router.get('/:id', async (req, res) => ...)]: no middleware. *)
Definition get_one : Handler := run [] one.

End Board.

(** ** [server.js]: where the routers are mounted *)

Module Server.

(** The first arguments of the [app.use('/api/v1/...', router)] calls. *)
Definition mounts : list string :=
  [ "/api/v1/users"; "/api/v1/students"; "/api/v1/volunteers";
    "/api/v1/donors"; "/api/v1/board"; "/api/v1/projects";
    "/api/v1/finance"; "/api/v1/ui-config" ].

End Server.

(** ** The role × verb table as the design document words it *)

Module Policy.

(** "member: GET only; staff: GET/POST/PUT/PATCH; admin and super_admin:
    all verbs including DELETE; finance: GET/POST only", and "a role absent
    from the table is always denied". *)
Definition authorize (role verb : string) : bool :=
  if String.eqb role "member" then String.eqb verb "GET"
  else if String.eqb role "staff" then
    existsb (String.eqb verb) ["GET"; "POST"; "PUT"; "PATCH"]
  else if (String.eqb role "admin" || String.eqb role "super_admin")%bool then
    existsb (String.eqb verb) ["GET"; "POST"; "PUT"; "PATCH"; "DELETE"]
  else if String.eqb role "finance" then
    existsb (String.eqb verb) ["GET"; "POST"]
  else false.

Definition table_roles : list string :=
  ["member"; "staff"; "admin"; "finance"; "super_admin"].

End Policy.

(** What a middleware answered: [None] for [next()], else the status. *)
Definition verdict (r : MwResult) : option Z :=
  match r with
  | Next _ => None
  | Done res => Some (status res)
  end.

(** ** A concrete runtime and store, for running the handlers *)

Module Sample.

Fixpoint digits (s : string) (acc : Z) : option Z :=
  match s with
  | EmptyString => Some acc
  | String a s' =>
      let n := Z.of_nat (nat_of_ascii a) in
      if (48 <=? n) && (n <=? 57) then digits s' (10 * acc + (n - 48)) else None
  end.

(** Decimal integers without sign. *)
Definition parse_int (s : string) : option Z :=
  if String.eqb s "" then None else digits s 0.

(** Tokens are the readable text [jwt:role:id:email]; they never expire. *)
Definition sign (p : Principal) (now : Z) : string :=
  "jwt:" +:+ p_role p +:+ ":" +:+ JS.String_of_Z (p_user_id p) +:+ ":" +:+ p_email p.

Definition verify (t : string) (now : Z) : option Principal :=
  match JS.split ":" t with
  | [tag; r; i; e] =>
      if String.eqb tag "jwt" then
        n ← parse_int i; Some {| p_user_id := n; p_email := e; p_role := r |}
      else None
  | _ => None
  end.

Definition compare (password hash : string) : bool :=
  String.eqb hash ("bcrypt$" +:+ password).

Definition is_email (s : string) : bool :=
  match JS.split "@" s with
  | [a; b] => negb (String.eqb a "") && negb (String.eqb b "")
  | _ => false
  end.

#[global] Instance runtime : Runtime := {|
  jwt_sign := sign;
  jwt_verify := verify;
  bcrypt_compare := compare;
  normalizeEmail := fun s => s;
  isEmail := is_email;
  js_Number := parse_int;
  pg_int := parse_int;
  REFRESH_DAYS := 30;
  isProd := false;
|}.

Definition account (id : Z) (name role st : string) : User :=
  {| user_id := id; username := name; email := name +:+ "@ngo.org";
     password_hash := "bcrypt$" +:+ name +:+ "-Secret1!";
     user_role := role; approval_status := st;
     failed_attempts := Some 0; locked_until := None;
     created_at := 1000 * id; updated_at := None |}.

Definition root : User := account 1 "root" "super_admin" "APPROVED".
Definition ada : User := account 2 "ada" "admin" "APPROVED".
Definition mia : User := account 3 "mia" "member" "APPROVED".
Definition pat : User := account 4 "pat" "member" "PENDING".
Definition rex : User := account 5 "rex" "member" "REJECTED".
Definition sam : User := account 6 "sam" "staff" "APPROVED".

(** A student record owned by account 3 and a volunteer owned by nobody. *)
Definition student : Row :=
  {[ "id" := VText "S-1"; "student_frf_name" := VText "Noor";
     "student_frf_owner" := VInt 3 ]}.

Definition volunteer : Row :=
  {[ "id" := VText "V-1"; "volunteer_frf_name" := VText "Lee";
     "volunteer_frf_owner" := VNull; "contact_number" := VText "555-0101" ]}.

Definition director : Row :=
  {[ "id" := VText "B-1"; "board_frf_name" := VText "Kim";
     "email" := VText "kim@ngo.org"; "board_frf_owner" := VNull;
     "modified_date" := VNull; "address" := VText "12 Elm Street" ]}.

Definition db : DB :=
  {| users := [root; ada; mia; pat; rex; sam];
     refresh_tokens := [];
     revoked_tokens := ∅;
     tables := {[ "students" := [student]; "volunteers" := [volunteer];
                  "board_members" := [director] ]};
     referenced := {[ 3 ]} |}.

(** A request with nothing set but the method. *)
Definition request (m : string) : Request :=
  {| method := m; baseUrl := "/api/v1/users"; param_id := None;
     authorization := None; cookie_access_token := None;
     cookie_refresh_token := None; user_agent := None;
     body_email := ""; body_password := ""; body_reason := None;
     user := None |}.

Definition principal_of (u : User) : Principal :=
  {| p_user_id := user_id u; p_email := email u; p_role := user_role u |}.

(** The request [m base/id] of account [u], with its token as bearer. *)
Definition as_user (u : User) (m base : string) (id : option string) : Request :=
  {| method := m; baseUrl := base; param_id := id;
     authorization := Some ("Bearer " +:+ sign (principal_of u) 0);
     cookie_access_token := None;
     cookie_refresh_token := None; user_agent := None;
     body_email := ""; body_password := ""; body_reason := None;
     user := None |}.

(** The login request of [name] with [password]. *)
Definition credentials (name password : string) : Request :=
  {| method := "POST"; baseUrl := "/api/v1/users"; param_id := None;
     authorization := None; cookie_access_token := None;
     cookie_refresh_token := None; user_agent := None;
     body_email := name +:+ "@ngo.org"; body_password := password;
     body_reason := None; user := None |}.

(** Five wrong passwords for account 3, one per second. *)
Definition five_failures : list Users.Attempt :=
  (fun k => {| Users.at_time := 1000 * k;
               Users.at_request := credentials "mia" "guess";
               Users.at_uuid := "none" |}) <$> [1; 2; 3; 4; 5].

(** A session that expired at 50 and one that lives until 500. *)
Definition two_sessions : DB :=
  Users.with_refresh_tokens db
    [ {| rt_user_id := 3; rt_refresh_token := "old"; rt_issued_at := 0;
         rt_expires_at := 50; rt_device := None |};
      {| rt_user_id := 3; rt_refresh_token := "new"; rt_issued_at := 10;
         rt_expires_at := 500; rt_device := None |} ].

Definition with_refresh_cookie (tok : string) : Request :=
  {| method := "POST"; baseUrl := "/api/v1/users"; param_id := None;
     authorization := None; cookie_access_token := None;
     cookie_refresh_token := Some tok; user_agent := None;
     body_email := ""; body_password := ""; body_reason := None;
     user := None |}.

End Sample.

(** ** [backend/middleware/errorHandler.js] *)

Module ErrorHandler.

(** What the handler reads of the error it is given.  [e_code] is
    [err.code] as text; [e_errors] is [err.errors] when it is an array, as
    pairs of [param] and [msg]; [e_json] says that the error is a
    [SyntaxError] that has a [body] property. *)
Record Err := {
  e_code : option string;
  e_detail : option string;
  e_errors : option (list (string * string));
  e_name : option string;
  e_status : option Z;
  e_message : option string;
  e_json : bool;
}.

(** The JSON the handler answers with, and its HTTP status. *)
Record Reply := {
  http : Z;
  tag : string;
  text : string;
  fields : option (list (string * string));
}.

(** Whether [s] starts with a line terminator, which [.] does not match:
    LF, CR, and U+2028 and U+2029 in their UTF-8 bytes. *)
Definition at_line_terminator (s : string) : bool :=
  match s with
  | String a rest =>
      let n := nat_of_ascii a in
      if (Nat.eqb n 10 || Nat.eqb n 13)%bool then true
      else if Nat.eqb n 226 then
        match rest with
        | String b (String c _) =>
            (Nat.eqb (nat_of_ascii b) 128
             && (Nat.eqb (nat_of_ascii c) 168 || Nat.eqb (nat_of_ascii c) 169))%bool
        | _ => false
        end
      else false
  | EmptyString => false
  end.

(** [(.*?)\)] from the position after an opening parenthesis: the text up
    to the first closing parenthesis, if no line ends before it. *)
Fixpoint until_close (s : string) : option string :=
  match s with
  | EmptyString => None
  | String c s' =>
      if Ascii.eqb c ")" then Some EmptyString
      else if at_line_terminator s then None
      else String c <$> until_close s'
  end.

(** [detail.match(/\((.*?)\)/)?.[1]]: the group of the leftmost match. *)
Fixpoint first_group (s : string) : option string :=
  match s with
  | EmptyString => None
  | String c s' =>
      if Ascii.eqb c "(" then
        match until_close s' with
        | Some g => Some g
        | None => first_group s'
        end
      else first_group s'
  end.

(** [err.detail?.match(/\((.*?)\)/)?.[1] || 'unknown']. *)
Definition duplicate_field (detail : option string) : string :=
  let g := detail ≫= first_group in
  if JS.truthy g then default "" g else "unknown".

Definition errorHandler (err : Err) : Reply :=
  if JS.truthy (e_code err) then
    let code := default "" (e_code err) in
    if String.eqb code "23505" then
      {| http := 409; tag := "fail";
         text := "Duplicate value for field: " +:+ duplicate_field (e_detail err);
         fields := None |}
    else if String.eqb code "23503" then
      {| http := 400; tag := "fail";
         text := "Cannot delete or modify because dependent records exist.";
         fields := None |}
    else if String.eqb code "23514" then
      {| http := 400; tag := "fail";
         text := "One or more fields failed a database integrity check.";
         fields := None |}
    else if String.eqb code "22P02" then
      {| http := 400; tag := "fail";
         text := "Invalid input format or ID provided."; fields := None |}
    else
      {| http := 500; tag := "error"; text := "Database error occurred.";
         fields := None |}
  else
    match e_errors err with
    | Some errs =>
        {| http := 400; tag := "fail"; text := "Validation failed";
           fields := Some errs |}
    | None =>
        if bool_decide (e_name err = Some "UnauthorizedError"
                        ∨ e_name err = Some "JsonWebTokenError") then
          {| http := 401; tag := "fail";
             text := "Invalid or missing authentication token."; fields := None |}
        else if bool_decide (e_name err = Some "TokenExpiredError") then
          {| http := 401; tag := "fail";
             text := "Authentication token has expired. Please log in again.";
             fields := None |}
        else if bool_decide (e_status err = Some 403) then
          {| http := 403; tag := "fail";
             text := if JS.truthy (e_message err) then default "" (e_message err)
                     else "Forbidden: insufficient permissions.";
             fields := None |}
        else if (e_json err && bool_decide (e_status err = Some 400))%bool then
          {| http := 400; tag := "fail";
             text := "Invalid JSON format in request body."; fields := None |}
        else
          {| http := 500; tag := "error"; text := "Internal Server Error";
             fields := None |}
    end.

End ErrorHandler.

(** ** More library calls, and the constraints of [users] *)

Class Hashing := {
  (** [bcrypt.hash(plain, rounds)], given the salt it draws. *)
  bcrypt_hash : string -> string -> string;
  (** [trim()] and [isStrongPassword({...})] of express-validator. *)
  trim : string -> string;
  isStrongPassword : string -> bool;
}.

(** The [CHECK] on [user_role], and what a new row holds in the two lockout
    columns, which no [INSERT] names.  The schema under the sources lists
    four roles but predates the approval and lockout columns, so the list
    and the two defaults are left open. *)
Class Schema := {
  role_allowed : string -> bool;
  new_failed_attempts : option Z;
  new_locked_until : option Z;
}.

(** ** [backend/scripts/hash_old_passwords.js] *)

Module Scripts.

Definition set_password_hash (h : string) (u : User) : User :=
  {| user_id := user_id u; username := username u; email := email u;
     password_hash := h; user_role := user_role u;
     approval_status := approval_status u;
     failed_attempts := failed_attempts u; locked_until := locked_until u;
     created_at := created_at u; updated_at := updated_at u |}.

(** [!user.password_hash.startsWith('$2b$')]. *)
Definition unhashed (u : User) : bool :=
  negb (JS.startsWith "$2b$" (password_hash u)).

Section WithHashing.
Context `{Hashing}.

(** One turn of the loop, on a row of the snapshot; [salt] gives the salt
    drawn for that row. *)
Definition rehash (salt : User -> string) (db : DB) (user : User) : DB :=
  if unhashed user then
    Users.with_users db
      (Users.update_users (user_id user)
         (set_password_hash (bcrypt_hash (salt user) (password_hash user)))
         (users db))
  else db.

(** The script: the rows are read once, then visited in order. *)
Definition hash_old_passwords (salt : User -> string) (db : DB) : DB :=
  fold_left (rehash salt) (users db) db.

End WithHashing.

End Scripts.

(** ** [backend/routes/users.js]: registration and profile *)

Module Accounts.

(** The body of [POST /]. *)
Record Registration := {
  r_username : string;
  r_email : string;
  r_password : string;
  r_user_role : option string;
}.

(** [[A-Za-z0-9_]]. *)
Definition word_char (a : ascii) : bool :=
  let n := nat_of_ascii a in
  ((Nat.leb 65 n && Nat.leb n 90) || (Nat.leb 97 n && Nat.leb n 122)
   || (Nat.leb 48 n && Nat.leb n 57) || Nat.eqb n 95)%bool.

(** [/^[A-Za-z0-9_]{3,30}$/.test(s)]. *)
Definition username_ok (s : string) : bool :=
  (forallb word_char (list_ascii_of_string s)
   && Nat.leb 3 (String.length s) && Nat.leb (String.length s) 30)%bool.

(** [SELECT 1 FROM users WHERE username=$1] and [... WHERE email=$1]. *)
Definition username_taken (n : string) (db : DB) : bool :=
  bool_decide (n ∈ username <$> users db).

Definition email_taken (e : string) (db : DB) : bool :=
  bool_decide (e ∈ email <$> users db).

(** [user_id, username, email, user_role, approval_status]. *)
Definition view_profile (u : User) : UserView :=
  {| v_user_id := user_id u; v_username := username u; v_email := email u;
     v_user_role := Some (user_role u);
     v_approval_status := approval_status u;
     v_created_at := None |}.

(** The handler of [GET /me]. *)
Definition me : Handler := fun now req db =>
  match user req with
  | None => (respond 500 (JError "Server error"), db)
  | Some p =>
      match Users.users_by_id (p_user_id p) db with
      | [] => (respond 404 (JError "User not found"), db)
      | u :: _ => (respond 200 (JUserRow (view_profile u)), db)
      end
  end.

Section WithRuntime.
Context `{Runtime} `{Hashing} `{Schema}.

(** [router.get('/me', verifyToken, ...)]. *)
Definition get_me : Handler := run [Auth.verifyToken] me.

(** The sanitizers of [registerValidation]: they write back to the body. *)
Definition sanitize (b : Registration) : Registration :=
  {| r_username := trim (r_username b);
     r_email := normalizeEmail (r_email b);
     r_password := r_password b;
     r_user_role := r_user_role b |}.

(** The fields [registerValidation] reports, one per failed check, in the
    order of the chains; the body is the sanitized one. *)
Definition register_errors (b : Registration) (db : DB) : list string :=
  ((if username_ok (r_username b) then [] else ["username"])
   ++ (if username_taken (r_username b) db then ["username"] else [])
   ++ (if isEmail (r_email b) then [] else ["email"])
   ++ (if email_taken (r_email b) db then ["email"] else [])
   ++ (if isStrongPassword (r_password b) then [] else ["password"]))%list.

(** [INSERT INTO users (...) VALUES (...)], the key [new_id] being the one
    the sequence hands out: [None] when a constraint of the table (primary
    key, unique username, unique email, role check) makes the store
    raise.  The two lockout columns, which the statement does not name,
    take the defaults of the schema. *)
Definition insert_user (new_id : Z) (name mail hash role status : string)
    (now : Z) (db : DB) : option (User * DB) :=
  if (bool_decide (new_id ∈ user_id <$> users db)
      || username_taken name db || email_taken mail db
      || negb (role_allowed role))%bool
  then None
  else
    let u := {| user_id := new_id; username := name; email := mail;
                password_hash := hash; user_role := role;
                approval_status := status;
                failed_attempts := new_failed_attempts;
                locked_until := new_locked_until;
                created_at := now; updated_at := None |} in
    Some (u, Users.with_users db (users db ++ [u])%list).

(** The handler of [POST /], on the sanitized body. *)
Definition register (new_id : Z) (salt : string) (b : Registration)
    (now : Z) (db : DB) : Response * DB :=
  if email_taken (r_email b) db then
    (respond 400 (JError "Email already exists"), db)
  else
    let password_hash := bcrypt_hash salt (r_password b) in
    match insert_user new_id (r_username b) (r_email b) password_hash
            (default "member" (r_user_role b)) "PENDING" now db with
    | Some (u, db') =>
        (respond 201
           (JMessageUser "Account created. Awaiting admin approval." (view_full u)),
         db')
    | None => (respond 500 (JError "Server error"), db)
    end.

(** [router.post('/', registerValidation, ...)]. *)
Definition post_register (new_id : Z) (salt : string) (b : Registration)
    (now : Z) (db : DB) : Response * DB :=
  let b' := sanitize b in
  match register_errors b' db with
  | [] => register new_id salt b' now db
  | errors => (respond 400 (JFail errors), db)
  end.

End WithRuntime.

End Accounts.

(** ** [server.js]: the default super admin *)

Module Boot.

(** [process.env.SUPER_ADMIN_EMAIL], [..._PASSWORD] and [..._NAME]. *)
Record Env := {
  SUPER_ADMIN_EMAIL : option string;
  SUPER_ADMIN_PASSWORD : option string;
  SUPER_ADMIN_NAME : option string;
}.

Section WithRuntime.
Context `{Hashing} `{Schema}.

(** [ensureSuperAdmin()]: every failure of the store is caught and
    logged, and leaves the store as it was. *)
Definition ensureSuperAdmin (env : Env) (new_id : Z) (salt : string)
    (now : Z) (db : DB) : DB :=
  if (negb (JS.truthy (SUPER_ADMIN_EMAIL env))
      || negb (JS.truthy (SUPER_ADMIN_PASSWORD env)))%bool
  then db
  else
    match filter (fun u => user_role u = "super_admin") (users db) with
    | _ :: _ => db
    | [] =>
        let hash := bcrypt_hash salt (default "" (SUPER_ADMIN_PASSWORD env)) in
        match Accounts.insert_user new_id
                (if JS.truthy (SUPER_ADMIN_NAME env)
                 then default "" (SUPER_ADMIN_NAME env) else "Super Admin")
                (default "" (SUPER_ADMIN_EMAIL env)) hash
                "super_admin" "APPROVED" now db with
        | Some (_, db') => db'
        | None => db
        end
    end.

End WithRuntime.

End Boot.

(** ** A concrete hashing library, schema and stores for them *)

Module Fixture.

#[global] Instance hashing : Hashing := {|
  bcrypt_hash := fun salt plain => "$2b$" +:+ salt +:+ "$" +:+ plain;
  trim := fun s => s;
  isStrongPassword := fun s => Nat.leb 8 (String.length s);
|}.

#[global] Instance schema : Schema := {|
  role_allowed := fun r =>
    existsb (String.eqb r) ["member"; "staff"; "admin"; "finance"; "super_admin"];
  new_failed_attempts := Some 0;
  new_locked_until := None;
|}.

(** A store from before hashing: account 1 is hashed, 2 and 3 are not. *)
Definition legacy : DB :=
  Users.with_users Sample.db
    [ Scripts.set_password_hash "$2b$10$abcdefghijklmnopqrstuv" Sample.root;
      Scripts.set_password_hash "ada-Secret1!" Sample.ada;
      Scripts.set_password_hash "mia-Secret1!" Sample.mia ].

Definition salt_of (u : User) : string := "10$" +:+ username u.

(** A registration that names no role. *)
Definition newcomer : Accounts.Registration :=
  {| Accounts.r_username := "zoe_9"; Accounts.r_email := "zoe@ngo.org";
     Accounts.r_password := "zoe-Secret1!"; Accounts.r_user_role := None |}.

(** The sample store without its super admin, and the environment of a
    first start. *)
Definition headless : DB :=
  Users.with_users Sample.db
    [Sample.ada; Sample.mia; Sample.pat; Sample.rex; Sample.sam].

Definition env : Boot.Env :=
  {| Boot.SUPER_ADMIN_EMAIL := Some "chief@ngo.org";
     Boot.SUPER_ADMIN_PASSWORD := Some "chief-Secret1!";
     Boot.SUPER_ADMIN_NAME := None |}.

(** A request that carries an access token in a cookie only, and one that
    carries a bearer header and a different cookie. *)
Definition with_cookies (access refresh : option string) : Request :=
  {| method := "POST"; baseUrl := "/api/v1/users"; param_id := None;
     authorization := None; cookie_access_token := access;
     cookie_refresh_token := refresh; user_agent := None;
     body_email := ""; body_password := ""; body_reason := None;
     user := None |}.

Definition with_header_and_cookie (bearer cookie : string) : Request :=
  {| method := "POST"; baseUrl := "/api/v1/users"; param_id := None;
     authorization := Some ("Bearer " +:+ bearer);
     cookie_access_token := Some cookie;
     cookie_refresh_token := None; user_agent := None;
     body_email := ""; body_password := ""; body_reason := None;
     user := None |}.

(** The roles of the table, from the one allowed least to the ones allowed
    most. *)
Definition ladder : list string :=
  ["member"; "finance"; "staff"; "admin"; "super_admin"].

(** The request of a caller known by its role alone. *)
Definition in_role (role m : string) : Request :=
  {| method := m; baseUrl := "/api/v1/volunteers"; param_id := None;
     authorization := None; cookie_access_token := None;
     cookie_refresh_token := None; user_agent := None;
     body_email := ""; body_password := ""; body_reason := None;
     user := Some {| p_user_id := 0; p_email := ""; p_role := role |} |}.

(** A board record owned by account 3, a member, and entered by account 2;
    the sample store with that record. *)
Definition trustee : Row :=
  {[ "id" := VText "B-2"; "board_frf_name" := VText "Ola";
     "board_frf_owner" := VInt 3; "created_by_user_id" := VInt 2;
     "modified_by_user_id" := VNull ]}.

Definition records : DB :=
  {| users := users Sample.db; refresh_tokens := refresh_tokens Sample.db;
     revoked_tokens := revoked_tokens Sample.db;
     tables := <[ "board_members" := [Sample.director; trustee] ]> (tables Sample.db);
     referenced := referenced Sample.db |}.

(** [GET /api/v1/board/B-2] with no header and no cookie. *)
Definition stranger : Request :=
  {| method := "GET"; baseUrl := "/api/v1/board"; param_id := Some "B-2";
     authorization := None; cookie_access_token := None;
     cookie_refresh_token := None; user_agent := None;
     body_email := ""; body_password := ""; body_reason := None;
     user := None |}.

(** A wrong password for account 3, sent at time [t]. *)
Definition guess (t : Z) : Users.Attempt :=
  {| Users.at_time := t; Users.at_request := Sample.credentials "mia" "guess";
     Users.at_uuid := "none" |}.

(** Five wrong passwords sent at once: every login has read its row before
    any of them writes. *)
Definition burst : list Users.Event :=
  ((fun t => Users.Arrives (guess t)) <$> [1; 2; 3; 4; 5])
  ++ (Users.Resumes 0 <$> [101; 102; 103; 104; 105]).

(** Three wrong passwords one after the other, then two at once. *)
Definition double_click : list Users.Event :=
  [ Users.Arrives (guess 1); Users.Resumes 0 101;
    Users.Arrives (guess 2); Users.Resumes 0 201;
    Users.Arrives (guess 3); Users.Resumes 0 301;
    Users.Arrives (guess 4); Users.Arrives (guess 5);
    Users.Resumes 0 401; Users.Resumes 0 402 ].

(** The same five wrong passwords, each answered before the next is
    sent. *)
Definition one_by_one : list Users.Event :=
  [ Users.Arrives (guess 1); Users.Resumes 0 101;
    Users.Arrives (guess 2); Users.Resumes 0 201;
    Users.Arrives (guess 3); Users.Resumes 0 301;
    Users.Arrives (guess 4); Users.Resumes 0 401;
    Users.Arrives (guess 5); Users.Resumes 0 501 ].

End Fixture.

(** * Properties *)

(** ** The primitives on small inputs *)

Example split_mount_path :
  JS.split "/" "/api/v1/students" = [""; "api"; "v1"; "students"].
Proof. reflexivity. Qed.

Example split_bearer :
  JS.split " " "Bearer abc.def" !! 1%nat = Some "abc.def"
  ∧ JS.split " " "" !! 1%nat = None.
Proof. split; reflexivity. Qed.

Example slice_bearer : JS.slice 7 "Bearer abc.def" = "abc.def".
Proof. reflexivity. Qed.

Example toUpperCase_method : JS.toUpperCase "delete" = "DELETE".
Proof. reflexivity. Qed.

Example ceil_div_examples :
  JS.ceil_div 899000 60000 = 15 ∧ JS.ceil_div 60000 60000 = 1
  ∧ JS.ceil_div 1 60000 = 1 ∧ JS.ceil_div 60001 60000 = 2.
Proof. repeat split; reflexivity. Qed.

Example String_of_owner :
  String_of_col (VInt 3) = "3" ∧ String_of_col VNull = "null"
  ∧ String_of_col (VText "mia@ngo.org") = "mia@ngo.org".
Proof. repeat split; vm_compute; reflexivity. Qed.

Example rules_lookup :
  Auth.rules "finance"
  = Auth.Own {| Auth.GET := true; Auth.POST := true; Auth.PUT := false;
                Auth.PATCH := false; Auth.DELETE := false |}
  ∧ Auth.rules "constructor" = Auth.Inherited
  ∧ Auth.rules "auditor" = Auth.Undefined.
Proof. repeat split; reflexivity. Qed.

(** The sample store through five wrong passwords and a right one. *)
Example lockout_run :
  status <$> fst (Users.replay Sample.five_failures Sample.db)
  = [401; 401; 401; 401; 401]
  ∧ (failed_attempts <$> Users.users_by_email "mia@ngo.org"
                           (snd (Users.replay Sample.five_failures Sample.db)))
    = [Some 5]
  ∧ (locked_until <$> Users.users_by_email "mia@ngo.org"
                        (snd (Users.replay Sample.five_failures Sample.db)))
    = [Some 905000]
  ∧ fst (Users.post_login "5f0c" 6000 (Sample.credentials "mia" "mia-Secret1!")
           (snd (Users.replay Sample.five_failures Sample.db)))
    = respond 403 (JError "Account locked. Try again in 15 minutes.")
  ∧ status (fst (Users.post_login "5f0c" 905000
                   (Sample.credentials "mia" "mia-Secret1!")
                   (snd (Users.replay Sample.five_failures Sample.db))))
    = 200.
Proof. repeat split; vm_compute; reflexivity. Qed.

(** The rules of [DELETE /:id] on the sample store. *)
Example delete_run :
  status (fst (Users.delete_id 0
                 (Sample.as_user Sample.ada "DELETE" "/api/v1/users" (Some "2"))
                 Sample.db)) = 403
  ∧ status (fst (Users.delete_id 0
                   (Sample.as_user Sample.root "DELETE" "/api/v1/users" (Some "1"))
                   Sample.db)) = 403
  ∧ status (fst (Users.delete_id 0
                   (Sample.as_user Sample.ada "DELETE" "/api/v1/users" (Some "1"))
                   Sample.db)) = 403
  ∧ status (fst (Users.delete_id 0
                   (Sample.as_user Sample.ada "DELETE" "/api/v1/users" (Some "6"))
                   Sample.db)) = 403
  ∧ status (fst (Users.delete_id 0
                   (Sample.as_user Sample.sam "DELETE" "/api/v1/users" (Some "4"))
                   Sample.db)) = 403
  ∧ status (fst (Users.delete_id 0
                   (Sample.as_user Sample.ada "DELETE" "/api/v1/users" (Some "9"))
                   Sample.db)) = 404
  ∧ status (fst (Users.delete_id 0
                   (Sample.as_user Sample.root "DELETE" "/api/v1/users" (Some "3"))
                   Sample.db)) = 400
  ∧ status (fst (Users.delete_id 0
                   (Sample.as_user Sample.root "DELETE" "/api/v1/users" (Some "6"))
                   Sample.db)) = 200
  ∧ user_id <$> users (snd (Users.delete_id 0
                              (Sample.as_user Sample.ada "DELETE" "/api/v1/users"
                                 (Some "4"))
                              Sample.db)) = [1; 2; 3; 5; 6].
Proof. repeat split; vm_compute; reflexivity. Qed.

(** ** Strings *)

Lemma eqb_false_iff (a b : string) : String.eqb a b = false ↔ a ≠ b.
Proof. apply String.eqb_neq. Qed.

Lemma upper_ascii_not_lower (a : ascii) : JS.is_lower (JS.upper_ascii a) = false.
Proof. destruct a as [[] [] [] [] [] [] [] []]; reflexivity. Qed.

Lemma toUpperCase_no_lower (s : string) : JS.has_lower (JS.toUpperCase s) = false.
Proof.
  induction s as [|a s IH]; simpl; [reflexivity|].
  now rewrite upper_ascii_not_lower, IH.
Qed.

Lemma inherited_key_has_lower (k : string) :
  Auth.inherited_key k = true → JS.has_lower k = true.
Proof.
  unfold Auth.inherited_key, Auth.object_prototype_keys. simpl.
  repeat match goal with
         | |- context [String.eqb k ?c] =>
             destruct (String.eqb_spec k c) as [->|_]; [reflexivity|simpl]
         end.
  discriminate.
Qed.

(** An upper-cased method never names a property that object literals
    inherit, which is why [allowed_verb] may answer [false] for them. *)
Lemma toUpperCase_not_inherited (s : string) :
  Auth.inherited_key (JS.toUpperCase s) = false.
Proof.
  destruct (Auth.inherited_key (JS.toUpperCase s)) eqn:E; [|reflexivity].
  apply inherited_key_has_lower in E. now rewrite toUpperCase_no_lower in E.
Qed.

(** ** Middleware chains *)

Lemma run_done (m : Middleware) rest h now req db res :
  m now db req = Done res → run (m :: rest) h now req db = (res, db).
Proof. intros E. simpl. now rewrite E. Qed.

Lemma run_next (m : Middleware) rest h now req db req' :
  m now db req = Next req' → run (m :: rest) h now req db = run rest h now req' db.
Proof. intros E. simpl. now rewrite E. Qed.

(** ** The role × verb middleware *)

Ltac split_eqb :=
  repeat match goal with
         | |- context [String.eqb ?a ?b] =>
             let E := fresh "E" in destruct (String.eqb a b) eqn:E; simpl
         end.

Lemma rbacAccess_verdict (L : list JsValue) now db req :
  verdict (Auth.rbacAccess L now db req) =
    if JS.truthy (Auth.role_of req) then
      if Policy.authorize (default "" (Auth.role_of req)) (JS.toUpperCase (method req))
      then None else Some 403
    else Some 401.
Proof.
  unfold Auth.rbacAccess.
  destruct (JS.truthy (Auth.role_of req)); simpl; [|reflexivity].
  generalize (default "" (Auth.role_of req)) as role.
  generalize (JS.toUpperCase (method req)) as m. intros m role.
  unfold Auth.rules, Policy.authorize, Auth.allowed_verb.
  destruct (String.eqb_spec role "member") as [->|H1]; [simpl; split_eqb; reflexivity|].
  destruct (String.eqb_spec role "staff") as [->|H2]; [simpl; split_eqb; reflexivity|].
  destruct (String.eqb_spec role "admin") as [->|H3]; [simpl; split_eqb; reflexivity|].
  destruct (String.eqb_spec role "finance") as [->|H4]; [simpl; split_eqb; reflexivity|].
  destruct (String.eqb_spec role "super_admin") as [->|H5]; [simpl; split_eqb; reflexivity|].
  simpl.
  destruct (Auth.inherited_key role); reflexivity.
Qed.

Lemma rbacAccess_next (L : list JsValue) now db req req' :
  Auth.rbacAccess L now db req = Next req' → req' = req.
Proof.
  unfold Auth.rbacAccess.
  destruct (JS.truthy (Auth.role_of req)); simpl; [|discriminate].
  destruct (Auth.rules _) as [r| |]; try discriminate.
  destruct (Auth.allowed_verb r _); simpl; [|discriminate].
  now intros [= <-].
Qed.

Lemma authorize_outside_table (role verb : string) :
  role ∉ Policy.table_roles → Policy.authorize role verb = false.
Proof.
  unfold Policy.table_roles. rewrite !not_elem_of_cons.
  intros (H1 & H2 & H3 & H4 & H5 & _).
  unfold Policy.authorize.
  apply eqb_false_iff in H1, H2, H3, H4, H5.
  now rewrite H1, H2, H3, H4, H5.
Qed.

(** C10. The middleware [rbacAccess] builds does not depend on the
    arguments of the call: [rbacAccess(L)] is [rbacAccess()] on every
    request.  Its answer is a function of the principal's role and of the
    upper-cased method alone, namely the role × verb table (401 without a
    role, 403 where the table says no, [next()] with the request untouched
    where it says yes), and a role outside the table is never let
    through. *)
Theorem rbacAccess_ignores_its_arguments (L : list JsValue) now db req :
  Auth.rbacAccess L now db req = Auth.rbacAccess [] now db req
  ∧ verdict (Auth.rbacAccess L now db req) =
      (if JS.truthy (Auth.role_of req) then
         if Policy.authorize (default "" (Auth.role_of req))
              (JS.toUpperCase (method req))
         then None else Some 403
       else Some 401)
  ∧ (∀ req', Auth.rbacAccess L now db req = Next req' → req' = req)
  ∧ (default "" (Auth.role_of req) ∉ Policy.table_roles →
     ∃ res, Auth.rbacAccess L now db req = Done res
            ∧ (status res = 401 ∨ status res = 403)).
Proof.
  split; [reflexivity|]. split; [apply rbacAccess_verdict|].
  split; [apply rbacAccess_next|].
  intros Hout. pose proof (rbacAccess_verdict L now db req) as V.
  rewrite (authorize_outside_table _ _ Hout) in V.
  destruct (Auth.rbacAccess L now db req) as [r|res]; simpl in V.
  - destruct (JS.truthy _); discriminate.
  - exists res. split; [reflexivity|].
    destruct (JS.truthy _); injection V as ->; auto.
Qed.

Lemma rbacAccess_ignores_its_arguments_witness :
  ("auditor" ∉ Policy.table_roles)
  ∧ (∃ res,
        Auth.rbacAccess Users.admin_only 0 Sample.db
          (with_user (Sample.request "get")
             {| p_user_id := 9; p_email := "x@ngo.org"; p_role := "auditor" |})
        = Done res
        ∧ (status res = 401 ∨ status res = 403)).
Proof.
  assert (Hout : "auditor" ∉ Policy.table_roles).
  { unfold Policy.table_roles. rewrite !not_elem_of_cons.
    repeat split; try discriminate. apply not_elem_of_nil. }
  split; [exact Hout|].
  apply (rbacAccess_ignores_its_arguments Users.admin_only 0 Sample.db
           (with_user (Sample.request "get")
              {| p_user_id := 9; p_email := "x@ngo.org"; p_role := "auditor" |})).
  exact Hout.
Defined.

(** ** Token verification *)

Section VerifyToken.
Context `{Runtime}.

Lemma with_user_eta req (p : Principal) :
  with_user req {| p_user_id := p_user_id p; p_email := p_email p; p_role := p_role p |}
  = with_user req p.
Proof. now destruct p. Qed.

Lemma verifyToken_missing now db req :
  JS.truthy (Auth.extract_token req) = false →
  Auth.verifyToken now db req = Done (respond 401 (JError "Missing token")).
Proof. intros E. unfold Auth.verifyToken. now rewrite E. Qed.

Lemma truthy_Some (t : string) : t ≠ "" → JS.truthy (Some t) = true.
Proof. intros Ht. simpl. now rewrite (proj2 (eqb_false_iff _ _) Ht). Qed.

Lemma verifyToken_revoked now db req t :
  Auth.extract_token req = Some t → t ≠ "" → t ∈ revoked_tokens db →
  Auth.verifyToken now db req
  = Done (respond 401 (JError "Token revoked. Please log in again.")).
Proof.
  intros E Ht Hin. unfold Auth.verifyToken.
  rewrite E, (truthy_Some _ Ht). simpl.
  now rewrite bool_decide_eq_true_2.
Qed.

Lemma verifyToken_accepts now db req t p :
  Auth.extract_token req = Some t → t ≠ "" → t ∉ revoked_tokens db →
  jwt_verify t now = Some p →
  Auth.verifyToken now db req = Next (with_user req p).
Proof.
  intros E Ht Hin V. unfold Auth.verifyToken.
  rewrite E, (truthy_Some _ Ht). simpl.
  rewrite bool_decide_eq_false_2 by exact Hin.
  now rewrite V, with_user_eta.
Qed.

(** A route whose chain starts with [verifyToken] answers 401 to a request
    without a token, and neither the rest of the chain nor the handler
    runs. *)
Lemma guarded_route_needs_token rest h now req db :
  JS.truthy (Auth.extract_token req) = false →
  run (Auth.verifyToken :: rest) h now req db
  = (respond 401 (JError "Missing token"), db).
Proof. intros E. apply run_done. now apply verifyToken_missing. Qed.

(** With its role array dropped, the guard of the admin routes lets every
    role of the table read. *)
Lemma admin_guard_lets_members_read now db req p h :
  Auth.verifyToken now db req = Next (with_user req p) →
  p_role p = "member" → JS.toUpperCase (method req) = "GET" →
  run [Auth.verifyToken; Auth.rbacAccess Users.admin_only] h now req db
  = h now (with_user req p) db.
Proof.
  intros V Hr Hm. rewrite (run_next _ _ _ _ _ _ _ V).
  simpl. unfold Auth.rbacAccess, Auth.role_of. simpl. rewrite Hr, Hm. reflexivity.
Qed.

End VerifyToken.

(** The owner check looks the last segment of the mount path up in a map
    whose keys all end in [_frf_owner]: on every router the server mounts, a
    caller that is not admin, staff or super_admin is answered 400 before
    any record is read. *)
Lemma requireOwnerOrAdmin_unknown_at_mounts now db req p :
  user req = Some p →
  p_role p ≠ "admin" → p_role p ≠ "staff" → p_role p ≠ "super_admin" →
  baseUrl req ∈ Server.mounts →
  Auth.requireOwnerOrAdmin now db req
  = Done (respond 400 (JError "requireOwnerOrAdmin: unknown entity")).
Proof.
  intros Hu H1 H2 H3 Hb. unfold Auth.requireOwnerOrAdmin. rewrite Hu.
  apply eqb_false_iff in H1, H2, H3. rewrite H1, H2, H3. simpl.
  unfold Auth.entity_of, Server.mounts in *.
  repeat (apply elem_of_cons in Hb as [->|Hb]; [reflexivity|]).
  now apply elem_of_nil in Hb.
Qed.

(** The privileged roles pass the owner check whatever the path. *)
Lemma requireOwnerOrAdmin_privileged now db req p :
  user req = Some p →
  p_role p = "admin" ∨ p_role p = "staff" ∨ p_role p = "super_admin" →
  Auth.requireOwnerOrAdmin now db req = Next req.
Proof.
  intros Hu Hr. unfold Auth.requireOwnerOrAdmin. rewrite Hu.
  destruct Hr as [-> | [-> | ->]]; reflexivity.
Qed.

(** Under a path whose last segment is a key of the ownership map, the
    check is the one the design describes: 404 without a row, access for
    the caller whose email or id the owner column spells, 403 otherwise. *)
Lemma requireOwnerOrAdmin_known_entity now db req p cfg id rows :
  user req = Some p →
  p_role p ≠ "admin" → p_role p ≠ "staff" → p_role p ≠ "super_admin" →
  Auth.owner_map (Auth.entity_of req) = Auth.Own cfg →
  param_id req = Some id → id ≠ "" →
  tables db !! Auth.table cfg = Some rows →
  Auth.requireOwnerOrAdmin now db req
  = match filter (fun r : Row => r !! Auth.idcol cfg = Some (VText id)) rows with
    | [] => Done (respond 404 (JError "Record not found"))
    | r :: _ =>
        match r !! Auth.ownercol cfg with
        | Some owner =>
            if bool_decide (String_of_col owner = p_email p
                            ∨ String_of_col owner = JS.String_of_Z (p_user_id p))
            then Next req
            else Done (respond 403 (JError "Forbidden: not owner"))
        | None => Done (respond 500 (JError "Server error"))
        end
    end.
Proof.
  intros Hu H1 H2 H3 Hcfg Hid Hne Ht. unfold Auth.requireOwnerOrAdmin.
  rewrite Hu, (proj2 (eqb_false_iff _ _) H1), (proj2 (eqb_false_iff _ _) H2),
    (proj2 (eqb_false_iff _ _) H3), Hcfg, Hid, (truthy_Some _ Hne). simpl.
  unfold Auth.select_owner. rewrite Ht.
  destruct (filter _ rows) as [|r more]; [reflexivity|].
  destruct (r !! Auth.ownercol cfg) as [owner|]; [|reflexivity].
  destruct (String.eqb_spec (String_of_col owner) (p_email p)) as [E1|E1]; simpl.
  { now rewrite bool_decide_eq_true_2 by (left; exact E1). }
  destruct (String.eqb_spec (String_of_col owner) (JS.String_of_Z (p_user_id p)))
    as [E2|E2].
  { now rewrite bool_decide_eq_true_2 by (right; exact E2). }
  now rewrite bool_decide_eq_false_2 by tauto.
Qed.

(** C1. Code at the failing inputs: [GET /pending] presented with the
    verified token of a member (role neither admin nor super_admin) is not
    answered 403 but 200 with the list of pending accounts, and
    [POST /4/approve] presented with the token of a staff account performs
    the approval. *)
Theorem admin_routes_serve_other_roles :
  user_role Sample.mia = "member"
  ∧ Users.get_pending 0 (Sample.as_user Sample.mia "GET" "/api/v1/users" None) Sample.db
    = (respond 200 (JUsers [view_full Sample.pat]), Sample.db)
  ∧ user_role Sample.sam = "staff"
  ∧ (∃ db',
        Users.post_approve 0
          (Sample.as_user Sample.sam "POST" "/api/v1/users" (Some "4")) Sample.db
        = (respond 200
             (JMessageUser "User approved"
                (view_approval (Users.set_approval "APPROVED" 0 Sample.pat))), db')
        ∧ approval_status <$> Users.users_by_id 4 Sample.db = ["PENDING"]
        ∧ approval_status <$> Users.users_by_id 4 db' = ["APPROVED"]).
Proof.
  split; [reflexivity|]. split; [vm_compute; reflexivity|].
  split; [reflexivity|].
  eexists. split; [vm_compute; reflexivity|].
  split; vm_compute; reflexivity.
Qed.

(** C2. Code at the failing input: a request with no bearer header and no
    cookie, which [verifyToken] would answer 401, is served every row of
    [volunteers] by [GET /] of the volunteers router and the listed columns
    of every row of [board_members] by [GET /] of the board router. *)
Theorem record_lists_served_without_token :
  JS.truthy (Auth.extract_token (Sample.request "GET")) = false
  ∧ Auth.verifyToken 0 Sample.db (Sample.request "GET")
    = Done (respond 401 (JError "Missing token"))
  ∧ Volunteers.get_all 0 (Sample.request "GET") Sample.db
    = (respond 200 (JRows [Sample.volunteer]), Sample.db)
  ∧ Board.get_all 0 (Sample.request "GET") Sample.db
    = (respond 200
         (JData [delete "address" Sample.director]), Sample.db).
Proof. repeat split; vm_compute; reflexivity. Qed.

(** The owner check called on a request under the mount path of the
    students router: account 3, a member, owns student record S-1 (its
    owner column holds 3).  The check answers 400 "unknown entity"; the same
    request is let through only under a path whose last segment is a key of
    the ownership map, which no mounted router has. *)
Example owner_check_at_mount_path :
  Sample.student !! "student_frf_owner" = Some (VInt (user_id Sample.mia))
  ∧ "/api/v1/students" ∈ Server.mounts
  ∧ Auth.requireOwnerOrAdmin 0 Sample.db
      (with_user (Sample.as_user Sample.mia "GET" "/api/v1/students" (Some "S-1"))
         (Sample.principal_of Sample.mia))
    = Done (respond 400 (JError "requireOwnerOrAdmin: unknown entity"))
  ∧ verdict
      (Auth.requireOwnerOrAdmin 0 Sample.db
         (with_user
            (Sample.as_user Sample.mia "GET" "/api/v1/students_frf_owner" (Some "S-1"))
            (Sample.principal_of Sample.mia)))
    = None.
Proof.
  split; [vm_compute; reflexivity|].
  split; [unfold Server.mounts; set_solver|].
  split; vm_compute; reflexivity.
Qed.

(** C4. Code at the failing inputs: no route runs the owner check.  Board
    record B-2 is owned by account 3, a member.  [GET /api/v1/board/B-2]
    sent with no token at all, which [verifyToken] would answer 401, is
    answered 200 with the record: a caller who is neither its owner nor
    privileged is granted access.  [PUT /api/v1/board/B-2] sent by the
    owner with its token is answered 403 by [rbacAccess], whatever the
    handler of the route: the owner is not granted access. *)
Theorem single_record_routes_skip_owner_check :
  Fixture.trustee !! "board_frf_owner" = Some (VInt (user_id Sample.mia))
  ∧ user_role Sample.mia = "member"
  ∧ Auth.verifyToken 0 Fixture.records Fixture.stranger
    = Done (respond 401 (JError "Missing token"))
  ∧ Board.get_one 0 Fixture.stranger Fixture.records
    = (respond 200
         (JRow (<[ "created_by_username" := VText "ada" ]>
                  (<[ "created_by_email" := VText "ada@ngo.org" ]>
                     (<[ "modified_by_username" := VNull ]>
                        (<[ "modified_by_email" := VNull ]> Fixture.trustee))))),
       Fixture.records)
  ∧ (∀ h : Handler,
       run [Auth.verifyToken; Auth.rbacAccess []] h 0
         (Sample.as_user Sample.mia "PUT" "/api/v1/board" (Some "B-2")) Fixture.records
       = (respond 403 (JError "Role 'member' not allowed to PUT"), Fixture.records)).
Proof.
  split; [vm_compute; reflexivity|].
  split; [reflexivity|].
  split; [vm_compute; reflexivity|].
  split; [vm_compute; reflexivity|].
  intros h. vm_compute. reflexivity.
Qed.

(** ** Revocation *)

Section Revocation.
Context `{Runtime}.



Lemma logout_revoked_tokens now req db :
  revoked_tokens (snd (Users.post_logout now req db))
  = if JS.truthy (Users.logout_access_token req)
    then {[ default "" (Users.logout_access_token req) ]} ∪ revoked_tokens db
    else revoked_tokens db.
Proof.
  unfold Users.post_logout. simpl.
  destruct (JS.truthy (Users.logout_access_token req));
    destruct (JS.truthy (cookie_refresh_token req)); reflexivity.
Qed.

(** Middlewares do not write to the store: what a route leaves is what
    its handler leaves, or the store as it was. *)
Lemma run_store chain h now req db :
  snd (run chain h now req db) = db
  ∨ ∃ req', snd (run chain h now req db) = snd (h now req' db).
Proof.
  revert req. induction chain as [|m chain IH]; intros req; simpl.
  - right. now exists req.
  - destruct (m now db req) as [req'|res]; [apply IH|now left].
Qed.

Lemma run_keeps_revocations chain h now req db :
  (∀ req', revoked_tokens (snd (h now req' db)) = revoked_tokens db) →
  revoked_tokens (snd (run chain h now req db)) = revoked_tokens db.
Proof.
  intros Hh. destruct (run_store chain h now req db) as [-> | [req' ->]]; auto.
Qed.




End Revocation.

(** ** Login *)

Section Login.
Context `{Runtime}.

Lemma loginValidation_passes now db req :
  Users.well_formed req →
  Users.loginValidation now db req
  = Next (with_body_email req (normalizeEmail (body_email req))).
Proof.
  intros [He Hp]. unfold Users.loginValidation. simpl. rewrite He.
  now rewrite (proj2 (eqb_false_iff _ _) Hp).
Qed.

Lemma post_login_well_formed uuid now req db :
  Users.well_formed req →
  Users.post_login uuid now req db
  = Users.login uuid now (with_body_email req (normalizeEmail (body_email req))) db.
Proof.
  intros Hwf. unfold Users.post_login.
  now rewrite (run_next _ _ _ _ _ _ _ (loginValidation_passes now db req Hwf)).
Qed.

(** C6. A well-formed login for an account whose approval status is not
    APPROVED is answered 403 and changes nothing, whatever the password
    comparison would give; the message for REJECTED differs from the one
    for every other status. *)
Theorem unapproved_account_cannot_log_in uuid now req db u rest :
  Users.well_formed req →
  Users.users_by_email (normalizeEmail (body_email req)) db = u :: rest →
  approval_status u ≠ "APPROVED" →
  Users.post_login uuid now req db
  = (respond 403
       (JError (if String.eqb (approval_status u) "REJECTED"
                then "Account has been rejected by admin"
                else "Account pending admin approval")), db)
  ∧ "Account has been rejected by admin" ≠ "Account pending admin approval".
Proof.
  intros Hwf Hu Hst. split; [|discriminate].
  rewrite post_login_well_formed by exact Hwf.
  unfold Users.login. simpl. rewrite Hu.
  now rewrite (proj2 (eqb_false_iff _ _) Hst).
Qed.

End Login.

(** ** Lockout *)

Lemma ceil_div_minutes (d : Z) :
  0 < d ≤ 900000 → 1 ≤ JS.ceil_div d 60000 ≤ 15.
Proof.
  intros Hd. unfold JS.ceil_div.
  pose proof (Z.div_mod (- d) 60000 ltac:(lia)) as E.
  pose proof (Z.mod_pos_bound (- d) 60000 ltac:(lia)) as B.
  lia.
Qed.

Lemma ceil_div_unique (d m : Z) :
  60000 * (m - 1) < d ≤ 60000 * m → JS.ceil_div d 60000 = m.
Proof.
  intros Hd. unfold JS.ceil_div.
  pose proof (Z.div_mod (- d) 60000 ltac:(lia)) as E.
  pose proof (Z.mod_pos_bound (- d) 60000 ltac:(lia)) as B.
  lia.
Qed.

Lemma filter_email_update e uid (f : User → User) us :
  (∀ u, email (f u) = email u) →
  filter (fun u => email u = e) (Users.update_users uid f us)
  = Users.update_users uid f (filter (fun u => email u = e) us).
Proof.
  intros Hf. unfold Users.update_users.
  induction us as [|u us IH]; [reflexivity|].
  rewrite fmap_cons, !filter_cons, IH.
  assert (E : email (if decide (user_id u = uid) then f u else u) = email u)
    by (destruct (decide (user_id u = uid)); auto).
  rewrite E. destruct (decide (email u = e)); reflexivity.
Qed.

Lemma update_users_head uid f u rest :
  user_id u = uid →
  Users.update_users uid f (u :: rest) = f u :: Users.update_users uid f rest.
Proof.
  intros E. unfold Users.update_users. rewrite fmap_cons.
  now destruct (decide (user_id u = uid)).
Qed.

Section Lockout.
Context `{Runtime}.

(** After an update of the rows of account [u] that keeps emails, the
    first row the email selects is the update of [u]. *)
Lemma users_by_email_update db u rest f :
  (∀ v, email (f v) = email v) →
  Users.users_by_email (email u) db = u :: rest →
  Users.users_by_email (email u)
    (Users.with_users db (Users.update_users (user_id u) f (users db)))
  = f u :: Users.update_users (user_id u) f rest.
Proof.
  intros Hf Hu. unfold Users.users_by_email in *. simpl.
  rewrite filter_email_update by exact Hf.
  rewrite Hu. now apply update_users_head.
Qed.

(** A login for an approved account that is answered 401 went through the
    password comparison: it adds one to the counter, and sets the lock when
    the counter reaches the threshold. *)
Lemma failed_login_step a db u rest :
  Users.users_by_email (email u) db = u :: rest →
  approval_status u = "APPROVED" →
  Users.login_call_for u a →
  Users.failed
    (fst (Users.post_login (Users.at_uuid a) (Users.at_time a) (Users.at_request a) db)) →
  ∃ rest',
    Users.users_by_email (email u)
      (snd (Users.post_login (Users.at_uuid a) (Users.at_time a)
              (Users.at_request a) db))
    = Users.set_lockout
        (Some (default 0 (failed_attempts u) + 1))
        (if 5 <=? default 0 (failed_attempts u) + 1
         then Some (Users.at_time a + Users.LOCK_MS) else locked_until u) u
      :: rest'.
Proof.
  intros Hu Hst (Hwf & He). unfold Users.failed.
  rewrite post_login_well_formed by exact Hwf.
  unfold Users.login. simpl. rewrite He, Hu, Hst. simpl.
  destruct (Users.locked_at (Users.at_time a) u); simpl; [discriminate|].
  destruct (bcrypt_compare _ _); simpl; [discriminate|]. intros _.
  unfold Users.LOCK_THRESHOLD.
  destruct (5 <=? default 0 (failed_attempts u) + 1);
    eexists;
    now rewrite (users_by_email_update db u rest) by (exact Hu || reflexivity).
Qed.

Lemma locked_account_step uuid now req db u rest t :
  Users.users_by_email (email u) db = u :: rest →
  approval_status u = "APPROVED" →
  locked_until u = Some t → now < t →
  Users.well_formed req → normalizeEmail (body_email req) = email u →
  Users.post_login uuid now req db
  = (respond 403 (JError (Users.locked_message (JS.ceil_div (t - now) 60000))), db).
Proof.
  intros Hu Hst Hl Hlt Hwf He.
  rewrite post_login_well_formed by exact Hwf.
  unfold Users.login. simpl. rewrite He, Hu, Hst. simpl.
  unfold Users.locked_at, Users.lock_minutes. rewrite Hl. simpl.
  now rewrite (proj2 (Z.ltb_lt _ _) Hlt).
Qed.

End Lockout.

Section Replay.
Context `{Runtime}.

Lemma replay_cons a calls db :
  Users.replay (a :: calls) db
  = (fst (Users.post_login (Users.at_uuid a) (Users.at_time a) (Users.at_request a) db)
       :: fst (Users.replay calls
                 (snd (Users.post_login (Users.at_uuid a) (Users.at_time a)
                         (Users.at_request a) db))),
     snd (Users.replay calls
            (snd (Users.post_login (Users.at_uuid a) (Users.at_time a)
                    (Users.at_request a) db)))).
Proof.
  simpl. destruct (Users.post_login _ _ _ db) as [res db1]. simpl.
  now destruct (Users.replay calls db1).
Qed.

(** A run of failed logins for one account: the counter grows by one per
    call, and once it has reached the threshold the lock runs from the
    last call. *)
Lemma replay_failed_logins calls :
  ∀ db u rest,
    calls ≠ [] →
    Users.users_by_email (email u) db = u :: rest →
    approval_status u = "APPROVED" →
    0 ≤ default 0 (failed_attempts u) →
    Forall (Users.login_call_for u) calls →
    Forall Users.failed (fst (Users.replay calls db)) →
    ∃ u' rest',
      Users.users_by_email (email u) (snd (Users.replay calls db)) = u' :: rest'
      ∧ email u' = email u
      ∧ approval_status u' = "APPROVED"
      ∧ failed_attempts u'
        = Some (default 0 (failed_attempts u) + Z.of_nat (length calls))
      ∧ (5 ≤ default 0 (failed_attempts u) + Z.of_nat (length calls) →
         locked_until u'
         = (fun t => t + Users.LOCK_MS) <$> last (Users.at_time <$> calls)).
Proof.
  induction calls as [|a calls IH]; intros db u rest Hne Hu Hst Hc Hall Hres; [done|].
  apply Forall_cons in Hall as [Ha Hall].
  rewrite replay_cons in Hres |- *. simpl fst in Hres. simpl snd.
  apply Forall_cons in Hres as [Hra Hres].
  destruct (failed_login_step a db u rest Hu Hst Ha Hra) as (rest1 & Hu1).
  destruct calls as [|b calls'].
  - simpl. eexists; eexists. split; [exact Hu1|].
    repeat split; auto. intros Hge.
    change (5 ≤ default 0 (failed_attempts u) + 1) in Hge. simpl.
    now rewrite (proj2 (Z.leb_le _ _) Hge).
  - set (u1 := Users.set_lockout _ _ u) in Hu1.
    destruct (IH (snd (Users.post_login (Users.at_uuid a) (Users.at_time a)
                         (Users.at_request a) db)) u1 rest1)
      as (u' & rest' & Hu' & He' & Hst' & Hf' & Hl');
      [done|exact Hu1|exact Hst|simpl; lia| |exact Hres|].
    { eapply Forall_impl; [exact Hall|]. intros c Hcall. exact Hcall. }
    exists u', rest'. split; [exact Hu'|]. split; [exact He'|].
    split; [exact Hst'|]. split.
    + rewrite Hf'. simpl. f_equal. lia.
    + intros Hge. rewrite Hl'; [reflexivity|]. simpl. simpl length in Hge. lia.
Qed.

(** X29. When five logins for an approved account, served one after the
    other, have each been answered 401, whatever well-formed login for that
    account comes next less than 900000 ms after the fifth is answered 403
    "Account locked. Try again in N minutes.", where N is the remaining
    time in minutes, rounded up, between 1 and 15, and the store is left as
    it was.  The password of that login is not constrained: the lock is
    tested before the password is compared. *)
Theorem serial_failures_lock_the_sixth calls db u rest last_time uuid now req mins :
  Users.users_by_email (email u) db = u :: rest →
  approval_status u = "APPROVED" →
  0 ≤ default 0 (failed_attempts u) →
  length calls = 5%nat →
  Forall (fun a => isEmail (normalizeEmail (body_email (Users.at_request a))) = true
                   ∧ body_password (Users.at_request a) ≠ ""
                   ∧ normalizeEmail (body_email (Users.at_request a)) = email u) calls →
  Forall (fun res => status res = 401) (fst (Users.replay calls db)) →
  last (Users.at_time <$> calls) = Some last_time →
  isEmail (normalizeEmail (body_email req)) = true → body_password req ≠ "" →
  normalizeEmail (body_email req) = email u →
  last_time ≤ now < last_time + 900000 →
  60000 * (mins - 1) < last_time + 900000 - now ≤ 60000 * mins →
  1 ≤ mins ≤ 15
  ∧ Users.post_login uuid now req (snd (Users.replay calls db))
    = (respond 403
         (JError ("Account locked. Try again in " +:+ pretty mins +:+ " minutes.")),
       snd (Users.replay calls db)).
Proof.
  intros Hu Hst Hc Hlen Hall Hres Hlast Hmail Hpw He Hnow Hmins.
  split; [lia|].
  destruct (replay_failed_logins calls db u rest)
    as (u' & rest' & Hu' & He' & Hst' & Hf' & Hl'); auto.
  { intros ->. discriminate Hlen. }
  { eapply Forall_impl; [exact Hall|]. intros a (A & B & C). repeat split; assumption. }
  rewrite Hlen, Hlast in Hl'. simpl in Hl'. specialize (Hl' ltac:(lia)).
  rewrite <- He' in Hu', He.
  rewrite (locked_account_step uuid now req _ u' rest' _ Hu' Hst' Hl');
    [|unfold Users.LOCK_MS; lia|split; assumption|exact He].
  unfold Users.LOCK_MS. change (15 * 60 * 1000) with 900000.
  now rewrite (ceil_div_unique _ mins Hmins).
Qed.

End Replay.

(** ** Logins that overlap *)

Section Turns.
Context `{Runtime}.

(** The two turns, taken on one store at one time, are the handler. *)
Lemma login_in_turns uuid now req db :
  Users.login uuid now req db
  = match Users.login_first now req db with
    | Users.Answered res => (res, db)
    | Users.Comparing user => Users.login_second uuid user now req db
    end.
Proof.
  unfold Users.login, Users.login_first, Users.login_second.
  destruct (Users.users_by_email (body_email req) db) as [|user rows]; [reflexivity|].
  destruct (negb (String.eqb (approval_status user) "APPROVED")); [reflexivity|].
  destruct (Users.locked_at now user); reflexivity.
Qed.

(** A login that nothing interrupts is served as [post_login] serves it,
    whatever else is in flight. *)
Lemma play_alone (a : Users.Attempt) (s : Users.Server) :
  Users.store
    (Users.play [Users.Arrives a; Users.Resumes (length (Users.waiting s)) (Users.at_time a)] s)
  = snd (Users.post_login (Users.at_uuid a) (Users.at_time a) (Users.at_request a)
           (Users.store s))
  ∧ Users.answers
      (Users.play [Users.Arrives a; Users.Resumes (length (Users.waiting s)) (Users.at_time a)] s)
    = (Users.answers s
       ++ [fst (Users.post_login (Users.at_uuid a) (Users.at_time a) (Users.at_request a)
                  (Users.store s))])%list
  ∧ Users.waiting
      (Users.play [Users.Arrives a; Users.Resumes (length (Users.waiting s)) (Users.at_time a)] s)
    = Users.waiting s.
Proof.
  unfold Users.play, Users.post_login, run. simpl.
  destruct (Users.loginValidation (Users.at_time a) (Users.store s) (Users.at_request a))
    as [req|res]; simpl.
  - rewrite login_in_turns.
    destruct (Users.login_first (Users.at_time a) req (Users.store s)) as [res|user]; simpl.
    + rewrite lookup_ge_None_2 by lia. simpl. auto.
    + rewrite list_lookup_middle by reflexivity. simpl.
      destruct (Users.login_second _ _ _ _ _) as [res db']. simpl.
      split; [reflexivity|]. split; [reflexivity|].
      rewrite delete_middle. now rewrite app_nil_r.
  - rewrite lookup_ge_None_2 by lia. simpl. auto.
Qed.

End Turns.

(** C3. Code at the failing inputs: five wrong passwords for the approved
    account 3 that overlap.  Sent at once, each login reads the counter
    before any of them writes it: all five are answered 401, the counter
    ends at 1 and no lock is set, and the sixth login, with the right
    password, is answered 200 with both cookies.  The same when only the
    fourth and the fifth overlap: the counter ends at 4.  Served one after
    the other, the same five logins lock the account and the sixth is
    answered 403. *)
Theorem overlapping_failures_do_not_lock :
  Users.answers (Users.play Fixture.burst (Users.boot Sample.db))
  = replicate 5 (respond 401 (JError "Invalid credentials"))
  ∧ Users.waiting (Users.play Fixture.burst (Users.boot Sample.db)) = []
  ∧ (fun u => (failed_attempts u, locked_until u))
      <$> Users.users_by_email "mia@ngo.org"
            (Users.store (Users.play Fixture.burst (Users.boot Sample.db)))
    = [(Some 1, None)]
  ∧ (∃ db',
       Users.post_login "5f0c" 200 (Sample.credentials "mia" "mia-Secret1!")
         (Users.store (Users.play Fixture.burst (Users.boot Sample.db)))
       = ({| status := 200; body := JMessage "Login successful";
             cookies :=
               [ SetCookie "access_token" "jwt:member:3:mia@ngo.org"
                   {| httpOnly := true; secure := false; sameSite := "Lax";
                      maxAge := Some 900000; expires := None |};
                 SetCookie "refresh_token" "5f0c"
                   {| httpOnly := true; secure := false; sameSite := "Lax";
                      maxAge := None; expires := Some 2592000200 |} ] |}, db'))
  ∧ Users.answers (Users.play Fixture.double_click (Users.boot Sample.db))
    = replicate 5 (respond 401 (JError "Invalid credentials"))
  ∧ (fun u => (failed_attempts u, locked_until u))
      <$> Users.users_by_email "mia@ngo.org"
            (Users.store (Users.play Fixture.double_click (Users.boot Sample.db)))
    = [(Some 4, None)]
  ∧ status
      (fst (Users.post_login "5f0c" 500 (Sample.credentials "mia" "mia-Secret1!")
              (Users.store (Users.play Fixture.double_click (Users.boot Sample.db)))))
    = 200
  ∧ Users.answers (Users.play Fixture.one_by_one (Users.boot Sample.db))
    = replicate 5 (respond 401 (JError "Invalid credentials"))
  ∧ Users.post_login "5f0c" 600 (Sample.credentials "mia" "mia-Secret1!")
      (Users.store (Users.play Fixture.one_by_one (Users.boot Sample.db)))
    = (respond 403 (JError "Account locked. Try again in 15 minutes."),
       Users.store (Users.play Fixture.one_by_one (Users.boot Sample.db))).
Proof.
  split; [vm_compute; reflexivity|].
  split; [vm_compute; reflexivity|].
  split; [vm_compute; reflexivity|].
  split; [eexists; vm_compute; reflexivity|].
  split; [vm_compute; reflexivity|].
  split; [vm_compute; reflexivity|].
  split; [vm_compute; reflexivity|].
  split; [vm_compute; reflexivity|].
  vm_compute; reflexivity.
Qed.

(** ** Successful login *)

Section Success.
Context `{Runtime}.


End Success.

(** ** Refresh *)

Lemma filter_none {A} (P : A → Prop) `{∀ x, Decision (P x)} (l : list A) :
  (∀ x, x ∈ l → ¬ P x) → filter P l = [].
Proof.
  induction l as [|x l IH]; intros Hn; [reflexivity|].
  rewrite filter_cons. destruct (decide (P x)) as [Hp|_].
  - exfalso. apply (Hn x); [left|exact Hp].
  - apply IH. intros y Hy. apply Hn. now right.
Qed.

(** A filter that keeps something hands its first element from the list. *)
Lemma filter_head_some {A} (P : A → Prop) `{∀ x, Decision (P x)} (l : list A) x :
  x ∈ l → P x → ∃ y ys, filter P l = y :: ys.
Proof.
  intros Hin Hp.
  assert (Hf : x ∈ filter P l) by (apply list_elem_of_filter; split; assumption).
  destruct (filter P l) as [|y ys]; [now apply elem_of_nil in Hf|eauto].
Qed.

Lemma filter_head_elem {A} (P : A → Prop) `{∀ x, Decision (P x)} (l : list A) y ys :
  filter P l = y :: ys → y ∈ l ∧ P y.
Proof.
  intros E. assert (Hf : y ∈ filter P l) by (rewrite E; left).
  apply list_elem_of_filter in Hf. tauto.
Qed.

Section Refresh.
Context `{Runtime}.

(** C9. [POST /refresh] never changes the store: no session row is
    replaced, updated or deleted, expired ones included.  It answers 400
    when no refresh cookie is presented, and 401 when every session stored
    with the presented token has expired (none at all included).  When the
    table holds a session with the presented token that has not expired,
    and the accounts of such sessions exist, it answers 200 with one cookie,
    the access token signed now for the account of such a session, and the
    session row is still in the table. *)
Theorem refresh_reissues_without_rotation now req db :
  snd (Users.post_refresh now req db) = db
  ∧ (JS.truthy (cookie_refresh_token req) = false →
     fst (Users.post_refresh now req db)
     = respond 400 (JError "Missing refresh token"))
  ∧ (∀ tok,
       cookie_refresh_token req = Some tok → tok ≠ "" →
       (∀ r, r ∈ refresh_tokens db → rt_refresh_token r = tok →
             rt_expires_at r ≤ now) →
       fst (Users.post_refresh now req db)
       = respond 401 (JError "Invalid refresh token"))
  ∧ (∀ tok,
       cookie_refresh_token req = Some tok → tok ≠ "" →
       (∃ r, r ∈ refresh_tokens db ∧ rt_refresh_token r = tok ∧ now < rt_expires_at r) →
       (∀ r, r ∈ refresh_tokens db → rt_refresh_token r = tok → now < rt_expires_at r →
             ∃ u, u ∈ users db ∧ user_id u = rt_user_id r) →
       ∃ row u,
         row ∈ refresh_tokens db ∧ rt_refresh_token row = tok ∧ now < rt_expires_at row
         ∧ u ∈ users db ∧ user_id u = rt_user_id row
         ∧ fst (Users.post_refresh now req db)
           = {| status := 200; body := JMessage "Access token refreshed";
                cookies :=
                  [ SetCookie "access_token"
                      (jwt_sign {| p_user_id := user_id u; p_email := email u;
                                   p_role := user_role u |} now)
                      {| httpOnly := true; secure := isProd;
                         sameSite := if isProd then "Strict" else "Lax";
                         maxAge := Some 900000; expires := None |} ] |}
         ∧ row ∈ refresh_tokens (snd (Users.post_refresh now req db))).
Proof.
  split; [|split; [|split]].
  - unfold Users.post_refresh.
    destruct (JS.truthy (cookie_refresh_token req)); simpl; [|reflexivity].
    destruct (Users.live_sessions _ now db) as [|row rows]; [reflexivity|].
    destruct (Users.users_by_id _ db); reflexivity.
  - intros E. unfold Users.post_refresh. now rewrite E.
  - intros tok E Ht Hexp. unfold Users.post_refresh.
    rewrite E, (truthy_Some _ Ht). simpl.
    unfold Users.live_sessions. rewrite filter_none; [reflexivity|].
    intros r Hr [Htok Hlive]. specialize (Hexp r Hr Htok). lia.
  - intros tok E Ht (r & Hr & Htok & Hlive) Hacc.
    destruct (filter_head_some
                (fun r => rt_refresh_token r = tok ∧ now < rt_expires_at r)
                (refresh_tokens db) r Hr (conj Htok Hlive)) as (row & rows & Hrows).
    destruct (filter_head_elem _ _ _ _ Hrows) as (Hrow & Hrtok & Hrlive).
    destruct (Hacc row Hrow Hrtok Hrlive) as (v & Hv & Hvid).
    destruct (filter_head_some (fun u => user_id u = rt_user_id row) (users db) v Hv Hvid)
      as (u & us & Hus).
    destruct (filter_head_elem _ _ _ _ Hus) as (Hu & Huid).
    exists row, u. repeat (split; [assumption|]).
    unfold Users.post_refresh. rewrite E, (truthy_Some _ Ht). simpl.
    unfold Users.live_sessions, Users.users_by_id. rewrite Hrows, Hus. simpl.
    split; [reflexivity|exact Hrow].
Qed.

End Refresh.

(** ** Deleting an account *)

(** [user_id] is the primary key: the rows with the id of an account are
    that account alone. *)
Lemma users_by_id_unique db target :
  NoDup (user_id <$> users db) → target ∈ users db →
  Users.users_by_id (user_id target) db = [target].
Proof.
  unfold Users.users_by_id. induction (users db) as [|x us IH]; intros Hnd Hin.
  - now apply elem_of_nil in Hin.
  - rewrite fmap_cons in Hnd. apply NoDup_cons in Hnd as [Hx Hnd].
    rewrite filter_cons. apply elem_of_cons in Hin as [->|Hin].
    + rewrite decide_True by reflexivity. f_equal.
      apply filter_none. intros y Hy Hyx. apply Hx. rewrite <- Hyx.
      apply list_elem_of_fmap. eauto.
    + rewrite decide_False; [now apply IH|].
      intros Hxt. apply Hx. rewrite Hxt. apply list_elem_of_fmap. eauto.
Qed.

Lemma users_by_id_head n db t rest :
  Users.users_by_id n db = t :: rest → user_id t = n.
Proof.
  intros E. assert (Hin : t ∈ Users.users_by_id n db) by (rewrite E; left).
  unfold Users.users_by_id in Hin. now apply list_elem_of_filter in Hin as [-> _].
Qed.

Lemma authorize_DELETE role :
  Policy.authorize role "DELETE" = true → role = "admin" ∨ role = "super_admin".
Proof.
  unfold Policy.authorize.
  destruct (String.eqb_spec role "member") as [->|_]; [discriminate|].
  destruct (String.eqb_spec role "staff") as [->|_]; [discriminate|].
  destruct (String.eqb_spec role "admin") as [->|_]; [auto|].
  destruct (String.eqb_spec role "super_admin") as [->|_]; [auto|]. simpl.
  destruct (String.eqb_spec role "finance") as [->|_]; discriminate.
Qed.

Section Delete.
Context `{Runtime}.

Lemma delete_id_reaches_handler now req db p :
  Auth.verifyToken now db req = Next (with_user req p) →
  JS.toUpperCase (method req) = "DELETE" →
  p_role p = "admin" ∨ p_role p = "super_admin" →
  Users.delete_id now req db = Users.delete_user now (with_user req p) db.
Proof.
  intros V Hm Hr. unfold Users.delete_id. rewrite (run_next _ _ _ _ _ _ _ V).
  simpl. unfold Auth.rbacAccess, Auth.role_of. simpl. rewrite Hm.
  destruct Hr as [-> | ->]; reflexivity.
Qed.

Lemma delete_id_other_roles now req db p :
  Auth.verifyToken now db req = Next (with_user req p) →
  JS.toUpperCase (method req) = "DELETE" →
  p_role p ≠ "" → p_role p ≠ "admin" → p_role p ≠ "super_admin" →
  ∃ res, Users.delete_id now req db = (res, db) ∧ status res = 403.
Proof.
  intros V Hm H0 H1 H2. unfold Users.delete_id. rewrite (run_next _ _ _ _ _ _ _ V).
  pose proof (rbacAccess_verdict Users.admin_only now db (with_user req p)) as Hv.
  unfold Auth.role_of in Hv. simpl in Hv.
  rewrite (proj2 (eqb_false_iff _ _) H0), Hm in Hv. simpl in Hv.
  destruct (Policy.authorize (p_role p) "DELETE") eqn:Ha.
  { apply authorize_DELETE in Ha as [Ha|Ha]; contradiction. }
  simpl. destruct (Auth.rbacAccess Users.admin_only now db (with_user req p))
    as [r|res]; [discriminate|].
  exists res. split; [reflexivity|]. simpl in Hv. now injection Hv.
Qed.

Lemma delete_user_self now req db p tid :
  param_id req = Some tid → js_Number tid = Some (p_user_id p) →
  Users.delete_user now (with_user req p) db
  = (respond 403 (JError "You cannot delete your own account"), db).
Proof.
  intros Hid Hn. unfold Users.delete_user. simpl. rewrite Hid. simpl. rewrite Hn.
  now rewrite bool_decide_eq_true_2.
Qed.

Lemma delete_user_other now req db p tid n :
  param_id req = Some tid → js_Number tid = Some n → pg_int tid = Some n →
  n ≠ p_user_id p →
  Users.delete_user now (with_user req p) db
  = match Users.users_by_id n db with
    | [] => (respond 404 (JError "User not found"), db)
    | target :: _ =>
        if String.eqb (user_role target) "super_admin" then
          (respond 403 (JError "Super Admin cannot be deleted"), db)
        else if (String.eqb (p_role p) "admin"
                 && negb (String.eqb (user_role target) "member"))%bool then
          (respond 403 (JError "Admins can only delete members"), db)
        else if bool_decide (user_id target ∈ referenced db) then
          (respond 400 (JError "Cannot delete user: dependent records exist"), db)
        else
          (respond 200 (JMessage "User deleted successfully"),
           Users.with_users db
             (filter (fun u => user_id u ≠ user_id target) (users db)))
    end.
Proof.
  intros Hid Hn Hpg Hne. unfold Users.delete_user. simpl. rewrite Hid. simpl.
  rewrite Hn, Hpg. simpl.
  rewrite bool_decide_eq_false_2 by congruence. reflexivity.
Qed.

Lemma delete_user_not_self now req db p tid :
  param_id req = Some tid → js_Number tid ≠ Some (p_user_id p) →
  Users.delete_user now (with_user req p) db
  = match pg_int tid with
    | None => (respond 500 (JError "Server error"), db)
    | Some n =>
        match Users.users_by_id n db with
        | [] => (respond 404 (JError "User not found"), db)
        | target :: _ =>
            if String.eqb (user_role target) "super_admin" then
              (respond 403 (JError "Super Admin cannot be deleted"), db)
            else if (String.eqb (p_role p) "admin"
                     && negb (String.eqb (user_role target) "member"))%bool then
              (respond 403 (JError "Admins can only delete members"), db)
            else if bool_decide (user_id target ∈ referenced db) then
              (respond 400 (JError "Cannot delete user: dependent records exist"), db)
            else
              (respond 200 (JMessage "User deleted successfully"),
               Users.with_users db
                 (filter (fun u => user_id u ≠ user_id target) (users db)))
        end
    end.
Proof.
  intros Hid Hne. unfold Users.delete_user. simpl. rewrite Hid. simpl.
  rewrite bool_decide_eq_false_2 by exact Hne.
  destruct (pg_int tid); reflexivity.
Qed.

(** C8. [DELETE /:id] of the users router, for a request that carries a
    verified principal with a role, [user_id] being the key of [users]:
    403 when the target id, read as a number, is the requester's own id;
    403 when the target account is a super_admin; 403 when the requester is
    an admin and the target account is not a member (the three for every
    role of the requester, and the store is untouched).  For a requester
    the route admits (admin, super_admin) and a target id that is not its
    own: 500 when the store cannot read the target id as a key; 404 when it
    can and no account has it; otherwise, if no rule above applies, 400
    with the store untouched when dependent records block the deletion,
    else 200, the target account is gone and every other account is still
    there. *)
Theorem delete_account_rules now req db p tid :
  Auth.verifyToken now db req = Next (with_user req p) →
  JS.toUpperCase (method req) = "DELETE" →
  p_role p ≠ "" →
  param_id req = Some tid →
  NoDup (user_id <$> users db) →
  (js_Number tid = Some (p_user_id p) →
     ∃ res, Users.delete_id now req db = (res, db) ∧ status res = 403)
  ∧ (∀ target,
       target ∈ users db → pg_int tid = Some (user_id target) →
       user_role target = "super_admin" →
       ∃ res, Users.delete_id now req db = (res, db) ∧ status res = 403)
  ∧ (∀ target,
       p_role p = "admin" →
       target ∈ users db → pg_int tid = Some (user_id target) →
       user_role target ≠ "member" →
       ∃ res, Users.delete_id now req db = (res, db) ∧ status res = 403)
  ∧ ((p_role p = "admin" ∨ p_role p = "super_admin") →
     js_Number tid ≠ Some (p_user_id p) →
     (pg_int tid = None →
        Users.delete_id now req db = (respond 500 (JError "Server error"), db))
     ∧ (∀ n, pg_int tid = Some n → (∀ u, u ∈ users db → user_id u ≠ n) →
          Users.delete_id now req db = (respond 404 (JError "User not found"), db))
     ∧ (∀ target,
          target ∈ users db → pg_int tid = Some (user_id target) →
          user_role target ≠ "super_admin" →
          (p_role p = "admin" → user_role target = "member") →
          (user_id target ∈ referenced db →
             Users.delete_id now req db
             = (respond 400 (JError "Cannot delete user: dependent records exist"),
                db))
          ∧ (user_id target ∉ referenced db →
               Users.delete_id now req db
               = (respond 200 (JMessage "User deleted successfully"),
                  Users.with_users db
                    (filter (fun u => user_id u ≠ user_id target) (users db)))
               ∧ (∀ u, u ∈ users (snd (Users.delete_id now req db)) →
                       user_id u ≠ user_id target)
               ∧ (∀ u, u ∈ users db → user_id u ≠ user_id target →
                       u ∈ users (snd (Users.delete_id now req db)))))).
Proof.
  intros V Hm H0 Hid Hkey.
  assert (Hother : ¬ (p_role p = "admin" ∨ p_role p = "super_admin") →
                   ∃ res, Users.delete_id now req db = (res, db) ∧ status res = 403).
  { intros Hno. apply (delete_id_other_roles now req db p V Hm H0); tauto. }
  assert (Hdec : (p_role p = "admin" ∨ p_role p = "super_admin")
                 ∨ ¬ (p_role p = "admin" ∨ p_role p = "super_admin")).
  { destruct (decide (p_role p = "admin")); [tauto|].
    destruct (decide (p_role p = "super_admin")); tauto. }
  assert (Hself : ∀ (Hr : p_role p = "admin" ∨ p_role p = "super_admin"),
            js_Number tid = Some (p_user_id p) →
            ∃ res, Users.delete_id now req db = (res, db) ∧ status res = 403).
  { intros Hr Hn. rewrite (delete_id_reaches_handler _ _ _ _ V Hm Hr).
    rewrite (delete_user_self _ _ _ _ _ Hid Hn). eexists. split; reflexivity. }
  split; [|split; [|split]].
  - intros Hn. destruct Hdec as [Hr|Hr]; auto.
  - intros target Hin Hpg Hsa. destruct Hdec as [Hr|Hr]; [|auto].
    destruct (decide (js_Number tid = Some (p_user_id p))) as [Hn|Hn]; [auto|].
    rewrite (delete_id_reaches_handler _ _ _ _ V Hm Hr).
    rewrite (delete_user_not_self _ _ _ _ _ Hid Hn), Hpg.
    rewrite (users_by_id_unique _ _ Hkey Hin), Hsa. simpl.
    eexists. split; reflexivity.
  - intros target Hadm Hin Hpg Hnm.
    destruct (decide (js_Number tid = Some (p_user_id p))) as [Hn|Hn];
      [apply Hself; auto|].
    rewrite (delete_id_reaches_handler _ _ _ _ V Hm (or_introl Hadm)).
    rewrite (delete_user_not_self _ _ _ _ _ Hid Hn), Hpg.
    rewrite (users_by_id_unique _ _ Hkey Hin), Hadm.
    rewrite (proj2 (eqb_false_iff _ _) Hnm). simpl.
    destruct (String.eqb (user_role target) "super_admin");
      eexists; split; reflexivity.
  - intros Hr Hn.
    rewrite (delete_id_reaches_handler _ _ _ _ V Hm Hr).
    rewrite (delete_user_not_self _ _ _ _ _ Hid Hn).
    split; [intros ->; reflexivity|]. split.
    + intros n -> Hnone. unfold Users.users_by_id.
      rewrite filter_none; [reflexivity|]. intros u Hu Hun. exact (Hnone u Hu Hun).
    + intros target Hin -> Hns Hmem.
      rewrite (users_by_id_unique _ _ Hkey Hin).
      rewrite (proj2 (eqb_false_iff _ _) Hns).
      assert (Hrule : (String.eqb (p_role p) "admin"
                       && negb (String.eqb (user_role target) "member"))%bool = false).
      { destruct (String.eqb_spec (p_role p) "admin") as [Ha|_]; [|reflexivity].
        rewrite (Hmem Ha). reflexivity. }
      rewrite Hrule. split.
      * intros Hin'. now rewrite bool_decide_eq_true_2.
      * intros Hnin. rewrite bool_decide_eq_false_2 by exact Hnin.
        split; [reflexivity|]. simpl. split.
        -- intros u Hu. now apply list_elem_of_filter in Hu as [Hu _].
        -- intros u Hu Hne. apply list_elem_of_filter. split; assumption.
Qed.

End Delete.

(** ** The theorems at work on the sample store *)


Lemma unapproved_account_cannot_log_in_witness :
  Users.post_login "5f0c" 0 (Sample.credentials "rex" "rex-Secret1!") Sample.db
  = (respond 403 (JError "Account has been rejected by admin"), Sample.db)
  ∧ "Account has been rejected by admin" ≠ "Account pending admin approval".
Proof.
  apply (unapproved_account_cannot_log_in "5f0c" 0
           (Sample.credentials "rex" "rex-Secret1!") Sample.db Sample.rex []).
  - split; [reflexivity|discriminate].
  - reflexivity.
  - discriminate.
Defined.


Lemma serial_failures_lock_the_sixth_witness :
  Sample.compare "mia-Secret1!" (password_hash Sample.mia) = true
  ∧ 1 ≤ 12 ≤ 15
  ∧ Users.post_login "5f0c" 205000 (Sample.credentials "mia" "mia-Secret1!")
      (snd (Users.replay Sample.five_failures Sample.db))
    = (respond 403 (JError "Account locked. Try again in 12 minutes."),
       snd (Users.replay Sample.five_failures Sample.db)).
Proof.
  split; [reflexivity|].
  apply (serial_failures_lock_the_sixth Sample.five_failures Sample.db Sample.mia [] 5000
           "5f0c" 205000 (Sample.credentials "mia" "mia-Secret1!") 12).
  - reflexivity.
  - reflexivity.
  - simpl. lia.
  - reflexivity.
  - repeat constructor; discriminate.
  - vm_compute. repeat constructor.
  - reflexivity.
  - reflexivity.
  - discriminate.
  - reflexivity.
  - lia.
  - lia.
Defined.


(** C8, counterexample: no account has the id [abc], yet the super admin
    that asks to delete it is answered 500, not 404: the store cannot read
    [abc] as a key and raises. *)
Lemma delete_of_unreadable_id_is_not_404 :
  (∀ u, u ∈ users Sample.db → JS.String_of_Z (user_id u) ≠ "abc")
  ∧ Users.delete_id 0 (Sample.as_user Sample.root "DELETE" "/api/v1/users" (Some "abc"))
      Sample.db
    = (respond 500 (JError "Server error"), Sample.db)
  ∧ status
      (fst (Users.delete_id 0
              (Sample.as_user Sample.root "DELETE" "/api/v1/users" (Some "abc"))
              Sample.db)) ≠ 404.
Proof.
  split.
  - intros u Hu. unfold Sample.db in Hu. simpl in Hu.
    repeat (apply elem_of_cons in Hu as [->|Hu]; [vm_compute; discriminate|]).
    now apply elem_of_nil in Hu.
  - split; [vm_compute; reflexivity|vm_compute; discriminate].
Qed.

Lemma delete_account_rules_witness :
  Users.delete_id 0 (Sample.as_user Sample.ada "DELETE" "/api/v1/users" (Some "3"))
    Sample.db
  = (respond 400 (JError "Cannot delete user: dependent records exist"), Sample.db).
Proof.
  destruct (delete_account_rules 0
              (Sample.as_user Sample.ada "DELETE" "/api/v1/users" (Some "3"))
              Sample.db (Sample.principal_of Sample.ada) "3")
    as (_ & _ & _ & Hrules).
  - reflexivity.
  - reflexivity.
  - discriminate.
  - reflexivity.
  - change (NoDup [1; 2; 3; 4; 5; 6]).
    repeat (constructor; [rewrite list_elem_of_In; simpl; intuition discriminate|]).
    constructor.
  - destruct Hrules as (_ & _ & Hfound); [left; reflexivity|discriminate|].
    destruct (Hfound Sample.mia) as [Hblocked _].
    + unfold Sample.db. simpl. do 2 right. left.
    + reflexivity.
    + discriminate.
    + reflexivity.
    + apply Hblocked. simpl. now apply elem_of_singleton_2.
Defined.


Lemma refresh_reissues_without_rotation_witness :
  Users.post_refresh 100 (Sample.with_refresh_cookie "new") Sample.two_sessions
  = ({| status := 200; body := JMessage "Access token refreshed";
        cookies :=
          [ SetCookie "access_token" "jwt:member:3:mia@ngo.org"
              {| httpOnly := true; secure := false; sameSite := "Lax";
                 maxAge := Some 900000; expires := None |} ] |},
     Sample.two_sessions).
Proof.
  destruct (refresh_reissues_without_rotation 100 (Sample.with_refresh_cookie "new")
              Sample.two_sessions) as (Hdb & _ & _ & Hlive).
  rewrite (surjective_pairing (Users.post_refresh _ _ _)), Hdb.
  destruct (Hlive "new") as (row & u & Hrow & Htok & _ & Hu & Hid & Hres & _).
  - reflexivity.
  - discriminate.
  - eexists. split; [right; left|]. split; [reflexivity|simpl; lia].
  - intros r Hr _ _. exists Sample.mia. split.
    + unfold Sample.two_sessions. simpl. do 2 right. left.
    + unfold Sample.two_sessions in Hr. simpl in Hr.
      apply elem_of_cons in Hr as [->|Hr]; [reflexivity|].
      apply elem_of_cons in Hr as [->|Hr]; [reflexivity|].
      now apply elem_of_nil in Hr.
  - rewrite Hres.
    assert (Hrid : rt_user_id row = 3).
    { unfold Sample.two_sessions in Hrow. simpl in Hrow.
      apply elem_of_cons in Hrow as [->|Hrow]; [reflexivity|].
      apply elem_of_cons in Hrow as [->|Hrow]; [reflexivity|].
      now apply elem_of_nil in Hrow. }
    rewrite Hrid in Hid.
    assert (Hmia : u = Sample.mia).
    { unfold Sample.two_sessions in Hu. simpl in Hu.
      repeat (apply elem_of_cons in Hu as [->|Hu]; [try discriminate Hid; try reflexivity|]).
      now apply elem_of_nil in Hu. }
    rewrite Hmia. reflexivity.
Defined.

(** * Further properties of the code *)

(** ** Token extraction and verification *)

Lemma bearer_prefix (t : string) :
  JS.startsWith "Bearer " ("Bearer " +:+ t) = true
  ∧ JS.slice 7 ("Bearer " +:+ t) = t.
Proof. split; [|reflexivity]. unfold JS.startsWith. simpl. now destruct t. Qed.

(** The header wins: a bearer value that is not empty is the token. *)
Lemma extract_token_header req t :
  authorization req = Some ("Bearer " +:+ t) → t ≠ "" →
  Auth.extract_token req = Some t ∧ JS.truthy (Auth.extract_token req) = true.
Proof.
  intros Ha Ht. unfold Auth.extract_token. rewrite Ha.
  assert (Hh : JS.truthy (Some ("Bearer " +:+ t)) = true) by reflexivity.
  rewrite Hh. simpl default.
  destruct (bearer_prefix t) as [-> ->]. rewrite (truthy_Some _ Ht).
  split; [reflexivity|]. simpl. exact (truthy_Some _ Ht).
Qed.

(** X1. [verifyToken] takes the token from the header when it holds
    [Bearer t] with [t] not empty, whatever the cookie holds; it takes the
    [access_token] cookie when there is no header, when the header does not
    start with [Bearer ] (the scheme is matched with its capital letter and
    its space), and when nothing follows [Bearer ]. *)
Theorem extract_token_precedence req :
  (∀ t, authorization req = Some ("Bearer " +:+ t) → t ≠ "" →
        Auth.extract_token req = Some t)
  ∧ (∀ c, cookie_access_token req = Some c → c ≠ "" →
          (authorization req = None
           ∨ authorization req = Some "Bearer "
           ∨ ∃ h, authorization req = Some h ∧ JS.startsWith "Bearer " h = false) →
          Auth.extract_token req = Some c)
  ∧ (JS.truthy (cookie_access_token req) = false →
     (authorization req = None
      ∨ authorization req = Some "Bearer "
      ∨ ∃ h, authorization req = Some h ∧ JS.startsWith "Bearer " h = false) →
     JS.truthy (Auth.extract_token req) = false).
Proof.
  split; [|split]; unfold Auth.extract_token.
  - fold (Auth.extract_token req). intros t Ha Ht. now destruct (extract_token_header req t Ha Ht).
  - intros c Hc Hne Hh. rewrite Hc, (truthy_Some _ Hne).
    destruct Hh as [-> | [-> | (h & -> & Hp)]]; [reflexivity|reflexivity|].
    destruct (JS.truthy (Some h)); simpl default; [rewrite Hp|]; reflexivity.
  - intros Hc Hh. rewrite Hc.
    destruct Hh as [-> | [-> | (h & -> & Hp)]]; [reflexivity|reflexivity|].
    destruct (JS.truthy (Some h)); simpl default; [rewrite Hp|]; reflexivity.
Qed.

Lemma extract_token_precedence_witness :
  Auth.extract_token (Fixture.with_header_and_cookie "aaa" "bbb") = Some "aaa".
Proof.
  destruct (extract_token_precedence (Fixture.with_header_and_cookie "aaa" "bbb"))
    as [Hheader _].
  apply Hheader; [reflexivity|discriminate].
Defined.

Section Verification.
Context `{Runtime}.

Lemma truthy_inv (o : option string) :
  JS.truthy o = true → ∃ t, o = Some t ∧ t ≠ "".
Proof.
  destruct o as [t|]; [|discriminate]. simpl. intros Ht. exists t.
  split; [reflexivity|]. intros ->. discriminate.
Qed.

Lemma verifyToken_next now db req req' :
  Auth.verifyToken now db req = Next req' →
  ∃ t p,
    Auth.extract_token req = Some t ∧ t ≠ ""
    ∧ (t ∉ revoked_tokens db)
    ∧ jwt_verify t now = Some p
    ∧ req' = with_user req p.
Proof.
  unfold Auth.verifyToken.
  destruct (JS.truthy (Auth.extract_token req)) eqn:Ht; simpl; [|discriminate].
  apply truthy_inv in Ht as (t & -> & Hne). simpl.
  destruct (bool_decide (t ∈ revoked_tokens db)) eqn:Hr; [discriminate|].
  apply bool_decide_eq_false in Hr.
  destruct (jwt_verify t now) as [p|] eqn:Hv; [|discriminate].
  intros [= <-]. exists t, p. rewrite with_user_eta. auto 10.
Qed.

Lemma verifyToken_refusal now db req res :
  Auth.verifyToken now db req = Done res →
  status res = 401 ∧ ∃ msg, body res = JError msg.
Proof.
  unfold Auth.verifyToken.
  repeat (case_match; try discriminate); intros [= <-]; simpl; eauto.
Qed.

(** X2. When [verifyToken] calls [next()], the request carried a token that
    is not empty, is not on the revocation list and was verified, and it
    goes on as it came but for the decoded principal, which is attached.
    When it does not, the answer is 401 and nothing is attached. *)
Theorem verifyToken_sound now db req :
  (∀ req', Auth.verifyToken now db req = Next req' →
     ∃ t p,
       Auth.extract_token req = Some t ∧ t ≠ ""
       ∧ (t ∉ revoked_tokens db)
       ∧ jwt_verify t now = Some p
       ∧ req' = with_user req p
       ∧ user req' = Some p
       ∧ method req' = method req ∧ param_id req' = param_id req)
  ∧ (∀ res, Auth.verifyToken now db req = Done res → status res = 401).
Proof.
  split.
  - intros req' V.
    destruct (verifyToken_next _ _ _ _ V) as (t & p & Ht & Hne & Hr & Hv & ->).
    exists t, p. auto 10.
  - intros res V. now destruct (verifyToken_refusal _ _ _ _ V).
Qed.

(** X4. A route declared with [verifyToken, rbacAccess(...)] before its
    handler: either the request is answered 401 or 403 and the store is
    left as it was, or the handler runs, on the request with the principal
    of a verified token that is not revoked, and the role × verb table
    allows the role of that principal the method of the request. *)
Theorem guarded_route_cases (L : list JsValue) (h : Handler) now req db :
  (∃ res, run [Auth.verifyToken; Auth.rbacAccess L] h now req db = (res, db)
          ∧ (status res = 401 ∨ status res = 403))
  ∨ (∃ t p,
        Auth.extract_token req = Some t ∧ (t ∉ revoked_tokens db)
        ∧ jwt_verify t now = Some p
        ∧ Policy.authorize (p_role p) (JS.toUpperCase (method req)) = true
        ∧ run [Auth.verifyToken; Auth.rbacAccess L] h now req db
          = h now (with_user req p) db).
Proof.
  destruct (Auth.verifyToken now db req) as [req'|res] eqn:V.
  - destruct (verifyToken_next _ _ _ _ V) as (t & p & Ht & Hne & Hr & Hv & ->).
    rewrite (run_next _ _ _ _ _ _ _ V).
    pose proof (rbacAccess_verdict L now db (with_user req p)) as Hverdict.
    destruct (Auth.rbacAccess L now db (with_user req p)) as [r|res] eqn:A.
    + pose proof (rbacAccess_next _ _ _ _ _ A) as Hr'. subst r. right. exists t, p.
      simpl in Hverdict. unfold Auth.role_of in Hverdict. simpl in Hverdict.
      destruct (negb (String.eqb (p_role p) "")); [|discriminate].
      destruct (Policy.authorize _ _) eqn:Ha; [|discriminate].
      rewrite (run_next _ _ _ _ _ _ _ A). auto 10.
    + left. exists res. rewrite (run_done _ _ _ _ _ _ _ A). split; [reflexivity|].
      simpl in Hverdict.
      destruct (negb _); [destruct (Policy.authorize _ _); [discriminate|]|];
        injection Hverdict as ->; auto.
  - left. exists res. rewrite (run_done _ _ _ _ _ _ _ V). split; [reflexivity|].
    unfold Auth.verifyToken in V.
    destruct (negb _); [injection V as <-; auto|].
    destruct (bool_decide _); [injection V as <-; auto|].
    destruct (jwt_verify _ _); [discriminate|injection V as <-; auto].
Qed.

(** X3. Of the endpoints of the users router, only logout adds to the
    revocation list, and [verifyToken] reads nothing else of the store: the
    token of an account that has been rejected or deleted since is verified
    as before. *)
Theorem only_logout_revokes e now req db :
  e ≠ Users.PostLogout →
  revoked_tokens (snd (Users.serve e now req db)) = revoked_tokens db
  ∧ (∀ later req',
       Auth.verifyToken later (snd (Users.serve e now req db)) req'
       = Auth.verifyToken later db req').
Proof.
  intros He.
  assert (Hsame : revoked_tokens (snd (Users.serve e now req db)) = revoked_tokens db).
  { destruct e; unfold Users.serve; try contradiction.
    - unfold Users.post_login. rewrite run_keeps_revocations; [done|].
      intros r. unfold Users.login. repeat (case_match; simpl); reflexivity.
    - unfold Users.post_refresh. repeat (case_match; simpl); done.
    - unfold Users.get_pending. rewrite run_keeps_revocations; done.
    - unfold Users.post_approve. rewrite run_keeps_revocations; [done|].
      intros r. unfold Users.approve, Users.transition.
      repeat (case_match; simpl); reflexivity.
    - unfold Users.post_reject. rewrite run_keeps_revocations; [done|].
      intros r. unfold Users.reject, Users.transition.
      repeat (case_match; simpl); reflexivity.
    - unfold Users.delete_id. rewrite run_keeps_revocations; [done|].
      intros r. unfold Users.delete_user.
      repeat (case_match; simpl); reflexivity. }
  split; [exact Hsame|].
  intros later req'. unfold Auth.verifyToken. now rewrite Hsame.
Qed.

End Verification.

Lemma only_logout_revokes_witness :
  Users.users_by_id 3
    (snd (Users.serve Users.DeleteId 0
            (Sample.as_user Sample.root "DELETE" "/api/v1/users" (Some "6"))
            Sample.db)) = [Sample.mia]
  ∧ Auth.verifyToken 9
      (snd (Users.serve Users.DeleteId 0
              (Sample.as_user Sample.root "DELETE" "/api/v1/users" (Some "6"))
              Sample.db))
      (Sample.as_user Sample.sam "GET" "/api/v1/users" None)
    = Auth.verifyToken 9 Sample.db
        (Sample.as_user Sample.sam "GET" "/api/v1/users" None).
Proof.
  split; [vm_compute; reflexivity|].
  apply (only_logout_revokes Users.DeleteId 0
           (Sample.as_user Sample.root "DELETE" "/api/v1/users" (Some "6"))
           Sample.db).
  discriminate.
Defined.

Lemma verifyToken_sound_witness :
  ∃ t p,
    Auth.extract_token (Sample.as_user Sample.mia "GET" "/api/v1/users" None) = Some t
    ∧ t ≠ "" ∧ (t ∉ revoked_tokens Sample.db)
    ∧ jwt_verify t 0 = Some p
    ∧ with_user (Sample.as_user Sample.mia "GET" "/api/v1/users" None)
        (Sample.principal_of Sample.mia)
      = with_user (Sample.as_user Sample.mia "GET" "/api/v1/users" None) p
    ∧ user (with_user (Sample.as_user Sample.mia "GET" "/api/v1/users" None)
              (Sample.principal_of Sample.mia)) = Some p
    ∧ method (with_user (Sample.as_user Sample.mia "GET" "/api/v1/users" None)
                (Sample.principal_of Sample.mia))
      = method (Sample.as_user Sample.mia "GET" "/api/v1/users" None)
    ∧ param_id (with_user (Sample.as_user Sample.mia "GET" "/api/v1/users" None)
                  (Sample.principal_of Sample.mia))
      = param_id (Sample.as_user Sample.mia "GET" "/api/v1/users" None).
Proof.
  destruct (verifyToken_sound 0 Sample.db
              (Sample.as_user Sample.mia "GET" "/api/v1/users" None)) as [Hnext _].
  apply Hnext. reflexivity.
Defined.

(** ** Logout *)

Lemma filter_filter_implied {A} (P Q : A → Prop)
    `{∀ x, Decision (P x)} `{∀ x, Decision (Q x)} (l : list A) :
  (∀ x, P x → Q x) → filter P (filter Q l) = filter P l.
Proof.
  intros HPQ. induction l as [|x l IH]; [reflexivity|].
  rewrite (filter_cons Q). destruct (decide (Q x)) as [Hq|Hq].
  - rewrite !filter_cons, IH. reflexivity.
  - rewrite filter_cons, IH. destruct (decide (P x)) as [Hp|_]; [|reflexivity].
    exfalso. auto.
Qed.

Lemma split_bearer_header (t : string) :
  JS.split " " ("Bearer " +:+ t) = "Bearer" :: JS.split " " t.
Proof. reflexivity. Qed.

Section Logout.
Context `{Runtime}.

Lemma logout_refresh_tokens now req db :
  refresh_tokens (snd (Users.post_logout now req db))
  = if JS.truthy (cookie_refresh_token req)
    then filter (fun r => rt_refresh_token r ≠ default "" (cookie_refresh_token req))
           (refresh_tokens db)
    else refresh_tokens db.
Proof.
  unfold Users.post_logout. simpl.
  destruct (JS.truthy (Users.logout_access_token req));
    destruct (JS.truthy (cookie_refresh_token req)); reflexivity.
Qed.

Lemma logout_users now req db :
  users (snd (Users.post_logout now req db)) = users db.
Proof.
  unfold Users.post_logout. simpl.
  destruct (JS.truthy (Users.logout_access_token req));
    destruct (JS.truthy (cookie_refresh_token req)); reflexivity.
Qed.

Lemma post_refresh_with_token now req db r :
  cookie_refresh_token req = Some r → r ≠ "" →
  Users.post_refresh now req db
  = match Users.live_sessions r now db with
    | [] => (respond 401 (JError "Invalid refresh token"), db)
    | row :: _ =>
        match Users.users_by_id (rt_user_id row) db with
        | [] => (respond 401 (JError "User not found"), db)
        | u :: _ =>
            ({| status := 200; body := JMessage "Access token refreshed";
                cookies := [ SetCookie "access_token" (Users.createAccessToken now u)
                               (Users.cookieOptions (Some 900000)) ] |}, db)
        end
    end.
Proof.
  intros Hr Hne. unfold Users.post_refresh. rewrite Hr, (truthy_Some _ Hne).
  reflexivity.
Qed.

(** X5. After a logout that presents refresh token [r], a refresh with [r]
    is answered 401 at any later time, from whatever client, while the
    sessions under every other token are as live as they were. *)
Theorem logout_ends_session now later req req' db r :
  cookie_refresh_token req = Some r → r ≠ "" →
  cookie_refresh_token req' = Some r →
  Users.post_refresh later req' (snd (Users.post_logout now req db))
  = (respond 401 (JError "Invalid refresh token"),
     snd (Users.post_logout now req db))
  ∧ (∀ r', r' ≠ r →
       Users.live_sessions r' later (snd (Users.post_logout now req db))
       = Users.live_sessions r' later db).
Proof.
  intros Hr Hne Hr'. split.
  - rewrite (post_refresh_with_token _ _ _ r Hr' Hne).
    unfold Users.live_sessions.
    rewrite logout_refresh_tokens, Hr, (truthy_Some _ Hne). simpl default.
    rewrite filter_none; [reflexivity|].
    intros x Hx [Htok _]. now apply list_elem_of_filter in Hx as [Hx _].
  - intros r' Hother. unfold Users.live_sessions.
    rewrite logout_refresh_tokens, Hr, (truthy_Some _ Hne). simpl default.
    apply filter_filter_implied. intros x [-> _]. exact Hother.
Qed.

(** X6. A client that sends its access token in the cookie alone, or in
    the header alone as [Bearer t] with no space in [t], has it revoked by
    its logout: the same request is answered 401 by every route guarded by
    [verifyToken] from then on. *)
Theorem logout_revokes_presented_token rest h now later req db t :
  t ≠ "" →
  (authorization req = None ∧ cookie_access_token req = Some t)
  ∨ (JS.truthy (cookie_access_token req) = false
     ∧ authorization req = Some ("Bearer " +:+ t)
     ∧ JS.split " " t = [t]) →
  run (Auth.verifyToken :: rest) h later req (snd (Users.post_logout now req db))
  = (respond 401 (JError "Token revoked. Please log in again."),
     snd (Users.post_logout now req db)).
Proof.
  intros Hne Hcase. apply run_done. apply verifyToken_revoked with t; [|exact Hne|].
  - destruct Hcase as [[Ha Hc] | (Hc & Ha & _)].
    + unfold Auth.extract_token. rewrite Ha, Hc, (truthy_Some _ Hne). reflexivity.
    + destruct (extract_token_header req t Ha Hne) as [E _]. exact E.
  - rewrite logout_revoked_tokens.
    assert (E : Users.logout_access_token req = Some t).
    { unfold Users.logout_access_token.
      destruct Hcase as [[Ha Hc] | (Hc & Ha & Hs)].
      - now rewrite Hc, (truthy_Some _ Hne).
      - rewrite Hc, Ha.
        change (JS.split " " ("Bearer " +:+ t) !! 1%nat = Some t).
        rewrite split_bearer_header, Hs. reflexivity. }
    rewrite E, (truthy_Some _ Hne). simpl.
    now apply elem_of_union_l, elem_of_singleton_2.
Qed.

(** X7. When a request carries [Bearer h] in the header and a different
    token [c] in the cookie, logout revokes [c], the one it reads first,
    while [verifyToken] reads [h] first: the same request is verified after
    the logout exactly as before it. *)
Theorem logout_revokes_cookie_not_header now later req db h c :
  authorization req = Some ("Bearer " +:+ h) → h ≠ "" →
  cookie_access_token req = Some c → c ≠ "" → h ≠ c →
  revoked_tokens (snd (Users.post_logout now req db)) = {[ c ]} ∪ revoked_tokens db
  ∧ Auth.extract_token req = Some h
  ∧ Auth.verifyToken later (snd (Users.post_logout now req db)) req
    = Auth.verifyToken later db req.
Proof.
  intros Ha Hh Hc Hcne Hdiff.
  assert (E : Users.logout_access_token req = Some c).
  { unfold Users.logout_access_token. now rewrite Hc, (truthy_Some _ Hcne). }
  assert (Hrev : revoked_tokens (snd (Users.post_logout now req db))
                 = {[ c ]} ∪ revoked_tokens db).
  { rewrite logout_revoked_tokens, E, (truthy_Some _ Hcne). reflexivity. }
  destruct (extract_token_header req h Ha Hh) as [Hx _].
  split; [exact Hrev|]. split; [exact Hx|].
  unfold Auth.verifyToken. rewrite Hx, (truthy_Some _ Hh), Hrev. simpl.
  destruct (decide (h ∈ revoked_tokens db)) as [Hin|Hnin].
  - rewrite !bool_decide_eq_true_2; [reflexivity|exact Hin|].
    now apply elem_of_union_r.
  - rewrite !bool_decide_eq_false_2; [reflexivity|exact Hnin|].
    intros Hu. apply elem_of_union in Hu as [Hu|Hu]; [|contradiction].
    apply elem_of_singleton_1 in Hu. contradiction.
Qed.

End Logout.

Lemma logout_ends_session_witness :
  Users.post_refresh 200 (Sample.with_refresh_cookie "new")
    (snd (Users.post_logout 100 (Sample.with_refresh_cookie "new") Sample.two_sessions))
  = (respond 401 (JError "Invalid refresh token"),
     snd (Users.post_logout 100 (Sample.with_refresh_cookie "new") Sample.two_sessions))
  ∧ status (fst (Users.post_refresh 200 (Sample.with_refresh_cookie "new")
                   Sample.two_sessions)) = 200.
Proof.
  split; [|reflexivity].
  apply (logout_ends_session 100 200 (Sample.with_refresh_cookie "new")
           (Sample.with_refresh_cookie "new") Sample.two_sessions "new").
  - reflexivity.
  - discriminate.
  - reflexivity.
Defined.

Lemma logout_revokes_presented_token_witness :
  run [Auth.verifyToken] Accounts.me 50
    (Fixture.with_cookies (Some "jwt:member:3:mia@ngo.org") None)
    (snd (Users.post_logout 10
            (Fixture.with_cookies (Some "jwt:member:3:mia@ngo.org") None) Sample.db))
  = (respond 401 (JError "Token revoked. Please log in again."),
     snd (Users.post_logout 10
            (Fixture.with_cookies (Some "jwt:member:3:mia@ngo.org") None) Sample.db)).
Proof.
  apply (logout_revokes_presented_token [] Accounts.me 10 50
           (Fixture.with_cookies (Some "jwt:member:3:mia@ngo.org") None)
           Sample.db "jwt:member:3:mia@ngo.org").
  - discriminate.
  - left. split; reflexivity.
Defined.

Lemma logout_revokes_cookie_not_header_witness :
  Auth.verifyToken 50
    (snd (Users.post_logout 10
            (Fixture.with_header_and_cookie "jwt:admin:2:ada@ngo.org" "stale")
            Sample.db))
    (Fixture.with_header_and_cookie "jwt:admin:2:ada@ngo.org" "stale")
  = Auth.verifyToken 50 Sample.db
      (Fixture.with_header_and_cookie "jwt:admin:2:ada@ngo.org" "stale").
Proof.
  apply (logout_revokes_cookie_not_header 10 50
           (Fixture.with_header_and_cookie "jwt:admin:2:ada@ngo.org" "stale")
           Sample.db "jwt:admin:2:ada@ngo.org" "stale").
  - reflexivity.
  - discriminate.
  - reflexivity.
  - discriminate.
  - discriminate.
Defined.

(** ** Login, continued *)

Lemma fmap_update_users {B} (g : User → B) uid (f : User → User) us :
  (∀ v, g (f v) = g v) → g <$> Users.update_users uid f us = g <$> us.
Proof.
  intros Hf. unfold Users.update_users. rewrite <- list_fmap_compose.
  apply list_fmap_ext. intros i v _. simpl.
  destruct (decide (user_id v = uid)); auto.
Qed.

Lemma filter_id_update n uid (f : User → User) us :
  (∀ u, user_id (f u) = user_id u) →
  filter (fun u => user_id u = n) (Users.update_users uid f us)
  = Users.update_users uid f (filter (fun u => user_id u = n) us).
Proof.
  intros Hf. unfold Users.update_users.
  induction us as [|u us IH]; [reflexivity|].
  rewrite fmap_cons, !filter_cons, IH.
  assert (E : user_id (if decide (user_id u = uid) then f u else u) = user_id u)
    by (destruct (decide (user_id u = uid)); auto).
  rewrite E. destruct (decide (user_id u = n)); reflexivity.
Qed.

Lemma users_by_email_head e db u rest :
  Users.users_by_email e db = u :: rest → email u = e ∧ u ∈ users db.
Proof.
  intros E. assert (Hin : u ∈ Users.users_by_email e db) by (rewrite E; left).
  unfold Users.users_by_email in Hin. now apply list_elem_of_filter in Hin.
Qed.

Section MoreLogin.
Context `{Runtime}.

(** The store and the answer of a login that succeeds. *)
Lemma post_login_success uuid now req db u rest :
  Users.well_formed req →
  Users.users_by_email (normalizeEmail (body_email req)) db = u :: rest →
  approval_status u = "APPROVED" →
  Users.locked_at now u = false →
  bcrypt_compare (body_password req) (password_hash u) = true →
  Users.post_login uuid now req db
  = ({| status := 200; body := JMessage "Login successful";
        cookies :=
          [ SetCookie "access_token" (Users.createAccessToken now u)
              (Users.cookieOptions (Some 900000));
            SetCookie "refresh_token" uuid
              (Users.with_expires (Users.cookieOptions None)
                 (now + REFRESH_DAYS * 24 * 60 * 60 * 1000)) ] |},
     Users.with_refresh_tokens
       (Users.with_users db
          (Users.update_users (user_id u) (Users.set_lockout (Some 0) None) (users db)))
       (refresh_tokens db ++
          [{| rt_user_id := user_id u; rt_refresh_token := uuid; rt_issued_at := now;
              rt_expires_at := now + REFRESH_DAYS * 24 * 60 * 60 * 1000;
              rt_device := if JS.truthy (user_agent req)
                           then user_agent req else None |}])%list).
Proof.
  intros Hwf Hu Hst Hlk Hpw.
  rewrite post_login_well_formed by exact Hwf.
  unfold Users.login. simpl. rewrite Hu, Hst. simpl. rewrite Hlk, Hpw. reflexivity.
Qed.

(** X8. Whatever the request, a login changes nothing of the store but the
    counter and the lock of accounts and, when it is answered 200, the
    list of sessions: names, emails, password hashes, roles and approval
    are as before, and so are the revocation list and the record tables.
    A login that is not answered 200 sets no cookie and opens no
    session. *)
Theorem login_touches_only_lockout uuid now req db :
  Users.set_lockout None None <$> users (snd (Users.post_login uuid now req db))
  = Users.set_lockout None None <$> users db
  ∧ revoked_tokens (snd (Users.post_login uuid now req db)) = revoked_tokens db
  ∧ tables (snd (Users.post_login uuid now req db)) = tables db
  ∧ referenced (snd (Users.post_login uuid now req db)) = referenced db
  ∧ (status (fst (Users.post_login uuid now req db)) ≠ 200 →
     cookies (fst (Users.post_login uuid now req db)) = []
     ∧ refresh_tokens (snd (Users.post_login uuid now req db)) = refresh_tokens db).
Proof.
  unfold Users.post_login. simpl.
  destruct (Users.loginValidation now db req) as [req'|res] eqn:V.
  - unfold Users.login.
    destruct (Users.users_by_email (body_email req') db) as [|u rest];
      [simpl; auto 10|].
    destruct (negb (String.eqb (approval_status u) "APPROVED")); [simpl; auto 10|].
    destruct (Users.locked_at now u); [simpl; auto 10|].
    destruct (negb (bcrypt_compare _ _)).
    + destruct (Users.LOCK_THRESHOLD <=? _); simpl;
        (split; [now apply fmap_update_users|auto 10]).
    + simpl. split; [now apply fmap_update_users|].
      split; [reflexivity|]. split; [reflexivity|]. split; [reflexivity|].
      intros Hs. now contradiction Hs.
  - unfold Users.loginValidation in V.
    destruct (_ ++ _)%list; [discriminate|]. injection V as <-. simpl. auto 10.
Qed.

(** X9. The counter is not reset when a lock runs out: for an approved
    account whose counter stands at 4 or more and whose lock, if any, is
    over, a single wrong password is answered 401 and locks the account
    for 15 minutes from that moment. *)
Theorem expired_lock_relocks uuid now req db u rest :
  Users.well_formed req →
  Users.users_by_email (normalizeEmail (body_email req)) db = u :: rest →
  approval_status u = "APPROVED" →
  4 ≤ default 0 (failed_attempts u) →
  Users.locked_at now u = false →
  bcrypt_compare (body_password req) (password_hash u) = false →
  fst (Users.post_login uuid now req db) = respond 401 (JError "Invalid credentials")
  ∧ ∃ rest',
      Users.users_by_email (normalizeEmail (body_email req))
        (snd (Users.post_login uuid now req db))
      = Users.set_lockout (Some (default 0 (failed_attempts u) + 1))
          (Some (now + 900000)) u :: rest'.
Proof.
  intros Hwf Hu Hst Hc Hlk Hpw.
  destruct (users_by_email_head _ _ _ _ Hu) as [He _].
  rewrite post_login_well_formed by exact Hwf.
  unfold Users.login. simpl. rewrite Hu, Hst. simpl. rewrite Hlk, Hpw. simpl.
  unfold Users.LOCK_THRESHOLD.
  rewrite (proj2 (Z.leb_le 5 (default 0 (failed_attempts u) + 1))) by lia.
  split; [reflexivity|]. simpl. rewrite <- He in Hu |- *.
  eexists. now rewrite (users_by_email_update db u rest) by (exact Hu || reflexivity).
Qed.

(** X10. A well-formed login for an email no account has is answered 401
    "Invalid credentials" and leaves the store as it was; the answer is
    the very one a wrong password gets for an approved account that is not
    locked. *)
Theorem unknown_email_is_invalid_credentials uuid now req db :
  Users.well_formed req →
  Users.users_by_email (normalizeEmail (body_email req)) db = [] →
  Users.post_login uuid now req db
  = (respond 401 (JError "Invalid credentials"), db)
  ∧ (∀ uuid2 now2 req2 db2 u rest,
       Users.well_formed req2 →
       Users.users_by_email (normalizeEmail (body_email req2)) db2 = u :: rest →
       approval_status u = "APPROVED" →
       Users.locked_at now2 u = false →
       bcrypt_compare (body_password req2) (password_hash u) = false →
       fst (Users.post_login uuid2 now2 req2 db2)
       = fst (Users.post_login uuid now req db)).
Proof.
  intros Hwf Hu.
  assert (E : Users.post_login uuid now req db
              = (respond 401 (JError "Invalid credentials"), db)).
  { rewrite post_login_well_formed by exact Hwf.
    unfold Users.login. simpl. now rewrite Hu. }
  split; [exact E|].
  intros uuid2 now2 req2 db2 u rest Hwf2 Hu2 Hst Hlk Hpw. rewrite E.
  rewrite post_login_well_formed by exact Hwf2.
  unfold Users.login. simpl. rewrite Hu2, Hst. simpl. rewrite Hlk, Hpw.
  reflexivity.
Qed.

(** X11. A successful login followed by a refresh: when the identifier
    handed out is not one of an older session and the account is the first
    row with its id, a refresh that presents the new cookie before it
    expires is answered 200 with an access token signed for that account,
    and the store stays as the login left it. *)
Theorem login_then_refresh uuid now later req req' db u rest rest' :
  Users.well_formed req →
  Users.users_by_email (normalizeEmail (body_email req)) db = u :: rest →
  approval_status u = "APPROVED" →
  Users.locked_at now u = false →
  bcrypt_compare (body_password req) (password_hash u) = true →
  Users.users_by_id (user_id u) db = u :: rest' →
  uuid ≠ "" →
  (∀ r, r ∈ refresh_tokens db → rt_refresh_token r ≠ uuid) →
  cookie_refresh_token req' = Some uuid →
  later < now + REFRESH_DAYS * 24 * 60 * 60 * 1000 →
  Users.post_refresh later req' (snd (Users.post_login uuid now req db))
  = ({| status := 200; body := JMessage "Access token refreshed";
        cookies := [ SetCookie "access_token"
                       (jwt_sign {| p_user_id := user_id u; p_email := email u;
                                    p_role := user_role u |} later)
                       (Users.cookieOptions (Some 900000)) ] |},
     snd (Users.post_login uuid now req db)).
Proof.
  intros Hwf Hu Hst Hlk Hpw Hid Hne Hfresh Hc Hlater.
  rewrite (post_login_success uuid now req db u rest Hwf Hu Hst Hlk Hpw).
  simpl snd. rewrite (post_refresh_with_token _ _ _ uuid Hc Hne).
  unfold Users.live_sessions. simpl refresh_tokens.
  rewrite filter_app, filter_none.
  2:{ intros r Hr [Htok _]. exact (Hfresh r Hr Htok). }
  rewrite filter_cons. simpl.
  destruct (decide (uuid = uuid ∧ later < now + REFRESH_DAYS * 24 * 60 * 60 * 1000))
    as [_|Hno]; [|exfalso; apply Hno; split; [reflexivity|exact Hlater]].
  simpl. unfold Users.users_by_id in *. simpl users.
  rewrite filter_id_update by reflexivity. rewrite Hid.
  rewrite update_users_head by reflexivity. reflexivity.
Qed.

End MoreLogin.

Lemma expired_lock_relocks_witness :
  fst (Users.post_login "5f0c" 905000 (Sample.credentials "mia" "guess")
         (snd (Users.replay Sample.five_failures Sample.db)))
  = respond 401 (JError "Invalid credentials")
  ∧ ∃ rest',
      Users.users_by_email
        (normalizeEmail (body_email (Sample.credentials "mia" "guess")))
        (snd (Users.post_login "5f0c" 905000 (Sample.credentials "mia" "guess")
                (snd (Users.replay Sample.five_failures Sample.db))))
      = Users.set_lockout
          (Some (default 0 (failed_attempts
                              (Users.set_lockout (Some 5) (Some 905000) Sample.mia))
                 + 1))
          (Some (905000 + 900000))
          (Users.set_lockout (Some 5) (Some 905000) Sample.mia) :: rest'.
Proof.
  apply (expired_lock_relocks "5f0c" 905000 (Sample.credentials "mia" "guess")
           (snd (Users.replay Sample.five_failures Sample.db))
           (Users.set_lockout (Some 5) (Some 905000) Sample.mia) []).
  - split; [reflexivity|discriminate].
  - vm_compute. reflexivity.
  - reflexivity.
  - simpl. lia.
  - reflexivity.
  - reflexivity.
Defined.

Lemma unknown_email_is_invalid_credentials_witness :
  Users.post_login "5f0c" 0 (Sample.credentials "nobody" "guess") Sample.db
  = (respond 401 (JError "Invalid credentials"), Sample.db).
Proof.
  apply (unknown_email_is_invalid_credentials "5f0c" 0
           (Sample.credentials "nobody" "guess") Sample.db).
  - split; [reflexivity|discriminate].
  - reflexivity.
Defined.

Lemma login_then_refresh_witness :
  Users.post_refresh 1000 (Sample.with_refresh_cookie "5f0c")
    (snd (Users.post_login "5f0c" 7 (Sample.credentials "mia" "mia-Secret1!")
            Sample.two_sessions))
  = ({| status := 200; body := JMessage "Access token refreshed";
        cookies := [ SetCookie "access_token"
                       (jwt_sign {| p_user_id := user_id Sample.mia;
                                    p_email := email Sample.mia;
                                    p_role := user_role Sample.mia |} 1000)
                       (Users.cookieOptions (Some 900000)) ] |},
     snd (Users.post_login "5f0c" 7 (Sample.credentials "mia" "mia-Secret1!")
            Sample.two_sessions)).
Proof.
  apply (login_then_refresh "5f0c" 7 1000 (Sample.credentials "mia" "mia-Secret1!")
           (Sample.with_refresh_cookie "5f0c") Sample.two_sessions Sample.mia [] []).
  - split; [reflexivity|discriminate].
  - reflexivity.
  - reflexivity.
  - reflexivity.
  - reflexivity.
  - reflexivity.
  - discriminate.
  - intros r Hr. unfold Sample.two_sessions in Hr. simpl in Hr.
    apply elem_of_cons in Hr as [->|Hr]; [discriminate|].
    apply elem_of_cons in Hr as [->|Hr]; [discriminate|].
    now apply elem_of_nil in Hr.
  - reflexivity.
  - simpl. lia.
Defined.

(** ** Approval, sessions and cookies *)

Section Approval.
Context `{Runtime}.

Lemma transition_store st msg now req db :
  snd (Users.transition st msg now req db) = db
  ∨ ∃ uid, snd (Users.transition st msg now req db)
           = Users.with_users db
               (Users.update_users uid (Users.set_approval st now) (users db)).
Proof.
  unfold Users.transition.
  destruct (Users.key_of_param (param_id req)) as [k|]; [|now left].
  destruct (Users.rows_of_key k db) as [|u rest]; [now left|].
  right. now exists (user_id u).
Qed.

(** A refresh reads the sessions, and the id, email and role of accounts. *)
Lemma post_refresh_identity later req db uid (f : User → User) :
  (∀ v, user_id (f v) = user_id v) →
  (∀ v, Users.createAccessToken later (f v) = Users.createAccessToken later v) →
  fst (Users.post_refresh later req
         (Users.with_users db (Users.update_users uid f (users db))))
  = fst (Users.post_refresh later req db).
Proof.
  intros Hid Htok. unfold Users.post_refresh.
  destruct (negb (JS.truthy (cookie_refresh_token req))); [reflexivity|].
  unfold Users.live_sessions. simpl refresh_tokens.
  destruct (filter _ (refresh_tokens db)) as [|row rows]; [reflexivity|].
  unfold Users.users_by_id. simpl users.
  rewrite filter_id_update by exact Hid.
  destruct (filter _ (users db)) as [|u us]; [reflexivity|].
  unfold Users.update_users. rewrite fmap_cons. simpl.
  destruct (decide (user_id u = uid)); [rewrite Htok|]; reflexivity.
Qed.

(** X12. A refresh does not look at the approval of the account: what
    [POST /refresh] answers to a request is the same before and after an
    approve or a reject, so the sessions of a rejected account go on minting
    access tokens. *)
Theorem approval_change_keeps_sessions now req db later req' :
  fst (Users.post_refresh later req' (snd (Users.post_approve now req db)))
  = fst (Users.post_refresh later req' db)
  ∧ fst (Users.post_refresh later req' (snd (Users.post_reject now req db)))
    = fst (Users.post_refresh later req' db).
Proof.
  assert (Hgen : ∀ st msg chain,
             fst (Users.post_refresh later req'
                    (snd (run chain (Users.transition st msg) now req db)))
             = fst (Users.post_refresh later req' db)).
  { intros st msg chain.
    destruct (run_store chain (Users.transition st msg) now req db)
      as [-> | [r ->]]; [reflexivity|].
    destruct (transition_store st msg now r db) as [-> | [uid ->]]; [reflexivity|].
    now apply post_refresh_identity. }
  split; apply Hgen.
Qed.

(** X13. Approval opens the login, from whatever status: once the approve
    handler has been run on the id of an account, a well-formed login with
    the matching password, made while the account is not locked, is
    answered 200. *)
Theorem approve_then_login now later uuid areq req db u rest tid :
  Users.users_by_email (normalizeEmail (body_email req)) db = u :: rest →
  param_id areq = Some tid → pg_int tid = Some (user_id u) →
  Users.well_formed req →
  Users.locked_at later u = false →
  bcrypt_compare (body_password req) (password_hash u) = true →
  status (fst (Users.approve now areq db)) = 200
  ∧ status (fst (Users.post_login uuid later req (snd (Users.approve now areq db))))
    = 200.
Proof.
  intros Hu Hp Hpg Hwf Hlk Hpw.
  destruct (users_by_email_head _ _ _ _ Hu) as [He Hin].
  unfold Users.approve, Users.transition. rewrite Hp. simpl. rewrite Hpg. simpl.
  destruct (Users.users_by_id (user_id u) db) as [|w ws] eqn:Hw.
  { exfalso. assert (Hin' : u ∈ Users.users_by_id (user_id u) db).
    { unfold Users.users_by_id. apply list_elem_of_filter. auto. }
    rewrite Hw in Hin'. now apply elem_of_nil in Hin'. }
  rewrite (users_by_id_head _ _ _ _ Hw). simpl. split; [reflexivity|].
  rewrite post_login_well_formed by exact Hwf.
  unfold Users.login. simpl body_email. rewrite <- He in Hu |- *.
  rewrite (users_by_email_update db u rest) by (exact Hu || reflexivity).
  simpl. change (Users.locked_at later (Users.set_approval "APPROVED" now u))
    with (Users.locked_at later u). rewrite Hlk, Hpw. reflexivity.
Qed.

End Approval.

Lemma approve_then_login_witness :
  status (fst (Users.post_login "5f0c" 20 (Sample.credentials "rex" "rex-Secret1!")
                 Sample.db)) = 403
  ∧ status (fst (Users.approve 10 (Sample.as_user Sample.ada "POST" "/api/v1/users"
                                     (Some "5")) Sample.db)) = 200
  ∧ status (fst (Users.post_login "5f0c" 20 (Sample.credentials "rex" "rex-Secret1!")
                   (snd (Users.approve 10
                           (Sample.as_user Sample.ada "POST" "/api/v1/users" (Some "5"))
                           Sample.db)))) = 200.
Proof.
  split; [reflexivity|].
  apply (approve_then_login 10 20 "5f0c"
           (Sample.as_user Sample.ada "POST" "/api/v1/users" (Some "5"))
           (Sample.credentials "rex" "rex-Secret1!") Sample.db Sample.rex [] "5").
  - reflexivity.
  - reflexivity.
  - reflexivity.
  - split; [reflexivity|discriminate].
  - reflexivity.
  - reflexivity.
Defined.

Section Cookies.
Context `{Runtime}.

Lemma verifyToken_done now db req res :
  Auth.verifyToken now db req = Done res → cookies res = [].
Proof.
  unfold Auth.verifyToken. repeat (case_match; try discriminate); now intros [= <-].
Qed.

Lemma rbacAccess_done L now db req res :
  Auth.rbacAccess L now db req = Done res → cookies res = [].
Proof.
  unfold Auth.rbacAccess. repeat (case_match; try discriminate); now intros [= <-].
Qed.

Lemma loginValidation_done now db req res :
  Users.loginValidation now db req = Done res → cookies res = [].
Proof.
  unfold Users.loginValidation. repeat (case_match; try discriminate);
    now intros [= <-].
Qed.

(** The answer of a route is one of a middleware, or the handler's. *)
Lemma run_response chain h now req db :
  (∀ m r res, m ∈ chain → m now db r = Done res → cookies res = []) →
  cookies (fst (run chain h now req db)) = []
  ∨ ∃ r, fst (run chain h now req db) = fst (h now r db).
Proof.
  revert req. induction chain as [|m chain IH]; intros req Hm; simpl.
  - right. now exists req.
  - destruct (m now db req) as [r|res] eqn:E.
    + apply IH. intros m' r' res' Hin. apply Hm. now right.
    + left. simpl. apply (Hm m req res); [left|exact E].
Qed.

Lemma guard_response L h now req db :
  cookies (fst (run [Auth.verifyToken; Auth.rbacAccess L] h now req db)) = []
  ∨ ∃ r, fst (run [Auth.verifyToken; Auth.rbacAccess L] h now req db)
         = fst (h now r db).
Proof.
  apply run_response. intros m r res Hin Hd.
  apply elem_of_cons in Hin as [->|Hin]; [now apply verifyToken_done in Hd|].
  apply elem_of_cons in Hin as [->|Hin]; [now apply rbacAccess_done in Hd|].
  now apply elem_of_nil in Hin.
Qed.

(** X14. Every cookie an endpoint of the users router sets or clears is
    HttpOnly, is Secure exactly in production, and is SameSite Strict in
    production and Lax otherwise. *)
Theorem cookies_are_http_only e now req db :
  Forall (fun op =>
            match op with
            | SetCookie _ _ o | ClearCookie _ o =>
                httpOnly o = true ∧ secure o = isProd
                ∧ sameSite o = (if isProd then "Strict" else "Lax")
            end)
         (cookies (fst (Users.serve e now req db))).
Proof.
  destruct e; unfold Users.serve.
  - unfold Users.post_login.
    assert (Hv : ∀ m r res, m ∈ [Users.loginValidation] →
                 m now db r = Done res → cookies res = []).
    { intros m r res Hin Hd.
      apply elem_of_cons in Hin as [->|Hin]; [now apply loginValidation_done in Hd|].
      now apply elem_of_nil in Hin. }
    destruct (run_response [Users.loginValidation] (Users.login uuid) now req db Hv)
      as [-> | [r ->]]; [constructor|].
    unfold Users.login.
    destruct (Users.users_by_email _ db) as [|u rest]; [constructor|].
    destruct (negb (String.eqb _ _)); [constructor|].
    destruct (Users.locked_at now u); [constructor|].
    destruct (negb (bcrypt_compare _ _)); [constructor|].
    simpl. repeat constructor.
  - unfold Users.post_refresh.
    destruct (negb (JS.truthy _)); [constructor|].
    destruct (Users.live_sessions _ now db) as [|row rows]; [constructor|].
    destruct (Users.users_by_id _ db) as [|u us]; [constructor|].
    simpl. repeat constructor.
  - unfold Users.post_logout. simpl. repeat constructor.
  - unfold Users.get_pending.
    destruct (guard_response Users.admin_only Users.pending now req db)
      as [-> | [r ->]]; constructor.
  - unfold Users.post_approve.
    destruct (guard_response Users.admin_only Users.approve now req db)
      as [-> | [r ->]]; [constructor|].
    unfold Users.approve, Users.transition.
    repeat (case_match; simpl; try constructor).
  - unfold Users.post_reject.
    destruct (guard_response Users.admin_only Users.reject now req db)
      as [-> | [r ->]]; [constructor|].
    unfold Users.reject, Users.transition.
    repeat (case_match; simpl; try constructor).
  - unfold Users.delete_id.
    destruct (guard_response Users.admin_only Users.delete_user now req db)
      as [-> | [r ->]]; [constructor|].
    unfold Users.delete_user.
    repeat (case_match; simpl; try constructor).
Qed.

End Cookies.

(** ** The central error handler *)

(** X15. Whatever error it is given, [errorHandler] answers with one of
    five statuses; the tag is "error" exactly for 500 and "fail" for the
    rest; a 500 carries one of two fixed texts, so nothing of the error
    goes out with it; and the list of fields is only part of a 400. *)
Theorem errorHandler_answers (err : ErrorHandler.Err) :
  ErrorHandler.http (ErrorHandler.errorHandler err) ∈ [400; 401; 403; 409; 500]
  ∧ (ErrorHandler.tag (ErrorHandler.errorHandler err) = "error"
     ↔ ErrorHandler.http (ErrorHandler.errorHandler err) = 500)
  ∧ (ErrorHandler.tag (ErrorHandler.errorHandler err) = "fail"
     ↔ ErrorHandler.http (ErrorHandler.errorHandler err) ≠ 500)
  ∧ (ErrorHandler.http (ErrorHandler.errorHandler err) = 500 →
     ErrorHandler.text (ErrorHandler.errorHandler err)
       ∈ ["Database error occurred."; "Internal Server Error"])
  ∧ (ErrorHandler.fields (ErrorHandler.errorHandler err) ≠ None →
     ErrorHandler.http (ErrorHandler.errorHandler err) = 400).
Proof.
  unfold ErrorHandler.errorHandler.
  repeat (case_match; simpl);
    (split; [set_solver|]);
    (split; [split; (discriminate || reflexivity || (intros; lia))|]);
    (split; [split; (discriminate || reflexivity || (intros; lia)
                     || (intros E; now contradiction E))|]);
    (split; [try discriminate; intros _; set_solver|]);
    try reflexivity; intros E; now contradiction E.
Qed.

Lemma errorHandler_answers_witness :
  ErrorHandler.http
    (ErrorHandler.errorHandler
       {| ErrorHandler.e_code := Some "ECONNREFUSED"; ErrorHandler.e_detail := None;
          ErrorHandler.e_errors := None; ErrorHandler.e_name := None;
          ErrorHandler.e_status := None;
          ErrorHandler.e_message := Some "connect ECONNREFUSED 127.0.0.1:5432";
          ErrorHandler.e_json := false |}) = 500
  ∧ ErrorHandler.text
      (ErrorHandler.errorHandler
         {| ErrorHandler.e_code := Some "ECONNREFUSED"; ErrorHandler.e_detail := None;
            ErrorHandler.e_errors := None; ErrorHandler.e_name := None;
            ErrorHandler.e_status := None;
            ErrorHandler.e_message := Some "connect ECONNREFUSED 127.0.0.1:5432";
            ErrorHandler.e_json := false |})
    ∈ ["Database error occurred."; "Internal Server Error"].
Proof.
  split; [reflexivity|].
  apply (errorHandler_answers
           {| ErrorHandler.e_code := Some "ECONNREFUSED"; ErrorHandler.e_detail := None;
              ErrorHandler.e_errors := None; ErrorHandler.e_name := None;
              ErrorHandler.e_status := None;
              ErrorHandler.e_message := Some "connect ECONNREFUSED 127.0.0.1:5432";
              ErrorHandler.e_json := false |}).
  reflexivity.
Defined.

(** X16. An error that carries a code is answered by its code alone (and,
    for a unique violation, its detail): the validation errors, the name,
    the status and the message it may also carry are not looked at, and the
    answer is never 401 or 403.  The message of the error reaches the
    client only in an answer 403. *)
Theorem errorHandler_code_first (err : ErrorHandler.Err) :
  (JS.truthy (ErrorHandler.e_code err) = true →
   ErrorHandler.errorHandler err
   = ErrorHandler.errorHandler
       {| ErrorHandler.e_code := ErrorHandler.e_code err;
          ErrorHandler.e_detail := ErrorHandler.e_detail err;
          ErrorHandler.e_errors := None; ErrorHandler.e_name := None;
          ErrorHandler.e_status := None; ErrorHandler.e_message := None;
          ErrorHandler.e_json := false |}
   ∧ ErrorHandler.http (ErrorHandler.errorHandler err) ∈ [400; 409; 500])
  ∧ (ErrorHandler.http (ErrorHandler.errorHandler err) ≠ 403 →
     ∀ m, ErrorHandler.errorHandler
            {| ErrorHandler.e_code := ErrorHandler.e_code err;
               ErrorHandler.e_detail := ErrorHandler.e_detail err;
               ErrorHandler.e_errors := ErrorHandler.e_errors err;
               ErrorHandler.e_name := ErrorHandler.e_name err;
               ErrorHandler.e_status := ErrorHandler.e_status err;
               ErrorHandler.e_message := m;
               ErrorHandler.e_json := ErrorHandler.e_json err |}
          = ErrorHandler.errorHandler err).
Proof.
  split.
  - intros Hc. unfold ErrorHandler.errorHandler. simpl. rewrite Hc.
    repeat (case_match; simpl); (split; [reflexivity|set_solver]).
  - unfold ErrorHandler.errorHandler. simpl.
    repeat (case_match; simpl); intros Hne m; try reflexivity.
    all: now contradiction Hne.
Qed.

Lemma errorHandler_code_first_witness :
  ErrorHandler.http
    (ErrorHandler.errorHandler
       {| ErrorHandler.e_code := Some "23503"; ErrorHandler.e_detail := None;
          ErrorHandler.e_errors := None; ErrorHandler.e_name := None;
          ErrorHandler.e_status := Some 403;
          ErrorHandler.e_message := Some "users_fk"; ErrorHandler.e_json := false |})
  ∈ [400; 409; 500].
Proof.
  destruct (errorHandler_code_first
              {| ErrorHandler.e_code := Some "23503"; ErrorHandler.e_detail := None;
                 ErrorHandler.e_errors := None; ErrorHandler.e_name := None;
                 ErrorHandler.e_status := Some 403;
                 ErrorHandler.e_message := Some "users_fk";
                 ErrorHandler.e_json := false |}) as [Hcode _].
  apply Hcode. reflexivity.
Defined.

Lemma first_group_skips (pre rest : string) :
  Forall (fun a => a ≠ "("%char) (list_ascii_of_string pre) →
  ErrorHandler.first_group (pre +:+ rest) = ErrorHandler.first_group rest.
Proof.
  induction pre as [|a pre IH]; intros Hp; [reflexivity|].
  simpl in Hp. apply Forall_cons in Hp as [Ha Hp]. simpl.
  destruct (Ascii.eqb_spec a "(") as [->|_]; [contradiction|]. now apply IH.
Qed.

Lemma until_close_finds (f post : string) :
  Forall (fun a => nat_of_ascii a ∉ [41; 10; 13; 226]%nat) (list_ascii_of_string f) →
  ErrorHandler.until_close (f +:+ String ")" post) = Some f.
Proof.
  induction f as [|a f IH]; intros Hf; [reflexivity|].
  simpl in Hf. apply Forall_cons in Hf as [Ha Hf].
  change (String a f +:+ String ")" post) with (String a (f +:+ String ")" post)).
  assert (Hclose : Ascii.eqb a ")" = false).
  { destruct (Ascii.eqb_spec a ")") as [->|_]; [|reflexivity].
    exfalso. apply Ha. simpl. set_solver. }
  assert (Hlt : ErrorHandler.at_line_terminator (String a (f +:+ String ")" post))
                = false).
  { unfold ErrorHandler.at_line_terminator.
    destruct (Nat.eqb_spec (nat_of_ascii a) 10) as [E|_];
      [exfalso; apply Ha; rewrite E; set_solver|].
    destruct (Nat.eqb_spec (nat_of_ascii a) 13) as [E|_];
      [exfalso; apply Ha; rewrite E; set_solver|].
    destruct (Nat.eqb_spec (nat_of_ascii a) 226) as [E|_];
      [exfalso; apply Ha; rewrite E; set_solver|].
    reflexivity. }
  change (ErrorHandler.until_close (String a (f +:+ String ")" post)))
    with (if Ascii.eqb a ")" then Some EmptyString
          else if ErrorHandler.at_line_terminator (String a (f +:+ String ")" post))
               then None
               else String a <$> ErrorHandler.until_close (f +:+ String ")" post)).
  rewrite Hclose, Hlt, (IH Hf). reflexivity.
Qed.

(** X17. For a unique violation whose detail reads [pre(f)post], with no
    opening parenthesis in [pre], and [f] not empty, on one line and
    without closing parenthesis, the answer is 409 and names [f] as the
    duplicated field; without a detail it names "unknown". *)
Theorem duplicate_field_is_named (err : ErrorHandler.Err) (pre f post : string) :
  ErrorHandler.e_code err = Some "23505" →
  (ErrorHandler.e_detail err = Some (pre +:+ String "(" (f +:+ String ")" post)) →
   Forall (fun a => a ≠ "("%char) (list_ascii_of_string pre) →
   Forall (fun a => nat_of_ascii a ∉ [41; 10; 13; 226]%nat) (list_ascii_of_string f) →
   f ≠ "" →
   ErrorHandler.errorHandler err
   = {| ErrorHandler.http := 409; ErrorHandler.tag := "fail";
        ErrorHandler.text := "Duplicate value for field: " +:+ f;
        ErrorHandler.fields := None |})
  ∧ (ErrorHandler.e_detail err = None →
     ErrorHandler.errorHandler err
     = {| ErrorHandler.http := 409; ErrorHandler.tag := "fail";
          ErrorHandler.text := "Duplicate value for field: unknown";
          ErrorHandler.fields := None |}).
Proof.
  intros Hc. unfold ErrorHandler.errorHandler. rewrite Hc. simpl. split.
  - intros Hd Hpre Hf Hne. unfold ErrorHandler.duplicate_field. rewrite Hd. simpl.
    rewrite (first_group_skips pre _ Hpre). simpl.
    rewrite (until_close_finds f post Hf). simpl.
    now rewrite (proj2 (eqb_false_iff _ _) Hne).
  - intros Hd. unfold ErrorHandler.duplicate_field. now rewrite Hd.
Qed.

Lemma duplicate_field_is_named_witness :
  ErrorHandler.text
    (ErrorHandler.errorHandler
       {| ErrorHandler.e_code := Some "23505";
          ErrorHandler.e_detail := Some "Key (email)=(mia@ngo.org) already exists.";
          ErrorHandler.e_errors := None; ErrorHandler.e_name := None;
          ErrorHandler.e_status := None; ErrorHandler.e_message := None;
          ErrorHandler.e_json := false |})
  = "Duplicate value for field: email".
Proof.
  destruct (duplicate_field_is_named
              {| ErrorHandler.e_code := Some "23505";
                 ErrorHandler.e_detail := Some "Key (email)=(mia@ngo.org) already exists.";
                 ErrorHandler.e_errors := None; ErrorHandler.e_name := None;
                 ErrorHandler.e_status := None; ErrorHandler.e_message := None;
                 ErrorHandler.e_json := false |}
              "Key " "email" "=(mia@ngo.org) already exists." eq_refl) as [Hnamed _].
  rewrite Hnamed; [reflexivity|reflexivity| | |discriminate].
  - cbv [list_ascii_of_string].
    repeat (constructor; [discriminate|]). constructor.
  - cbv [list_ascii_of_string].
    repeat (constructor; [rewrite list_elem_of_In; simpl; intuition discriminate|]).
    constructor.
Defined.

(** ** The password migration script *)

Section Migration.
Context `{Hashing}.

Lemma rehash_users salt d u :
  users (Scripts.rehash salt d u)
  = if Scripts.unhashed u
    then Users.update_users (user_id u)
           (Scripts.set_password_hash (bcrypt_hash (salt u) (password_hash u)))
           (users d)
    else users d.
Proof. unfold Scripts.rehash. now destruct (Scripts.unhashed u). Qed.

Lemma rehash_rest salt d u :
  refresh_tokens (Scripts.rehash salt d u) = refresh_tokens d
  ∧ revoked_tokens (Scripts.rehash salt d u) = revoked_tokens d
  ∧ tables (Scripts.rehash salt d u) = tables d
  ∧ referenced (Scripts.rehash salt d u) = referenced d.
Proof. unfold Scripts.rehash. now destruct (Scripts.unhashed u). Qed.

(** Every row is hashed once the rows that still wait for their turn have
    had it, if each row that is not hashed yet has the id of one of them. *)
Lemma fold_rehash_hashes salt rest :
  (∀ s p, JS.startsWith "$2b$" (bcrypt_hash s p) = true) →
  ∀ d,
    (∀ w, w ∈ users d →
          Scripts.unhashed w = false
          ∨ ∃ v, v ∈ rest ∧ user_id v = user_id w ∧ Scripts.unhashed v = true) →
    ∀ w, w ∈ users (fold_left (Scripts.rehash salt) rest d) →
         Scripts.unhashed w = false.
Proof.
  intros Hlaw. induction rest as [|u rest IH]; intros d J w Hw.
  - simpl in Hw. destruct (J w Hw) as [Hh | (v & Hv & _)]; [exact Hh|].
    now apply elem_of_nil in Hv.
  - simpl in Hw. apply (IH (Scripts.rehash salt d u)); [|exact Hw].
    intros w1 Hw1. rewrite rehash_users in Hw1.
    destruct (Scripts.unhashed u) eqn:Hu.
    + unfold Users.update_users in Hw1.
      apply list_elem_of_fmap in Hw1 as (w0 & -> & Hw0).
      destruct (decide (user_id w0 = user_id u)) as [E|E].
      * left. unfold Scripts.unhashed. simpl. now rewrite Hlaw.
      * destruct (J w0 Hw0) as [Hh | (v & Hv & Hid & Hun)]; [now left|].
        right. exists v. apply elem_of_cons in Hv as [->|Hv]; [congruence|auto].
    + destruct (J w1 Hw1) as [Hh | (v & Hv & Hid & Hun)]; [now left|].
      right. exists v. apply elem_of_cons in Hv as [->|Hv]; [congruence|auto].
Qed.

Lemma script_hashes_all salt db :
  (∀ s p, JS.startsWith "$2b$" (bcrypt_hash s p) = true) →
  ∀ w, w ∈ users (Scripts.hash_old_passwords salt db) → Scripts.unhashed w = false.
Proof.
  intros Hlaw. unfold Scripts.hash_old_passwords.
  apply (fold_rehash_hashes salt (users db) Hlaw db).
  intros w Hw. destruct (Scripts.unhashed w) eqn:E; [|now left].
  right. now exists w.
Qed.

Lemma fold_rehash_keeps salt rest :
  ∀ d,
    Scripts.set_password_hash "" <$> users (fold_left (Scripts.rehash salt) rest d)
    = Scripts.set_password_hash "" <$> users d
    ∧ refresh_tokens (fold_left (Scripts.rehash salt) rest d) = refresh_tokens d
    ∧ revoked_tokens (fold_left (Scripts.rehash salt) rest d) = revoked_tokens d
    ∧ tables (fold_left (Scripts.rehash salt) rest d) = tables d
    ∧ referenced (fold_left (Scripts.rehash salt) rest d) = referenced d.
Proof.
  induction rest as [|u rest IH]; intros d; [simpl; auto|].
  simpl. destruct (IH (Scripts.rehash salt d u)) as (-> & -> & -> & -> & ->).
  destruct (rehash_rest salt d u) as (-> & -> & -> & ->).
  rewrite rehash_users. destruct (Scripts.unhashed u); [|auto].
  split; [|auto]. now apply fmap_update_users.
Qed.

Lemma fold_rehash_hashed salt rest d :
  Forall (fun u => Scripts.unhashed u = false) rest →
  fold_left (Scripts.rehash salt) rest d = d.
Proof.
  revert d. induction rest as [|u rest IH]; intros d Hall; [reflexivity|].
  apply Forall_cons in Hall as [Hu Hall]. simpl.
  unfold Scripts.rehash at 2. rewrite Hu. now apply IH.
Qed.

(** X18. If what [bcrypt.hash] returns starts with [$2b$], then after the
    script every row of [users] holds such a hash, whatever ids the rows
    have; the script changes no other column and no other table. *)
Theorem hash_old_passwords_hashes_all salt db :
  (∀ s p, JS.startsWith "$2b$" (bcrypt_hash s p) = true) →
  Forall (fun w => JS.startsWith "$2b$" (password_hash w) = true)
         (users (Scripts.hash_old_passwords salt db))
  ∧ Scripts.set_password_hash "" <$> users (Scripts.hash_old_passwords salt db)
    = Scripts.set_password_hash "" <$> users db
  ∧ Users.with_users (Scripts.hash_old_passwords salt db) (users db) = db.
Proof.
  intros Hlaw. split; [|split].
  - apply Forall_forall. intros w Hw.
    pose proof (script_hashes_all salt db Hlaw w Hw) as Hh.
    unfold Scripts.unhashed in Hh. now apply negb_false_iff in Hh.
  - apply (fold_rehash_keeps salt (users db) db).
  - destruct (fold_rehash_keeps salt (users db) db) as (_ & Hr & Hv & Ht & Hf).
    unfold Scripts.hash_old_passwords, Users.with_users.
    rewrite Hr, Hv, Ht, Hf. now destruct db.
Qed.

(** X19. Under the same condition the script can be run again at no cost:
    a second run, whatever salts it would draw, changes nothing. *)
Theorem hash_old_passwords_idempotent salt salt' db :
  (∀ s p, JS.startsWith "$2b$" (bcrypt_hash s p) = true) →
  Scripts.hash_old_passwords salt' (Scripts.hash_old_passwords salt db)
  = Scripts.hash_old_passwords salt db.
Proof.
  intros Hlaw. unfold Scripts.hash_old_passwords at 1.
  apply fold_rehash_hashed. apply Forall_forall. intros w Hw.
  exact (script_hashes_all salt db Hlaw w Hw).
Qed.

(** What the turn of row [u] does to a row [w] of the store. *)
Lemma fold_rehash_pointwise salt rest :
  ∀ d,
    users (fold_left (Scripts.rehash salt) rest d)
    = (fun w =>
         fold_left
           (fun acc u =>
              if Scripts.unhashed u then
                if decide (user_id acc = user_id u)
                then Scripts.set_password_hash
                       (bcrypt_hash (salt u) (password_hash u)) acc
                else acc
              else acc) rest w) <$> users d.
Proof.
  induction rest as [|u rest IH]; intros d.
  - simpl. now rewrite list_fmap_id.
  - simpl. rewrite IH, rehash_users.
    destruct (Scripts.unhashed u); [|reflexivity].
    unfold Users.update_users. now rewrite <- list_fmap_compose.
Qed.

Lemma turns_of_other_rows salt rest :
  ∀ w, user_id w ∉ user_id <$> rest →
       fold_left
         (fun acc u =>
            if Scripts.unhashed u then
              if decide (user_id acc = user_id u)
              then Scripts.set_password_hash
                     (bcrypt_hash (salt u) (password_hash u)) acc
              else acc
            else acc) rest w = w.
Proof.
  induction rest as [|u rest IH]; intros w Hw; [reflexivity|].
  rewrite fmap_cons in Hw. apply not_elem_of_cons in Hw as [Hne Hw]. simpl.
  destruct (Scripts.unhashed u); [|now apply IH].
  destruct (decide (user_id w = user_id u)); [contradiction|now apply IH].
Qed.

(** X20. When no two rows share a [user_id], the script is row by row:
    a row whose [password_hash] does not start with [$2b$] gets the hash of
    that very value, and every other row is left as it is. *)
Theorem hash_old_passwords_row_by_row salt db :
  NoDup (user_id <$> users db) →
  users (Scripts.hash_old_passwords salt db)
  = (fun u =>
       if Scripts.unhashed u
       then Scripts.set_password_hash (bcrypt_hash (salt u) (password_hash u)) u
       else u) <$> users db.
Proof.
  intros Hnd. unfold Scripts.hash_old_passwords. rewrite fold_rehash_pointwise.
  apply list_fmap_ext. intros i w Hi.
  assert (Hw : w ∈ users db) by (eapply list_elem_of_lookup_2; exact Hi).
  clear i Hi. revert w Hw. induction (users db) as [|u rest IH]; intros w Hw.
  - now apply elem_of_nil in Hw.
  - rewrite fmap_cons in Hnd. apply NoDup_cons in Hnd as [Hu Hnd]. simpl.
    apply elem_of_cons in Hw as [->|Hw].
    + destruct (Scripts.unhashed u).
      * destruct (decide (user_id u = user_id u)); [|contradiction].
        now apply turns_of_other_rows.
      * now apply turns_of_other_rows.
    + assert (Hne : user_id w ≠ user_id u).
      { intros E. apply Hu. rewrite <- E. now apply list_elem_of_fmap_2. }
      destruct (Scripts.unhashed u);
        [destruct (decide (user_id w = user_id u)); [contradiction|]|];
        now apply IH.
Qed.

End Migration.

Lemma hash_old_passwords_hashes_all_witness :
  password_hash <$> users (Scripts.hash_old_passwords Fixture.salt_of Fixture.legacy)
  = [ "$2b$10$abcdefghijklmnopqrstuv"; "$2b$10$ada$ada-Secret1!";
      "$2b$10$mia$mia-Secret1!" ]
  ∧ Forall (fun w => JS.startsWith "$2b$" (password_hash w) = true)
           (users (Scripts.hash_old_passwords Fixture.salt_of Fixture.legacy)).
Proof.
  split; [vm_compute; reflexivity|].
  apply (hash_old_passwords_hashes_all Fixture.salt_of Fixture.legacy).
  intros s p. unfold JS.startsWith. simpl. now destruct s.
Defined.

Lemma hash_old_passwords_idempotent_witness :
  Scripts.hash_old_passwords (fun _ => "other")
    (Scripts.hash_old_passwords Fixture.salt_of Fixture.legacy)
  = Scripts.hash_old_passwords Fixture.salt_of Fixture.legacy.
Proof.
  apply (hash_old_passwords_idempotent Fixture.salt_of (fun _ => "other")
           Fixture.legacy).
  intros s p. unfold JS.startsWith. simpl. now destruct s.
Defined.

Lemma hash_old_passwords_row_by_row_witness :
  users (Scripts.hash_old_passwords Fixture.salt_of Fixture.legacy)
  = (fun u =>
       if Scripts.unhashed u
       then Scripts.set_password_hash
              (bcrypt_hash (Fixture.salt_of u) (password_hash u)) u
       else u) <$> users Fixture.legacy.
Proof.
  apply (hash_old_passwords_row_by_row Fixture.salt_of Fixture.legacy).
  change (NoDup [1; 2; 3]).
  repeat (constructor; [rewrite list_elem_of_In; simpl; intuition discriminate|]).
  constructor.
Defined.

(** ** Registration *)

Section Registering.
Context `{Runtime} `{Hashing} `{Schema}.

Lemma register_errors_nil b db :
  Accounts.register_errors b db = [] →
  Accounts.username_ok (Accounts.r_username b) = true
  ∧ Accounts.username_taken (Accounts.r_username b) db = false
  ∧ isEmail (Accounts.r_email b) = true
  ∧ Accounts.email_taken (Accounts.r_email b) db = false
  ∧ isStrongPassword (Accounts.r_password b) = true.
Proof.
  unfold Accounts.register_errors.
  destruct (Accounts.username_ok _); [|discriminate].
  destruct (Accounts.username_taken _ db); [discriminate|].
  destruct (isEmail _); [|discriminate].
  destruct (Accounts.email_taken _ db); [discriminate|].
  destruct (isStrongPassword _); [auto|discriminate].
Qed.

(** The store and the account after a registration answered 201. *)
Lemma post_register_created new_id salt b now db :
  status (fst (Accounts.post_register new_id salt b now db)) = 201 →
  ∃ u,
    snd (Accounts.post_register new_id salt b now db)
    = Users.with_users db (users db ++ [u])%list
    ∧ approval_status u = "PENDING"
    ∧ email u = normalizeEmail (Accounts.r_email b)
    ∧ (email u ∉ email <$> users db).
Proof.
  unfold Accounts.post_register.
  destruct (Accounts.register_errors (Accounts.sanitize b) db) eqn:He;
    [|simpl; discriminate].
  destruct (register_errors_nil _ _ He) as (_ & _ & _ & Hmail & _).
  unfold Accounts.register. rewrite Hmail.
  unfold Accounts.insert_user.
  destruct (_ || _ || _ || _)%bool; [simpl; discriminate|]. simpl. intros _.
  eexists. split; [reflexivity|]. simpl. repeat split.
  unfold Accounts.email_taken in Hmail. simpl in Hmail.
  now apply bool_decide_eq_false in Hmail.
Qed.

(** X21. A registration either leaves the store as it was, with answer 400
    or 500, or adds exactly one account and answers 201.  The new account
    is PENDING whatever the body says; its role is the one the body names
    ("member" when it names none), which the table accepted; its username
    is the trimmed one, is well formed and was free; its email is the
    normalised one and was free; and what is stored of the password is its
    hash. *)
Theorem registration_outcomes new_id salt b now db :
  (snd (Accounts.post_register new_id salt b now db) = db
   ∧ (status (fst (Accounts.post_register new_id salt b now db)) = 400
      ∨ status (fst (Accounts.post_register new_id salt b now db)) = 500))
  ∨ ∃ u,
      Accounts.post_register new_id salt b now db
      = (respond 201
           (JMessageUser "Account created. Awaiting admin approval." (view_full u)),
         Users.with_users db (users db ++ [u])%list)
      ∧ approval_status u = "PENDING"
      ∧ user_role u = default "member" (Accounts.r_user_role b)
      ∧ role_allowed (user_role u) = true
      ∧ user_id u = new_id ∧ (new_id ∉ user_id <$> users db)
      ∧ username u = trim (Accounts.r_username b)
      ∧ Accounts.username_ok (username u) = true
      ∧ (username u ∉ username <$> users db)
      ∧ email u = normalizeEmail (Accounts.r_email b)
      ∧ isEmail (email u) = true
      ∧ (email u ∉ email <$> users db)
      ∧ password_hash u = bcrypt_hash salt (Accounts.r_password b)
      ∧ isStrongPassword (Accounts.r_password b) = true.
Proof.
  unfold Accounts.post_register.
  destruct (Accounts.register_errors (Accounts.sanitize b) db) eqn:He;
    [|left; simpl; auto].
  destruct (register_errors_nil _ _ He) as (Hok & Hname & Hmail & Hfree & Hpw).
  unfold Accounts.register. rewrite Hfree.
  unfold Accounts.insert_user. rewrite Hname, Hfree.
  destruct (bool_decide (new_id ∈ user_id <$> users db)) eqn:Hid;
    [left; simpl; auto|].
  destruct (role_allowed (default "member" (Accounts.r_user_role (Accounts.sanitize b))))
    eqn:Hrole; [|left; simpl; auto].
  right. simpl. eexists. split; [reflexivity|]. simpl.
  apply bool_decide_eq_false in Hid.
  unfold Accounts.username_taken in Hname. apply bool_decide_eq_false in Hname.
  unfold Accounts.email_taken in Hfree. apply bool_decide_eq_false in Hfree.
  simpl in *. auto 20.
Qed.

(** X22. Once a registration has been answered 201, every well-formed login
    that names the new email is answered 403 "pending admin approval",
    whatever its password, and leaves the store alone. *)
Theorem registered_account_waits_for_approval new_id salt b now db uuid later req :
  status (fst (Accounts.post_register new_id salt b now db)) = 201 →
  Users.well_formed req →
  normalizeEmail (body_email req) = normalizeEmail (Accounts.r_email b) →
  Users.post_login uuid later req (snd (Accounts.post_register new_id salt b now db))
  = (respond 403 (JError "Account pending admin approval"),
     snd (Accounts.post_register new_id salt b now db)).
Proof.
  intros Hst Hwf He.
  destruct (post_register_created _ _ _ _ _ Hst) as (u & -> & Hp & Hmail & Hfree).
  rewrite post_login_well_formed by exact Hwf.
  unfold Users.login. simpl body_email. rewrite He, <- Hmail.
  unfold Users.users_by_email. simpl users.
  rewrite filter_app, filter_none.
  2:{ intros v Hv Hev. apply Hfree. rewrite <- Hev. now apply list_elem_of_fmap_2. }
  rewrite filter_cons. destruct (decide (email u = email u)); [|contradiction].
  simpl. rewrite Hp. reflexivity.
Qed.

End Registering.

Lemma registered_account_waits_for_approval_witness :
  status (fst (Accounts.post_register 7 "10$zoe" Fixture.newcomer 50 Sample.db)) = 201
  ∧ Users.post_login "5f0c" 60 (Sample.credentials "zoe" "zoe-Secret1!")
      (snd (Accounts.post_register 7 "10$zoe" Fixture.newcomer 50 Sample.db))
    = (respond 403 (JError "Account pending admin approval"),
       snd (Accounts.post_register 7 "10$zoe" Fixture.newcomer 50 Sample.db)).
Proof.
  split; [vm_compute; reflexivity|].
  apply (registered_account_waits_for_approval 7 "10$zoe" Fixture.newcomer 50
           Sample.db "5f0c" 60 (Sample.credentials "zoe" "zoe-Secret1!")).
  - vm_compute. reflexivity.
  - split; [reflexivity|discriminate].
  - reflexivity.
Defined.

(** ** The default super admin *)

Section Booting.
Context `{Hashing} `{Schema}.

Lemma insert_user_fails_alike new_id name mail hash hash' role st now now' db :
  Accounts.insert_user new_id name mail hash role st now db = None →
  Accounts.insert_user new_id name mail hash' role st now' db = None.
Proof.
  unfold Accounts.insert_user. now destruct (_ || _ || _ || _)%bool.
Qed.

(** X23. [ensureSuperAdmin] adds at most one account, and only to a store
    without super admin: the store is either left as it was (always so
    when it holds a super admin, or when the email or the password is not
    configured) or gains one approved super admin with the configured
    email and the hash of the configured password.  Run again with the
    same configuration and key, it changes nothing more. *)
Theorem ensureSuperAdmin_once env new_id salt now salt' now' db :
  (Boot.ensureSuperAdmin env new_id salt now db = db
   ∨ ∃ u,
       Boot.ensureSuperAdmin env new_id salt now db
       = Users.with_users db (users db ++ [u])%list
       ∧ user_role u = "super_admin" ∧ approval_status u = "APPROVED"
       ∧ Boot.SUPER_ADMIN_EMAIL env = Some (email u)
       ∧ password_hash u
         = bcrypt_hash salt (default "" (Boot.SUPER_ADMIN_PASSWORD env))
       ∧ Forall (fun v => user_role v ≠ "super_admin") (users db))
  ∧ ((∃ v, v ∈ users db ∧ user_role v = "super_admin") →
     Boot.ensureSuperAdmin env new_id salt now db = db)
  ∧ ((JS.truthy (Boot.SUPER_ADMIN_EMAIL env) = false
      ∨ JS.truthy (Boot.SUPER_ADMIN_PASSWORD env) = false) →
     Boot.ensureSuperAdmin env new_id salt now db = db)
  ∧ Boot.ensureSuperAdmin env new_id salt' now'
      (Boot.ensureSuperAdmin env new_id salt now db)
    = Boot.ensureSuperAdmin env new_id salt now db.
Proof.
  split; [|split; [|split]].
  - unfold Boot.ensureSuperAdmin.
    destruct (JS.truthy (Boot.SUPER_ADMIN_EMAIL env)) eqn:Hm; simpl; [|now left].
    destruct (negb (JS.truthy (Boot.SUPER_ADMIN_PASSWORD env))); [now left|].
    destruct (filter (fun u => user_role u = "super_admin") (users db))
      as [|w ws] eqn:Hf; [|now left].
    destruct (Accounts.insert_user _ _ _ _ _ _ now db) as [[u db']|] eqn:Hi;
      [|now left].
    unfold Accounts.insert_user in Hi.
    destruct (_ || _ || _ || _)%bool; [discriminate|]. injection Hi as <- <-.
    right. eexists. split; [reflexivity|]. simpl.
    apply truthy_inv in Hm as (m & -> & _).
    split; [reflexivity|]. split; [reflexivity|]. split; [reflexivity|].
    split; [reflexivity|].
    apply Forall_forall. intros v Hv Hr.
    assert (Hin : v ∈ filter (fun u => user_role u = "super_admin") (users db))
      by (apply list_elem_of_filter; auto).
    rewrite Hf in Hin. now apply elem_of_nil in Hin.
  - intros (v & Hv & Hr). unfold Boot.ensureSuperAdmin.
    destruct (_ || _)%bool; [reflexivity|].
    destruct (filter (fun u => user_role u = "super_admin") (users db))
      as [|w ws] eqn:Hf; [|reflexivity].
    assert (Hin : v ∈ filter (fun u => user_role u = "super_admin") (users db))
      by (apply list_elem_of_filter; auto).
    rewrite Hf in Hin. now apply elem_of_nil in Hin.
  - intros Hmissing. unfold Boot.ensureSuperAdmin.
    destruct Hmissing as [-> | ->]; simpl; [reflexivity|].
    now rewrite orb_true_r.
  - unfold Boot.ensureSuperAdmin.
    destruct (_ || _)%bool; [reflexivity|].
    destruct (filter (fun u => user_role u = "super_admin") (users db))
      as [|w ws] eqn:Hf.
    + destruct (Accounts.insert_user _ _ _ _ _ _ now db) as [[u db']|] eqn:Hi.
      * unfold Accounts.insert_user in Hi.
        destruct (_ || _ || _ || _)%bool; [discriminate|]. injection Hi as <- <-.
        simpl users. rewrite filter_app, Hf, filter_cons. simpl. reflexivity.
      * rewrite Hf. now rewrite (insert_user_fails_alike _ _ _ _ _ _ _ _ _ _ Hi).
    + now rewrite Hf.
Qed.

End Booting.

Lemma ensureSuperAdmin_once_witness :
  (username <$> users (Boot.ensureSuperAdmin Fixture.env 1 "10$c" 5 Fixture.headless))
  = ["ada"; "mia"; "pat"; "rex"; "sam"; "Super Admin"]
  ∧ Boot.ensureSuperAdmin Fixture.env 1 "10$c" 5 Sample.db = Sample.db.
Proof.
  split; [vm_compute; reflexivity|].
  destruct (ensureSuperAdmin_once Fixture.env 1 "10$c" 5 "10$c" 5 Sample.db)
    as (_ & Hkept & _).
  apply Hkept. exists Sample.root. split; [left|reflexivity].
Defined.

(** ** The profile route and the pending list *)

Section Profile.
Context `{Runtime}.

(** X24. [GET /me] never changes the store, and when it answers with a
    profile, that profile is the one of a row of [users] whose [user_id]
    is the one in the token the request presented, a token that was
    verified and is not revoked.  The role it shows is the one of the row,
    not the one of the token. *)
Theorem me_shows_own_row now req db :
  snd (Accounts.get_me now req db) = db
  ∧ (∀ v, body (fst (Accounts.get_me now req db)) = JUserRow v →
       ∃ t p u,
         Auth.extract_token req = Some t ∧ (t ∉ revoked_tokens db)
         ∧ jwt_verify t now = Some p
         ∧ u ∈ users db ∧ user_id u = p_user_id p
         ∧ v = Accounts.view_profile u
         ∧ status (fst (Accounts.get_me now req db)) = 200).
Proof.
  unfold Accounts.get_me. simpl.
  destruct (Auth.verifyToken now db req) as [req'|res] eqn:V.
  - destruct (verifyToken_next _ _ _ _ V) as (t & p & Ht & _ & Hr & Hv & ->).
    unfold Accounts.me. simpl.
    destruct (Users.users_by_id (p_user_id p) db) as [|u us] eqn:Hu;
      simpl; (split; [reflexivity|]); [discriminate|].
    intros v [= <-]. exists t, p, u.
    assert (Hin : u ∈ Users.users_by_id (p_user_id p) db) by (rewrite Hu; left).
    unfold Users.users_by_id in Hin. apply list_elem_of_filter in Hin as [Hid Hin].
    auto 10.
  - simpl. split; [reflexivity|]. intros v Hb.
    destruct (verifyToken_refusal _ _ _ _ V) as (_ & msg & Hmsg). congruence.
Qed.

Lemma older_total : Total Users.older.
Proof. intros a b. unfold Users.older. lia. Qed.

(** X25. The handler of [GET /pending] answers 200 with the accounts whose
    status is PENDING, each exactly as often as it is in the table and
    none else, in the order of their creation, and leaves the store as it
    was. *)
Theorem pending_lists_oldest_first now req db :
  ∃ rows,
    Users.pending now req db = (respond 200 (JUsers (view_full <$> rows)), db)
    ∧ rows ≡ₚ filter (fun u => approval_status u = "PENDING") (users db)
    ∧ Sorted Users.older rows
    ∧ Forall (fun u => approval_status u = "PENDING") rows.
Proof.
  exists (merge_sort Users.older
            (filter (fun u => approval_status u = "PENDING") (users db))).
  split; [reflexivity|]. split; [apply merge_sort_Permutation|].
  split; [pose proof older_total as Htotal; now apply Sorted_merge_sort|].
  apply Forall_forall. intros u Hu.
  rewrite merge_sort_Permutation in Hu. now apply list_elem_of_filter in Hu.
Qed.

End Profile.

(** ** The role × verb table and the owner check, continued *)

(** X26. For a method other than the five of the table, in whatever case
    it is written, [rbacAccess] answers 403 to every role, admin and
    super_admin included: the table has no wildcard. *)
Theorem rbacAccess_refuses_other_verbs (L : list JsValue) now db req role :
  Auth.role_of req = Some role → role ≠ "" →
  JS.toUpperCase (method req) ∉ ["GET"; "POST"; "PUT"; "PATCH"; "DELETE"] →
  ∃ res, Auth.rbacAccess L now db req = Done res ∧ status res = 403.
Proof.
  intros Hr Hne Hm. pose proof (rbacAccess_verdict L now db req) as Hv.
  rewrite Hr, (truthy_Some _ Hne) in Hv. simpl in Hv.
  assert (Ha : Policy.authorize role (JS.toUpperCase (method req)) = false).
  { rewrite !not_elem_of_cons in Hm. destruct Hm as (H1 & H2 & H3 & H4 & H5 & _).
    apply eqb_false_iff in H1, H2, H3, H4, H5.
    unfold Policy.authorize. simpl. rewrite H1, H2, H3, H4, H5.
    repeat (case_match; try reflexivity). }
  rewrite Ha in Hv.
  destruct (Auth.rbacAccess L now db req) as [r|res]; [discriminate|].
  exists res. split; [reflexivity|]. now injection Hv.
Qed.

Lemma rbacAccess_refuses_other_verbs_witness :
  ∃ res, Auth.rbacAccess [] 0 Sample.db (Fixture.in_role "super_admin" "head")
         = Done res ∧ status res = 403.
Proof.
  apply (rbacAccess_refuses_other_verbs [] 0 Sample.db
           (Fixture.in_role "super_admin" "head") "super_admin").
  - reflexivity.
  - discriminate.
  - rewrite list_elem_of_In. simpl. intuition discriminate.
Defined.

Lemma authorize_ladder i j ri rj m :
  Fixture.ladder !! i = Some ri → Fixture.ladder !! j = Some rj → (i ≤ j)%nat →
  Policy.authorize ri m = true → Policy.authorize rj m = true.
Proof.
  intros Hi Hj Hle. unfold Fixture.ladder in *.
  destruct i as [|[|[|[|[|i]]]]]; simpl in Hi; try discriminate Hi;
    injection Hi as <-;
    (destruct j as [|[|[|[|[|j]]]]]; simpl in Hj; try discriminate Hj;
     try lia; injection Hj as <-);
    unfold Policy.authorize; simpl; split_eqb; auto; discriminate.
Qed.

(** X27. The table is a ladder: whatever method [rbacAccess] lets a member
    through with, it lets finance through with; finance, staff; staff,
    admin; admin, super_admin. *)
Theorem rbacAccess_ladder (L : list JsValue) now db req p q i j :
  Fixture.ladder !! i = Some (p_role p) →
  Fixture.ladder !! j = Some (p_role q) →
  (i ≤ j)%nat →
  verdict (Auth.rbacAccess L now db (with_user req p)) = None →
  verdict (Auth.rbacAccess L now db (with_user req q)) = None.
Proof.
  intros Hi Hj Hle. rewrite !rbacAccess_verdict. unfold Auth.role_of. simpl.
  destruct (negb (String.eqb (p_role p) "")); [|discriminate].
  destruct (Policy.authorize (p_role p) _) eqn:Ha; [|discriminate]. intros _.
  rewrite (authorize_ladder i j _ _ _ Hi Hj Hle Ha).
  assert (Hq : p_role q ≠ "").
  { intros E. rewrite E in Hj. unfold Fixture.ladder in Hj.
    destruct j as [|[|[|[|[|j]]]]]; discriminate Hj. }
  now rewrite (proj2 (eqb_false_iff _ _) Hq).
Qed.

Lemma rbacAccess_ladder_witness :
  verdict (Auth.rbacAccess [] 0 Sample.db
             (with_user (Fixture.in_role "" "POST") (Sample.principal_of Sample.sam)))
  = None.
Proof.
  apply (rbacAccess_ladder [] 0 Sample.db (Fixture.in_role "" "POST")
           {| p_user_id := 8; p_email := "fay@ngo.org"; p_role := "finance" |}
           (Sample.principal_of Sample.sam) 1 2).
  - reflexivity.
  - reflexivity.
  - lia.
  - reflexivity.
Defined.

(** X28. Under a path whose last segment is a key of the ownership map,
    for a caller that is not admin, staff or super_admin and a table that
    exists: no row with the id gives 404; otherwise the caller is let
    through exactly when the owner column of the first such row, turned
    into a string, is the caller's email or the decimal form of the
    caller's id, and is answered 403 when it is not. *)
Theorem owner_check_on_known_entity now db req p cfg id rows :
  user req = Some p →
  p_role p ≠ "admin" → p_role p ≠ "staff" → p_role p ≠ "super_admin" →
  Auth.owner_map (Auth.entity_of req) = Auth.Own cfg →
  param_id req = Some id → id ≠ "" →
  tables db !! Auth.table cfg = Some rows →
  (filter (fun r : Row => r !! Auth.idcol cfg = Some (VText id)) rows = [] →
   Auth.requireOwnerOrAdmin now db req
   = Done (respond 404 (JError "Record not found")))
  ∧ (∀ r more owner,
       filter (fun r : Row => r !! Auth.idcol cfg = Some (VText id)) rows = r :: more →
       r !! Auth.ownercol cfg = Some owner →
       (Auth.requireOwnerOrAdmin now db req = Next req
        ↔ String_of_col owner = p_email p
          ∨ String_of_col owner = JS.String_of_Z (p_user_id p))
       ∧ (Auth.requireOwnerOrAdmin now db req = Next req
          ∨ Auth.requireOwnerOrAdmin now db req
            = Done (respond 403 (JError "Forbidden: not owner")))).
Proof.
  intros Hu H1 H2 H3 Hcfg Hid Hne Ht.
  rewrite (requireOwnerOrAdmin_known_entity now db req p cfg id rows
             Hu H1 H2 H3 Hcfg Hid Hne Ht).
  split; [intros ->; reflexivity|].
  intros r more owner -> ->.
  destruct (decide (String_of_col owner = p_email p
                    ∨ String_of_col owner = JS.String_of_Z (p_user_id p)))
    as [Hown|Hno].
  - rewrite bool_decide_eq_true_2 by exact Hown. split; [tauto|now left].
  - rewrite bool_decide_eq_false_2 by exact Hno.
    split; [split; [discriminate|contradiction]|now right].
Qed.

Lemma owner_check_on_known_entity_witness :
  Auth.requireOwnerOrAdmin 0 Sample.db
    (with_user (Sample.as_user Sample.mia "GET" "/api/v1/students_frf_owner"
                  (Some "S-9"))
       (Sample.principal_of Sample.mia))
  = Done (respond 404 (JError "Record not found")).
Proof.
  destruct (owner_check_on_known_entity 0 Sample.db
              (with_user (Sample.as_user Sample.mia "GET" "/api/v1/students_frf_owner"
                            (Some "S-9"))
                 (Sample.principal_of Sample.mia))
              (Sample.principal_of Sample.mia)
              {| Auth.table := "students"; Auth.idcol := "id";
                 Auth.ownercol := "student_frf_owner" |}
              "S-9" [Sample.student]) as [Hmissing _].
  - reflexivity.
  - discriminate.
  - discriminate.
  - discriminate.
  - reflexivity.
  - reflexivity.
  - discriminate.
  - vm_compute. reflexivity.
  - apply Hmissing. vm_compute. reflexivity.
Defined.

Lemma login_touches_only_lockout_witness :
  cookies (fst (Users.post_login "5f0c" 0 (Sample.credentials "mia" "guess") Sample.db))
  = []
  ∧ refresh_tokens
      (snd (Users.post_login "5f0c" 0 (Sample.credentials "mia" "guess") Sample.db))
    = refresh_tokens Sample.db.
Proof.
  destruct (login_touches_only_lockout "5f0c" 0 (Sample.credentials "mia" "guess")
              Sample.db) as (_ & _ & _ & _ & Hquiet).
  apply Hquiet. vm_compute. discriminate.
Defined.

Lemma me_shows_own_row_witness :
  ∃ t p u,
    Auth.extract_token (Sample.as_user Sample.mia "GET" "/api/v1/users" None) = Some t
    ∧ (t ∉ revoked_tokens Sample.db)
    ∧ jwt_verify t 0 = Some p
    ∧ u ∈ users Sample.db ∧ user_id u = p_user_id p
    ∧ Accounts.view_profile Sample.mia = Accounts.view_profile u
    ∧ status (fst (Accounts.get_me 0
                     (Sample.as_user Sample.mia "GET" "/api/v1/users" None)
                     Sample.db)) = 200.
Proof.
  destruct (me_shows_own_row 0 (Sample.as_user Sample.mia "GET" "/api/v1/users" None)
              Sample.db) as [_ Hown].
  apply Hown. vm_compute. reflexivity.
Defined.
